(** * The router worker's management plane (crossbar/worker/router.py)

    A shallow embedding of [RouterWorkerSession]: the registries of realms,
    components and transports, the start/stop/get procedures of the
    management API, and the builder of the Web resource tree.

    Conventions of the embedding.
    - The worker object is a record [Worker]; a method is a function that
      takes the worker and gives back the worker it leaves behind together
      with a value or the exception it raised.
    - A method that waits for a Deferred (a [yield] under [inlineCallbacks],
      or callbacks added to a Deferred that is returned) gives back the
      worker as it is left at the suspension point together with the rest of
      the method ([Awaiting]), which runs when the Deferred fires.
    - The module is written for Python 2 and Python 3; the interpreter is a
      parameter ([python]) where the two differ.
    - Configuration values are JSON-like trees ([Config]); the parameters
      documented as [dict] are taken as dictionaries.
    - Text is [string], one character per code point (code points below
      256); byte strings are [list byte].
    - The human-readable message of an [ApplicationError] and the calls to
      the logger change nothing in the worker and are left out: a fault is
      identified by its error URI. *)

From Stdlib Require Import ZArith NArith.
From Stdlib.Strings Require Import Ascii String Byte.
From stdpp Require Import gmap strings list fin_maps sorting.

Set Warnings "-register-all".
Local Open Scope string_scope.
Local Open Scope Z_scope.

(** ** Python values *)

(** The interpreter: the module is written for both lines of the language
    ([six], [from __future__ import absolute_import], the remark on Python 3 at
    the import of [WSGIResource]). *)
Inductive Python := Python2 | Python3.

Inductive Exn :=
| ApplicationError (error : string)
| Exception (msg : string)
| NotImplementedError
| ValueError
| KeyError (key : string)
| TypeError
| AttributeError (name : string)
| NameError (name : string)
| ImportError
| OSError
| RuntimeError (msg : string)
| Foreign (tag : string).

Inductive Result (A : Type) :=
| Ok (a : A)
| Raise (e : Exn).
Arguments Ok {A} a.
Arguments Raise {A} e.

Definition rbind {A B} (r : Result A) (k : A -> Result B) : Result B :=
  match r with
  | Ok a => k a
  | Raise e => Raise e
  end.

Inductive Config :=
| CNone
| CBool (b : bool)
| CInt (z : Z)
| CStr (s : string)
| CList (l : list Config)
| CDict (d : list (string * Config)).

(** A dictionary keeps one value per key; the first binding of a key is the
    one in force. *)
Abbreviation Dict := (list (string * Config)).

Fixpoint dict_lookup (d : Dict) (k : string) : option Config :=
  match d with
  | [] => None
  | (k', v) :: d' => if String.eqb k' k then Some v else dict_lookup d' k
  end.

(** [k in d] *)
Definition dict_has (d : Dict) (k : string) : bool :=
  match dict_lookup d k with Some _ => true | None => false end.

(** [d[k]] *)
Definition dict_item (d : Dict) (k : string) : Result Config :=
  match dict_lookup d k with
  | Some v => Ok v
  | None => Raise (KeyError k)
  end.

(** [d.get(k, default)] *)
Definition dict_get (d : Dict) (k : string) (default : Config) : Config :=
  match dict_lookup d k with
  | Some v => v
  | None => default
  end.

Definition dict_keys (d : Dict) : list string := d.*1.

(** [d[k] = v]: the value of a key that is there is replaced, a new key comes
    last. *)
Fixpoint dict_set (d : Dict) (k : string) (v : Config) : Dict :=
  match d with
  | [] => [(k, v)]
  | (k', v') :: d' =>
      if String.eqb k' k then (k, v) :: d' else (k', v') :: dict_set d' k v
  end.

(** The operations of a dictionary applied to another kind of value raise
    ([TypeError] stands for the [TypeError] or [AttributeError] of Python). *)
Definition as_dict (c : Config) : Result Dict :=
  match c with
  | CDict d => Ok d
  | _ => Raise TypeError
  end.

(** [c == s] for a text literal [s] *)
Definition is_str (c : Config) (s : string) : bool :=
  match c with
  | CStr s' => String.eqb s' s
  | _ => false
  end.

(** Truth value of a configuration value. *)
Definition truthy (c : Config) : bool :=
  match c with
  | CNone => false
  | CBool b => b
  | CInt z => negb (z =? 0)
  | CStr s => negb (String.eqb s "")
  | CList l => match l with [] => false | _ => true end
  | CDict d => match d with [] => false | _ => true end
  end.

Fixpoint is_substring (s t : string) : bool :=
  String.prefix s t ||
  match t with
  | EmptyString => false
  | String _ t' => is_substring s t'
  end.

(** [k in c] for a text literal [k]: a key of a dictionary, an element of a
    list, a substring of a text. *)
Definition py_in (k : string) (c : Config) : Result bool :=
  match c with
  | CDict d => Ok (dict_has d k)
  | CList l => Ok (existsb (fun x => is_str x k) l)
  | CStr s => Ok (is_substring k s)
  | _ => Raise TypeError
  end.

(** Keys of the dictionaries of the worker that are keyed by a value taken
    from a configuration: [True] and [1] are the same key, lists and
    dictionaries are not hashable. *)
Inductive Key :=
| KNone
| KInt (z : Z)
| KStr (s : string).

Global Instance Key_eq_dec : EqDecision Key.
Proof. solve_decision. Defined.

Global Instance Key_countable : Countable Key.
Proof.
  refine (inj_countable'
    (fun k => match k with
              | KNone => inl ()
              | KInt z => inr (inl z)
              | KStr s => inr (inr s)
              end)
    (fun x => match x with
              | inl _ => KNone
              | inr (inl z) => KInt z
              | inr (inr s) => KStr s
              end) _).
  by intros [].
Defined.

Definition hash_key (c : Config) : Result Key :=
  match c with
  | CNone => Ok KNone
  | CBool b => Ok (KInt (if b then 1 else 0))
  | CInt z => Ok (KInt z)
  | CStr s => Ok (KStr s)
  | CList _ | CDict _ => Raise TypeError
  end.

(** *** Text *)

(** [s.split(sep)] for a separator of one character. *)
Fixpoint split (sep : ascii) (s : string) : list string :=
  match s with
  | EmptyString => [""]
  | String c s' =>
      if Ascii.eqb c sep then "" :: split sep s'
      else match split sep s' with
           | p :: ps => String c p :: ps
           | [] => [String c ""]
           end
  end.

(** [a, b = parts] *)
Definition unpack2 {A} (parts : list A) : Result (A * A) :=
  match parts with
  | [a; b] => Ok (a, b)
  | _ => Raise ValueError
  end.

(** [t.encode('utf8')], for code points below 256. *)
Definition utf8_char (c : ascii) : list byte :=
  let n := N_of_ascii c in
  if (n <? 128)%N then [byte_of_ascii c]
  else [byte_of_ascii (ascii_of_N (N.lor 192 (N.shiftr n 6)));
        byte_of_ascii (ascii_of_N (N.lor 128 (N.land n 63)))].

Fixpoint encode_utf8 (t : string) : list byte :=
  match t with
  | EmptyString => []
  | String c t' => utf8_char c ++ encode_utf8 t'
  end.

Global Instance byte_eq_decision : EqDecision byte := Byte.byte_eq_dec.

Definition bytes_of_ascii_text (t : string) : list byte :=
  byte_of_ascii <$> list_ascii_of_string t.

Definition is_ascii_byte (b : byte) : bool := (Byte.to_N b <? 128)%N.

(** [t == b] for a text [t] and a byte string [b]. Python 2 decodes the bytes
    as ASCII and compares the texts (bytes outside ASCII compare unequal);
    in Python 3 a text never equals a byte string. *)
Definition text_eq_bytes (py : Python) (t : string) (b : list byte) : bool :=
  match py with
  | Python2 => forallb is_ascii_byte b && bool_decide (bytes_of_ascii_text t = b)
  | Python3 => false
  end.

(** *** Sorting *)

Section Sorted.
Context {A : Type} (lt : A -> A -> bool).

(** [sorted] is stable and compares with [<] only. *)
Fixpoint insert_sorted (x : A) (l : list A) : list A :=
  match l with
  | [] => [x]
  | y :: l' => if lt y x then y :: insert_sorted x l' else x :: y :: l'
  end.

Definition sorted (l : list A) : list A := foldr insert_sorted [] l.
End Sorted.

(** Order of two texts: by code point, the shorter first among prefixes. *)
Definition text_lt (s t : string) : bool := String.ltb s t.

(** ** The objects of the worker *)

(** Sessions attached to the routing-session factory: the service session of a
    realm, the local session of an uplink bridge, the plain application
    session of a REST or upload resource, and the session of a hosted
    component (with its error handler and its join/leave hooks installed). *)
Inductive Session :=
| RouterServiceSession (realm : Config) (schemas : Config)
| UplinkLocalSession (realm : Config) (uplink : Config)
| ApplicationSession (realm : Config)
| HostedSession (component : Dict) (realm : Config) (extra : Config).

(** What a Deferred fires with. *)
Inductive Value :=
| VNone
| VSession (s : Session)
| VPort (p : nat).

Inductive Fired :=
| Callback (v : Value)
| Errback (e : Exn).

Inductive ResourceKind :=
| WebSocketResource (config : Dict)
| StaticResource (listing : bool) (directory : list byte)
    (cache_timeout : Config) (mime_types : option Config)
| WSGIResource (root : bool) (module object : Config)
| RedirectResource (url : list byte)
| JsonResource (value : Config)
| CgiDirectory (directory : list byte) (processor : Config)
| WampLongPollResource (timeout killAfter queueLimitBytes queueLimitMessages
    debug debug_transport_id : Config)
| PublisherResource (options : Config) (session : Session)
| WebhookResource (options : Config) (session : Session)
| CallerResource (options : Config) (session : Session)
| FileUploadResource (upload_directory : list byte)
    (temp_directory : list byte + string) (form_fields : Config)
    (session : Session) (options : Config)
| CustomResource (classname extra : Config)
| SchemaDocResource (realm : Config) (schemas : Config)
| Resource404 (directory : list byte).

(** A Web resource with the children put under it, in the order of the calls
    to [putChild]. *)
Inductive Resource :=
| Res (kind : ResourceKind) (children : list (list byte * Resource)).

Definition kind (r : Resource) : ResourceKind :=
  match r with Res k _ => k end.

Definition children (r : Resource) : list (list byte * Resource) :=
  match r with Res _ c => c end.

Definition putChild (r : Resource) (name : list byte) (child : Resource) : Resource :=
  Res (kind r) (children r ++ [(name, child)]).

Inductive TransportFactory :=
| WampRawSocketServerFactory (config : Dict)
| WampWebSocketServerFactory (config : Dict)
| FlashPolicyFactory (allowed_domain allowed_ports : Config)
| WebSocketTesteeServerFactory (config : Dict)
| StreamTesteeServerFactory
| Site (root : Resource) (access_log : bool) (displayTracebacks : Config)
    (hsts_max_age : option Z).

Module RouterTransport.
Record t := mk {
  id : string;
  config : Dict;
  factory : TransportFactory;
  port : Value;
  created : Z }.
End RouterTransport.

Module RouterComponent.
Record t := mk {
  id : string;
  config : Dict;
  session : Session;
  created : Z }.
End RouterComponent.

Module RouterRealmRole.
Record t := mk {
  id : string;
  config : Dict }.
End RouterRealmRole.

Module RouterRealmUplink.
Record t := mk {
  id : string;
  config : Dict;
  session : Value }.

(** [RouterRealmUplink(id, config)]: the session starts as [None]. *)
Definition new (id : string) (config : Dict) : t := mk id config VNone.

Definition set_session (u : t) (s : Value) : t := mk (id u) (config u) s.
End RouterRealmUplink.

Module RouterRealm.
Record t := mk {
  id : string;
  config : Dict;
  session : option Session;
  created : Z;
  roles : gmap string RouterRealmRole.t;
  uplinks : gmap string RouterRealmUplink.t }.

(** [RouterRealm(id, config)] at time [now]. *)
Definition new (id : string) (config : Dict) (now : Z) : t :=
  mk id config None now ∅ ∅.

Definition set_session (r : t) (s : Session) : t :=
  mk (id r) (config r) (Some s) (created r) (roles r) (uplinks r).

Definition set_roles (r : t) (m : gmap string RouterRealmRole.t) : t :=
  mk (id r) (config r) (session r) (created r) m (uplinks r).

Definition set_uplinks (r : t) (m : gmap string RouterRealmUplink.t) : t :=
  mk (id r) (config r) (session r) (created r) (roles r) m.
End RouterRealm.

(** Modelled from the spec: the routing core ([RouterFactory], [Router]) is an
    external collaborator, consumed as "create a router for realm X" and
    "register role for realm X". A router is kept per realm URI, with the
    trace settings the worker writes into it and its role table. *)
Record Router := mkRouter {
  _trace_traffic : bool;
  _trace_traffic_roles_include : option (list string);
  _trace_traffic_roles_exclude : list string;
  router_roles : list Dict }.

Definition new_router : Router := mkRouter false None [] [].

Definition trace_router (r : Router) : Router :=
  mkRouter true None ["trusted"] (router_roles r).

Definition router_add_role (config : Dict) (r : Router) : Router :=
  mkRouter (_trace_traffic r) (_trace_traffic_roles_include r)
    (_trace_traffic_roles_exclude r) (router_roles r ++ [config]).

Record Worker := mkWorker {
  (** map: realm ID -> RouterRealm *)
  realms : gmap string RouterRealm.t;
  (** map: realm URI -> realm ID *)
  realm_to_id : gmap Key string;
  (** map: component ID -> RouterComponent *)
  components : gmap string RouterComponent.t;
  (** map: transport ID -> RouterTransport *)
  transports : gmap string RouterTransport.t;
  (** factory for producing (per-realm) routers *)
  _router_factory : gmap Key Router;
  (** factory for producing router sessions: the sessions added, with their
      authrole, in the order they were added *)
  _router_session_factory : list (Session * Config);
  (** the connection pool of the base class *)
  _connections : gmap string Config;
  (** the reading of [datetime.utcnow()] *)
  utcnow : Z;
  (** the thread pools started for WSGI resources (maxthreads, minthreads) *)
  thread_pools : list (Config * Config);
  (** the listening ports requested from the reactor (endpoint, factory) *)
  listening : list (Config * TransportFactory) }.

Definition set_realms (f : gmap string RouterRealm.t -> gmap string RouterRealm.t)
    (w : Worker) : Worker :=
  mkWorker (f (realms w)) (realm_to_id w) (components w) (transports w)
    (_router_factory w) (_router_session_factory w) (_connections w)
    (utcnow w) (thread_pools w) (listening w).

Definition set_realm_to_id (f : gmap Key string -> gmap Key string)
    (w : Worker) : Worker :=
  mkWorker (realms w) (f (realm_to_id w)) (components w) (transports w)
    (_router_factory w) (_router_session_factory w) (_connections w)
    (utcnow w) (thread_pools w) (listening w).

Definition set_components
    (f : gmap string RouterComponent.t -> gmap string RouterComponent.t)
    (w : Worker) : Worker :=
  mkWorker (realms w) (realm_to_id w) (f (components w)) (transports w)
    (_router_factory w) (_router_session_factory w) (_connections w)
    (utcnow w) (thread_pools w) (listening w).

Definition set_transports
    (f : gmap string RouterTransport.t -> gmap string RouterTransport.t)
    (w : Worker) : Worker :=
  mkWorker (realms w) (realm_to_id w) (components w) (f (transports w))
    (_router_factory w) (_router_session_factory w) (_connections w)
    (utcnow w) (thread_pools w) (listening w).

Definition set_router_factory (f : gmap Key Router -> gmap Key Router)
    (w : Worker) : Worker :=
  mkWorker (realms w) (realm_to_id w) (components w) (transports w)
    (f (_router_factory w)) (_router_session_factory w) (_connections w)
    (utcnow w) (thread_pools w) (listening w).

Definition set_router_session_factory
    (f : list (Session * Config) -> list (Session * Config))
    (w : Worker) : Worker :=
  mkWorker (realms w) (realm_to_id w) (components w) (transports w)
    (_router_factory w) (f (_router_session_factory w)) (_connections w)
    (utcnow w) (thread_pools w) (listening w).

Definition set_thread_pools (f : list (Config * Config) -> list (Config * Config))
    (w : Worker) : Worker :=
  mkWorker (realms w) (realm_to_id w) (components w) (transports w)
    (_router_factory w) (_router_session_factory w) (_connections w)
    (utcnow w) (f (thread_pools w)) (listening w).

Definition set_listening
    (f : list (Config * TransportFactory) -> list (Config * TransportFactory))
    (w : Worker) : Worker :=
  mkWorker (realms w) (realm_to_id w) (components w) (transports w)
    (_router_factory w) (_router_session_factory w) (_connections w)
    (utcnow w) (thread_pools w) (f (listening w)).

(** The worker as [onJoin] leaves it: empty registries, at time [now], with
    the connection pool [conns] of the base class. *)
Definition onJoin (conns : gmap string Config) (now : Z) : Worker :=
  mkWorker ∅ ∅ ∅ ∅ ∅ [] conns now [] [].

(** ** Methods: state and exceptions *)

Definition M (A : Type) : Type := Worker -> Worker * Result A.

Definition ret {A} (a : A) : M A := fun w => (w, Ok a).
Definition raise {A} (e : Exn) : M A := fun w => (w, Raise e).
Definition lift {A} (r : Result A) : M A := fun w => (w, r).
Definition bind {A B} (m : M A) (k : A -> M B) : M B :=
  fun w => match m w with
           | (w', Ok a) => k a w'
           | (w', Raise e) => (w', Raise e)
           end.
Definition get : M Worker := fun w => (w, Ok w).
Definition modify (f : Worker -> Worker) : M unit := fun w => (f w, Ok tt).

(** [try: m except Exception as e: h e] *)
Definition try_except {A} (m : M A) (h : Exn -> M A) : M A :=
  fun w => match m w with
           | (w', Ok a) => (w', Ok a)
           | (w', Raise e) => h e w'
           end.

Declare Scope py_scope.
Delimit Scope py_scope with py.
Notation "x <- m ;; k" := (bind m (fun x => k))
  (at level 100, m at next level, right associativity) : py_scope.
Notation "m ;; k" := (bind m (fun _ => k))
  (at level 100, right associativity) : py_scope.
Local Open Scope py_scope.

(** The rest of a method that waits for a Deferred: it runs on the worker as
    it is when the Deferred fires. *)
Definition Awaiting (A : Type) : Type := Fired -> M A.

(** Error URIs of the management API. *)
Definition already_running := ApplicationError "crossbar.error.already_running".
Definition already_exists := ApplicationError "crossbar.error.already_exists".
Definition invalid_configuration := ApplicationError "crossbar.error.invalid_configuration".
Definition no_such_object := ApplicationError "crossbar.error.no_such_object".
Definition cannot_stop := ApplicationError "crossbar.error.cannot_stop".
Definition cannot_listen := ApplicationError "crossbar.error.cannot_listen".
Definition not_running := ApplicationError "crossbar.error.not_running".
Definition class_import_failed := ApplicationError "crossbar.error.class_import_failed".

(** ** The collaborators of the worker

    What the module imports and calls but does not define: the interpreter,
    the configuration checker [crossbar.common.checkconfig], the loader of
    application sessions, the import machinery, the file system and the
    helpers of the standard library. A check or a loader that raises gives
    the exception it raises. *)
Record Env := mkEnv {
  python : Python;
  (** depth of nested calls the interpreter allows *)
  recursion_limit : nat;
  (** [self.config.extra.cbdir] *)
  cbdir : string;
  check_router_realm : Dict -> option Exn;
  check_router_component : Dict -> option Exn;
  check_router_transport : Dict -> option Exn;
  (** [_appsession_loader(config)] gives [create_component], which is applied
      to the realm and the extra of the component configuration *)
  _appsession_loader : Dict -> Result (Config -> Config -> option Exn);
  (** [importlib.import_module(name)]: the names of the module *)
  import_module : Config -> Result (list string);
  (** [pkg_resources.resource_filename(package, resource)] *)
  resource_filename : Config -> Config -> Result string;
  (** [os.path.abspath], [os.path.join] *)
  abspath : string -> string;
  path_join : string -> string -> string;
  _HAS_WSGI : bool;
  _HAS_CGI : bool;
  (** [WSGIResource(reactor, pool, app)], wrapped in a [WSGIRootResource]
      when [root]: the exception raised, if any *)
  make_wsgi_resource : Config -> Config -> bool -> option Exn;
  isdir : list byte + string -> bool;
  path_exists : string -> bool;
  makedirs : string -> option Exn;
  gettempdir : string;
  (** import of the class named and its call on the extra: does it succeed *)
  make_custom_resource : Config -> Config -> bool;
  (** [autobahn.util.utcstr] *)
  utcstr : Z -> string;
  (** [int(text)] *)
  int_of_text : string -> option Z }.

Definition as_text (c : Config) : Result string :=
  match c with
  | CStr s => Ok s
  | _ => Raise TypeError
  end.

(** The receiver of a method of texts, [c.method(...)]: a value that is no
    text has no such attribute. *)
Definition text_with (method : string) (c : Config) : Result string :=
  match c with
  | CStr s => Ok s
  | _ => Raise (AttributeError method)
  end.

(** [c[k]] for a text [k] *)
Definition subscript (c : Config) (k : string) : Result Config :=
  match c with
  | CDict d => dict_item d k
  | _ => Raise TypeError
  end.

(** The elements a [for] loop goes through. *)
Definition iterate (c : Config) : Result (list Config) :=
  match c with
  | CList l => Ok l
  | CDict d => Ok (CStr <$> dict_keys d)
  | CStr s => Ok ((fun a => CStr (String a "")) <$> list_ascii_of_string s)
  | _ => Raise TypeError
  end.

(** The value handed to [_add_paths] as [paths]: a dictionary; an empty list
    or text is gone through like an empty dictionary, any other value raises
    in [sorted] or at [paths[path]]. *)
Definition as_paths (c : Config) : Result Dict :=
  match c with
  | CDict d => Ok d
  | CList [] => Ok []
  | CStr "" => Ok []
  | _ => Raise TypeError
  end.

(** [t.encode('ascii', 'ignore')] *)
Definition encode_ascii_ignore (t : string) : list byte :=
  byte_of_ascii <$> filter (fun a => (N_of_ascii a < 128)%N) (list_ascii_of_string t).

Definition DEFAULT_CACHE_TIMEOUT : Z := 12 * 60 * 60.

(** The thirteen types of path that [_create_resource] knows, with the
    container type [path]. *)
Definition path_types : list string :=
  ["websocket"; "static"; "wsgi"; "redirect"; "json"; "cgi"; "longpoll";
   "publisher"; "webhook"; "caller"; "upload"; "resource"; "schemadoc"; "path"].

Section RouterWorkerSession.
Context (env : Env).

(** Modelled from the spec: the routing-session factory
    ([crossbar.router.session.RouterSessionFactory]) is not among the sources;
    the specification has the sessions "added to the routing-session
    factory". [self._router_session_factory.add(session, authrole=...)] is
    taken to succeed and to keep the session, in the order of the calls. *)
Definition add_session (s : Session) (authrole : Config) : M unit :=
  modify (set_router_session_factory (fun l => (l ++ [(s, authrole)])%list)).

(** [int(c)] *)
Definition py_int (c : Config) : Result Z :=
  match c with
  | CInt z => Ok z
  | CBool b => Ok (if b then 1 else 0)
  | CStr s => match int_of_text env s with
              | Some z => Ok z
              | None => Raise ValueError
              end
  | _ => Raise TypeError
  end.

(** [os.path.abspath(os.path.join(self.config.extra.cbdir, c))] *)
Definition cbdir_path (c : Config) : Result string :=
  rbind (as_text c) (fun s => Ok (abspath env (path_join env (cbdir env) s))).

(** *** get_router_realms *)
Definition get_router_realms : M (list Dict) :=
  raise (Exception "not implemented").

(** *** start_router_realm *)

(** What follows [yield extra['onready']]: the method returns, or the
    failure of the Deferred is raised at the [yield]. *)
Definition realm_ready : Awaiting unit :=
  fun fired =>
    match fired with
    | Callback _ => ret tt
    | Errback e => raise e
    end.

Definition start_router_realm (id : string) (config : Dict) (schemas : Config)
    (enable_trace : bool) : M (Awaiting unit) :=
  w <- get ;;
  (* prohibit starting a realm twice *)
  match realms w !! id with
  | Some _ => raise already_running
  | None =>
  (* check configuration *)
  match check_router_realm env config with
  | Some _ => raise invalid_configuration
  | None =>
  (* URI of the realm to start *)
  realm <- lift (dict_item config "name") ;;
  (* track realm *)
  modify (set_realms <[id := RouterRealm.new id config (utcnow w)]>) ;;
  uri <- lift (hash_key realm) ;;
  modify (set_realm_to_id <[uri := id]>) ;;
  (* create a new router for the realm *)
  modify (set_router_factory <[uri := new_router]>) ;;
  (if enable_trace then modify (set_router_factory (alter trace_router uri))
   else ret tt) ;;
  (* add a router/realm service session *)
  let session := RouterServiceSession realm schemas in
  modify (set_realms (alter (fun rlm => RouterRealm.set_session rlm session) id)) ;;
  add_session session (CStr "trusted") ;;
  (* yield extra['onready'] *)
  ret realm_ready
  end end.

(** *** stop_router_realm *)
Definition stop_router_realm (id : string) (close_sessions : bool) : M unit :=
  raise NotImplementedError.

(** *** get_router_realm_roles *)
Definition get_router_realm_roles (id : string) : M (list RouterRealmRole.t) :=
  w <- get ;;
  match realms w !! id with
  | None => raise no_such_object
  | Some rlm => ret ((map_to_list (RouterRealm.roles rlm)).*2)
  end.

(** *** start_router_realm_role *)
Definition start_router_realm_role (id role_id : string) (config : Dict) : M unit :=
  w <- get ;;
  match realms w !! id with
  | None => raise no_such_object
  | Some rlm =>
  match RouterRealm.roles rlm !! role_id with
  | Some _ => raise already_exists
  | None =>
  modify (set_realms <[id := RouterRealm.set_roles rlm
            (<[role_id := RouterRealmRole.mk role_id config]> (RouterRealm.roles rlm))]>) ;;
  realm <- lift (dict_item (RouterRealm.config rlm) "name") ;;
  uri <- lift (hash_key realm) ;;
  modify (set_router_factory (alter (router_add_role config) uri))
  end end.

(** *** stop_router_realm_role *)
Definition stop_router_realm_role (id role_id : string) : M unit :=
  w <- get ;;
  match realms w !! id with
  | None => raise no_such_object
  | Some rlm =>
  match RouterRealm.roles rlm !! role_id with
  | None => raise no_such_object
  | Some _ =>
  modify (set_realms <[id := RouterRealm.set_roles rlm
            (delete role_id (RouterRealm.roles rlm))]>)
  end end.

(** *** get_router_realm_uplinks *)
Definition get_router_realm_uplinks (id : string) : M (list RouterRealmUplink.t) :=
  w <- get ;;
  match realms w !! id with
  | None => raise no_such_object
  | Some rlm => ret ((map_to_list (RouterRealm.uplinks rlm)).*2)
  end.

(** [self.realms[realm_id].uplinks[uplink_id].session = s] *)
Definition set_uplink_session (realm_id uplink_id : string) (s : Value) : M unit :=
  w <- get ;;
  match realms w !! realm_id with
  | None => raise (KeyError realm_id)
  | Some rlm =>
  match RouterRealm.uplinks rlm !! uplink_id with
  | None => raise (KeyError uplink_id)
  | Some u =>
  modify (set_realms <[realm_id := RouterRealm.set_uplinks rlm
            (<[uplink_id := RouterRealmUplink.set_session u s]> (RouterRealm.uplinks rlm))]>)
  end end.

(** What follows [yield extra['onready']] in [start_router_realm_uplink]. *)
Definition uplink_ready (realm_id uplink_id : string) : Awaiting unit :=
  fun fired =>
    match fired with
    | Errback e => raise e
    | Callback uplink_session =>
        set_uplink_session realm_id uplink_id uplink_session
    end.

(** *** start_router_realm_uplink *)
Definition start_router_realm_uplink (realm_id uplink_id : string)
    (uplink_config : Dict) : M (Awaiting unit) :=
  w <- get ;;
  (* check arguments *)
  match realms w !! realm_id with
  | None => raise no_such_object
  | Some rlm =>
  match RouterRealm.uplinks rlm !! uplink_id with
  | Some _ => raise already_exists
  | None =>
  (* create a representation of the uplink *)
  modify (set_realms <[realm_id := RouterRealm.set_uplinks rlm
            (<[uplink_id := RouterRealmUplink.new uplink_id uplink_config]>
               (RouterRealm.uplinks rlm))]>) ;;
  (* create the local session of the bridge *)
  realm <- lift (dict_item (RouterRealm.config rlm) "name") ;;
  add_session (UplinkLocalSession realm (CDict uplink_config)) (CStr "trusted") ;;
  (* wait until the uplink is ready *)
  ret (uplink_ready realm_id uplink_id)
  end end.

(** *** stop_router_realm_uplink *)
Definition stop_router_realm_uplink (id uplink_id : string) : M unit :=
  raise NotImplementedError.

(** The summary of a component or of a transport. *)
Definition summary (id : string) (created : Z) (config : Dict) : Dict :=
  [("id", CStr id); ("created", CStr (utcstr env created)); ("config", CDict config)].

(** *** get_router_components *)
Definition get_router_components : M (list Dict) :=
  w <- get ;;
  ret ((fun component =>
          summary (RouterComponent.id component) (RouterComponent.created component)
            (RouterComponent.config component))
       <$> sorted (fun c1 c2 => RouterComponent.created c1 <? RouterComponent.created c2)
             ((map_to_list (components w)).*2)).

(** *** start_router_component *)

(** The loop that resolves the references to other entities; [references]
    is the dictionary built so far, which [references[ref] = ...] writes: a
    reference given twice has one entry. *)
Fixpoint resolve_references (connections : gmap string Config)
    (refs : list Config) (references : list (string * Config))
    : Result (list (string * Config)) :=
  match refs with
  | [] => Ok references
  | ref :: refs' =>
      rbind (text_with "split" ref) (fun ref =>
      rbind (unpack2 (split ":" ref)) (fun '(ref_type, ref_id) =>
      if String.eqb ref_type "connection" then
        match connections !! ref_id with
        | Some c => resolve_references connections refs' (dict_set references ref c)
        | None => Raise invalid_configuration
        end
      else Raise invalid_configuration))
  end.

Definition start_router_component (id : string) (config : Dict) : M unit :=
  w <- get ;;
  (* prohibit starting a component twice *)
  match components w !! id with
  | Some _ => raise already_running
  | None =>
  (* check configuration *)
  match check_router_component env config with
  | Some _ => raise invalid_configuration
  | None =>
  (* the type of the component is read for the log *)
  type <- lift (dict_item config "type") ;;
  (* resolve references to other entities *)
  refs <- lift (iterate (dict_get config "references" (CList []))) ;;
  references <- lift (resolve_references (_connections w) refs []) ;;
  (* create component config *)
  realm <- lift (dict_item config "realm") ;;
  let extra := dict_get config "extra" CNone in
  create_component <- lift (_appsession_loader env config) ;;
  (* .. and create and add an WAMP application session *)
  match create_component realm extra with
  | Some e => raise e
  | None =>
  let session := HostedSession config realm extra in
  modify (set_components <[id := RouterComponent.mk id config session (utcnow w)]>) ;;
  add_session session (dict_get config "role" (CStr "anonymous"))
  end end end.

(** *** stop_router_component *)

(** Modelled from the spec: the base class [NativeWorkerSession] is not among
    the sources. The specification says of the attribute [_session_factory]
    read by [stop_router_component] that it "does not exist in this class"
    (the class keeps the factory of routing sessions in
    [_router_session_factory]): reading it raises [AttributeError]. Had it
    existed, it would have given an object with a [remove] method. *)
Definition _session_factory : Result (RouterComponent.t -> M unit) :=
  Raise (AttributeError "_session_factory").

Definition stop_router_component (id : string) : M unit :=
  w <- get ;;
  match components w !! id with
  | Some component =>
      try_except
        (remove <- lift _session_factory ;;
         remove component ;;
         modify (set_components (delete id)))
        (fun e => raise cannot_stop)
  | None => raise no_such_object
  end.

(** *** get_router_transports *)
Definition get_router_transports : M (list Dict) :=
  w <- get ;;
  ret ((fun transport =>
          summary (RouterTransport.id transport) (RouterTransport.created transport)
            (RouterTransport.config transport))
       <$> sorted (fun c1 c2 => RouterTransport.created c1 <? RouterTransport.created c2)
             ((map_to_list (transports w)).*2)).

(** *** _add_paths *)

(** One round of the loop of [_add_paths]. The keys are text, so each is
    encoded; the test that leaves out the root compares the key itself, not
    its encoding, with the byte string [b"/"]. *)
Definition add_path (create : Config -> M Resource) (paths : Dict)
    (resource : Resource) (path : string) : M Resource :=
  let webPath := encode_utf8 path in
  if negb (text_eq_bytes (python env) path ["/"%byte]) then
    path_config <- lift (dict_item paths path) ;;
    child <- create path_config ;;
    ret (putChild resource webPath child)
  else ret resource.

Fixpoint add_each (create : Config -> M Resource) (paths : Dict)
    (keys : list string) (resource : Resource) : M Resource :=
  match keys with
  | [] => ret resource
  | path :: keys' =>
      resource' <- add_path create paths resource path ;;
      add_each create paths keys' resource'
  end.

(** [create] stands for [self._create_resource]; the resource with the
    children put under it is given back. *)
Definition _add_paths (create : Config -> M Resource) (resource : Resource)
    (paths : Dict) : M Resource :=
  add_each create paths (sorted text_lt (dict_keys paths)) resource.

(** *** _create_resource *)

Definition leaf (k : ResourceKind) : Resource := Res k [].

(** A plain application session on the realm of the path, added to the
    router under the role of the path (publisher, webhook, caller, upload). *)
Definition vanilla_session (path_config : Dict) : M Session :=
  realm <- lift (dict_item path_config "realm") ;;
  let session := ApplicationSession realm in
  add_session session (dict_get path_config "role" (CStr "anonymous")) ;;
  ret session.

Definition create_static (path_config : Dict) : M Resource :=
  let static_options := dict_get path_config "options" (CDict []) in
  static_dir <-
    (if dict_has path_config "directory" then
       lift (rbind (dict_item path_config "directory") cbdir_path)
     else if dict_has path_config "package" then
       if negb (dict_has path_config "resource") then raise invalid_configuration
       else
         package <- lift (dict_item path_config "package") ;;
         match import_module env package with
         | Raise ImportError => raise invalid_configuration
         | Raise e => raise e
         | Ok _ =>
             resource <- lift (dict_item path_config "resource") ;;
             match resource_filename env package resource with
             | Raise _ => raise invalid_configuration
             | Ok f => ret (abspath env f)
             end
         end
     else raise invalid_configuration) ;;
  let static_dir := encode_ascii_ignore static_dir in
  static_options <- lift (as_dict static_options) ;;
  let listing := truthy (dict_get static_options "enable_directory_listing" (CBool false)) in
  let cache_timeout := dict_get static_options "cache_timeout" (CInt DEFAULT_CACHE_TIMEOUT) in
  ret (leaf (StaticResource listing static_dir cache_timeout
               (dict_lookup static_options "mime_types"))).

Definition create_wsgi (path_config : Dict) (nested : bool) : M Resource :=
  if negb (_HAS_WSGI env) then raise invalid_configuration
  else if negb (dict_has path_config "module") then raise invalid_configuration
  else if negb (dict_has path_config "object") then raise invalid_configuration
  else
    (* import WSGI app module and object *)
    mod_name <- lift (dict_item path_config "module") ;;
    match import_module env mod_name with
    | Raise ImportError => raise invalid_configuration
    | Raise e => raise e
    | Ok names =>
        obj_name <- lift (dict_item path_config "object") ;;
        key <- lift (hash_key obj_name) ;;
        if negb (match key with KStr s => bool_decide (s ∈ names) | _ => false end)
        then raise invalid_configuration
        else
          (* create a threadpool for running the WSGI requests in *)
          modify (set_thread_pools (fun l =>
            (l ++ [(dict_get path_config "maxthreads" (CInt 20),
                    dict_get path_config "minthreads" (CInt 0))])%list)) ;;
          match make_wsgi_resource env mod_name obj_name (negb nested) with
          | Some _ => raise invalid_configuration
          | None => ret (leaf (WSGIResource (negb nested) mod_name obj_name))
          end
    end.

Definition create_redirect (path_config : Dict) : M Resource :=
  url <- lift (rbind (dict_item path_config "url") (text_with "encode")) ;;
  ret (leaf (RedirectResource (encode_ascii_ignore url))).

Definition create_json (path_config : Dict) : M Resource :=
  value <- lift (dict_item path_config "value") ;;
  ret (leaf (JsonResource value)).

Definition create_cgi (path_config : Dict) : M Resource :=
  cgi_processor <- lift (dict_item path_config "processor") ;;
  cgi_directory <- lift (rbind (dict_item path_config "directory") cbdir_path) ;;
  let cgi_directory := encode_ascii_ignore cgi_directory in
  if _HAS_CGI env then ret (leaf (CgiDirectory cgi_directory cgi_processor))
  else raise (NameError "CgiDirectory").

Definition create_longpoll (path_config : Dict) : M Resource :=
  path_options <- lift (as_dict (dict_get path_config "options" (CDict []))) ;;
  ret (leaf (WampLongPollResource
               (dict_get path_options "request_timeout" (CInt 10))
               (dict_get path_options "session_timeout" (CInt 30))
               (dict_get path_options "queue_limit_bytes" (CInt (128 * 1024)))
               (dict_get path_options "queue_limit_messages" (CInt 100))
               (dict_get path_options "debug" (CBool false))
               (dict_get path_options "debug_transport_id" CNone))).

Definition create_publisher (path_config : Dict) : M Resource :=
  publisher_session <- vanilla_session path_config ;;
  ret (leaf (PublisherResource (dict_get path_config "options" (CDict [])) publisher_session)).

Definition create_webhook (path_config : Dict) : M Resource :=
  webhook_session <- vanilla_session path_config ;;
  ret (leaf (WebhookResource (dict_get path_config "options" (CDict [])) webhook_session)).

Definition create_caller (path_config : Dict) : M Resource :=
  caller_session <- vanilla_session path_config ;;
  ret (leaf (CallerResource (dict_get path_config "options" (CDict [])) caller_session)).

Definition create_upload (path_config : Dict) : M Resource :=
  upload_directory <- lift (rbind (dict_item path_config "directory") cbdir_path) ;;
  let upload_directory := encode_ascii_ignore upload_directory in
  if negb (isdir env (inl upload_directory)) then raise invalid_configuration
  else
    temp_directory <-
      (if dict_has path_config "temp_directory" then
         t <- lift (rbind (dict_item path_config "temp_directory") cbdir_path) ;;
         ret (inl (encode_ascii_ignore t), isdir env (inl (encode_ascii_ignore t)))
       else
         let t := path_join env (abspath env (gettempdir env)) "crossbar-uploads" in
         if path_exists env t then ret (inr t, isdir env (inr t))
         else match makedirs env t with
              | Some e => raise e
              | None => ret (inr t, true)
              end) ;;
    if negb (temp_directory.2) then raise invalid_configuration
    else
      (* file upload progress and finish events are published via this session *)
      upload_session <- vanilla_session path_config ;;
      form_fields <- lift (dict_item path_config "form_fields") ;;
      ret (leaf (FileUploadResource upload_directory temp_directory.1 form_fields
                   upload_session (dict_get path_config "options" (CDict [])))).

(** When [classname] is missing, the handler of the [try] itself fails on
    the name [klassname], which was never bound. *)
Definition create_custom (path_config : Dict) : M Resource :=
  match dict_lookup path_config "classname" with
  | None => raise (NameError "klassname")
  | Some klassname =>
      let extra := dict_get path_config "extra" (CDict []) in
      if make_custom_resource env klassname extra
      then ret (leaf (CustomResource klassname extra))
      else raise class_import_failed
  end.

(** Modelled from the spec: the service session of a realm
    ([crossbar.router.session.RouterServiceSession]) is not among the sources.
    Its attribute [_schemas] is taken to be a dictionary of the session's own,
    empty unless the session was created with schemas, which it then holds.
    No other session, and no missing session, has the attribute. *)
Definition _schemas (session : option Session) : Result Config :=
  match session with
  | Some (RouterServiceSession _ schemas) =>
      Ok (if truthy schemas then schemas else CDict [])
  | _ => Raise (AttributeError "_schemas")
  end.

Definition create_schemadoc (path_config : Dict) : M Resource :=
  realm <- lift (dict_item path_config "realm") ;;
  uri <- lift (hash_key realm) ;;
  w <- get ;;
  match realm_to_id w !! uri with
  | None => raise no_such_object
  | Some realm_id =>
      match realms w !! realm_id with
      | None => raise (KeyError realm_id)
      | Some rlm =>
          realm_schemas <- lift (_schemas (RouterRealm.session rlm)) ;;
          ret (leaf (SchemaDocResource realm realm_schemas))
      end
  end.

(** [depth] is the number of nested calls the interpreter still allows; the
    call that exceeds it raises ("maximum recursion depth exceeded"). *)
Fixpoint _create_resource (depth : nat) (path_config : Config) (nested : bool)
    : M Resource :=
  match depth with
  | O => raise (RuntimeError "maximum recursion depth exceeded")
  | S depth =>
      path_config <- lift (as_dict path_config) ;;
      type <- lift (dict_item path_config "type") ;;
      if is_str type "websocket" then ret (leaf (WebSocketResource path_config))
      else if is_str type "static" then create_static path_config
      else if is_str type "wsgi" then create_wsgi path_config nested
      else if is_str type "redirect" then create_redirect path_config
      else if is_str type "json" then create_json path_config
      else if is_str type "cgi" then create_cgi path_config
      else if is_str type "longpoll" then create_longpoll path_config
      else if is_str type "publisher" then create_publisher path_config
      else if is_str type "webhook" then create_webhook path_config
      else if is_str type "caller" then create_caller path_config
      else if is_str type "upload" then create_upload path_config
      else if is_str type "resource" then create_custom path_config
      else if is_str type "schemadoc" then create_schemadoc path_config
      else if is_str type "path" then
        let nested_paths := dict_get path_config "paths" (CDict []) in
        has_root <- lift (py_in "/" nested_paths) ;;
        nested_resource <-
          (if has_root then
             root_config <- lift (subscript nested_paths "/") ;;
             _create_resource depth root_config true
           else ret (leaf (Resource404 []))) ;;
        (* nest subpaths under the current entry *)
        nested_paths <- lift (as_paths nested_paths) ;;
        _add_paths (fun c => _create_resource depth c true) nested_resource nested_paths
      else raise invalid_configuration
  end.

(** *** start_router_transport *)

Definition create_site (config : Dict) : M TransportFactory :=
  let options := dict_get config "options" (CDict []) in
  (* create Twisted Web root resource *)
  paths <- lift (dict_item config "paths") ;;
  has_root <- lift (py_in "/" paths) ;;
  root <-
    (if has_root then
       root_config <- lift (subscript paths "/") ;;
       _create_resource (recursion_limit env) root_config false
     else ret (leaf (Resource404 []))) ;;
  (* create Twisted Web resources on all non-root paths configured *)
  paths <- lift (as_paths (dict_get config "paths" (CDict []))) ;;
  root <- _add_paths (fun c => _create_resource (recursion_limit env) c true) root paths ;;
  (* create the actual transport factory *)
  options <- lift (as_dict options) ;;
  let access_log := truthy (dict_get options "access_log" (CBool false)) in
  let displayTracebacks := dict_get options "display_tracebacks" (CBool false) in
  (* HSTS *)
  if truthy (dict_get options "hsts" (CBool false)) then
    endpoint <- lift (dict_item config "endpoint") ;;
    tls <- lift (py_in "tls" endpoint) ;;
    if tls then
      hsts_max_age <- lift (py_int (dict_get options "hsts_max_age" (CInt 31536000))) ;;
      ret (Site root access_log displayTracebacks (Some hsts_max_age))
    else ret (Site root access_log displayTracebacks None)
  else ret (Site root access_log displayTracebacks None).

(** The chain of tests on [config['type']] that chooses the factory of the
    transport. *)
Definition choose_factory (config : Dict) : M TransportFactory :=
  type <- lift (dict_item config "type") ;;
  (* standalone WAMP-RawSocket transport *)
  if is_str type "rawsocket" then ret (WampRawSocketServerFactory config)
  (* standalone WAMP-WebSocket transport *)
  else if is_str type "websocket" then ret (WampWebSocketServerFactory config)
  (* Flash-policy file server pseudo transport *)
  else if is_str type "flashpolicy" then
    ret (FlashPolicyFactory (dict_get config "allowed_domain" CNone)
           (dict_get config "allowed_ports" CNone))
  (* WebSocket testee pseudo transport *)
  else if is_str type "websocket.testee" then ret (WebSocketTesteeServerFactory config)
  (* Stream testee pseudo transport *)
  else if is_str type "stream.testee" then ret StreamTesteeServerFactory
  (* Twisted Web based transport *)
  else if is_str type "web" then create_site config
  (* Unknown transport type *)
  else raise (Exception "logic error").

(** The callbacks added to the Deferred of the listening port. *)
Definition listening_callbacks (id : string) (config : Dict)
    (transport_factory : TransportFactory) : Awaiting unit :=
  fun fired =>
    match fired with
    | Callback port =>
        w <- get ;;
        modify (set_transports
          <[id := RouterTransport.mk id config transport_factory port (utcnow w)]>)
    | Errback err => raise cannot_listen
    end.

Definition start_router_transport (id : string) (config : Dict) : M (Awaiting unit) :=
  w <- get ;;
  (* prohibit starting a transport twice *)
  match transports w !! id with
  | Some _ => raise already_running
  | None =>
  (* check configuration *)
  match check_router_transport env config with
  | Some _ => raise invalid_configuration
  | None =>
  transport_factory <- choose_factory config ;;
  (* create transport endpoint / listening port from transport factory *)
  endpoint <- lift (dict_item config "endpoint") ;;
  modify (set_listening (fun l => (l ++ [(endpoint, transport_factory)])%list)) ;;
  ret (listening_callbacks id config transport_factory)
  end end.

(** *** stop_router_transport

    The callbacks are added to the Deferred of [stopListening], which the
    method returns: they run when the port has stopped. *)
Definition stopped_callbacks (id : string) : Awaiting unit :=
  fun fired =>
    match fired with
    | Callback _ => modify (set_transports (delete id))
    | Errback err => raise cannot_stop
    end.

Definition stop_router_transport (id : string) : M (Awaiting unit) :=
  w <- get ;;
  match transports w !! id with
  | None => raise not_running
  | Some _ =>
      ret (stopped_callbacks id)
  end.
End RouterWorkerSession.

(** ** The routing-session factory as a parameter

    [start_router_component] and [start_router_realm_uplink] with the [add]
    of the routing-session factory, which is not among the sources, left
    open: the methods above are these with [add_session] for [add]. *)
Definition start_router_component_with (env : Env)
    (add : Session -> Config -> M unit) (id : string) (config : Dict) : M unit :=
  w <- get ;;
  (* prohibit starting a component twice *)
  match components w !! id with
  | Some _ => raise already_running
  | None =>
  (* check configuration *)
  match check_router_component env config with
  | Some _ => raise invalid_configuration
  | None =>
  (* the type of the component is read for the log *)
  type <- lift (dict_item config "type") ;;
  (* resolve references to other entities *)
  refs <- lift (iterate (dict_get config "references" (CList []))) ;;
  references <- lift (resolve_references (_connections w) refs []) ;;
  (* create component config *)
  realm <- lift (dict_item config "realm") ;;
  let extra := dict_get config "extra" CNone in
  create_component <- lift (_appsession_loader env config) ;;
  (* .. and create and add an WAMP application session *)
  match create_component realm extra with
  | Some e => raise e
  | None =>
  let session := HostedSession config realm extra in
  modify (set_components <[id := RouterComponent.mk id config session (utcnow w)]>) ;;
  add session (dict_get config "role" (CStr "anonymous"))
  end end end.

Definition start_router_realm_uplink_with (add : Session -> Config -> M unit)
    (realm_id uplink_id : string) (uplink_config : Dict) : M (Awaiting unit) :=
  w <- get ;;
  (* check arguments *)
  match realms w !! realm_id with
  | None => raise no_such_object
  | Some rlm =>
  match RouterRealm.uplinks rlm !! uplink_id with
  | Some _ => raise already_exists
  | None =>
  (* create a representation of the uplink *)
  modify (set_realms <[realm_id := RouterRealm.set_uplinks rlm
            (<[uplink_id := RouterRealmUplink.new uplink_id uplink_config]>
               (RouterRealm.uplinks rlm))]>) ;;
  (* create the local session of the bridge *)
  realm <- lift (dict_item (RouterRealm.config rlm) "name") ;;
  add (UplinkLocalSession realm (CDict uplink_config)) (CStr "trusted") ;;
  (* wait until the uplink is ready *)
  ret (uplink_ready realm_id uplink_id)
  end end.

(** ** Vocabulary of the properties *)

(** The worker at the suspension point of [start_router_realm]. *)
Definition realm_started (w : Worker) (id : string) (config : Dict)
    (realm schemas : Config) (uri : Key) (enable_trace : bool) : Worker :=
  let session := RouterServiceSession realm schemas in
  set_router_session_factory (fun l => (l ++ [(session, CStr "trusted")])%list)
    (set_realms
       <[id := RouterRealm.mk id config (Some session) (utcnow w) ∅ ∅]>
       (set_router_factory
          <[uri := if enable_trace then trace_router new_router else new_router]>
          (set_realm_to_id <[uri := id]> w))).

(** [quiet w w']: from [w] to [w'] the registries, the routers, the
    connections, the clock and the list of requested listening ports are the
    same; only sessions and thread pools may have been added. *)
Definition quiet (w w' : Worker) : Prop :=
  realms w' = realms w /\
  realm_to_id w' = realm_to_id w /\
  components w' = components w /\
  transports w' = transports w /\
  _router_factory w' = _router_factory w /\
  _connections w' = _connections w /\
  utcnow w' = utcnow w /\
  listening w' = listening w.

(** [m] relates the worker it starts from and the one it leaves by [P],
    whether it returns or raises. *)
Definition preserves {A} (P : Worker -> Worker -> Prop) (m : M A) : Prop :=
  forall w w' r, m w = (w', r) -> P w w'.

(** The rest of a method that has suspended. *)
Definition continuation {A} (r : Result (Awaiting A)) : Awaiting A :=
  match r with
  | Ok k => k
  | Raise e => fun _ => raise e
  end.

(** A reference that the loop of [start_router_component] resolves: a text
    ["connection:<id>"] whose id is in the connection pool. *)
Definition resolves (connections : gmap string Config) (ref : Config) : Prop :=
  exists s ref_id c,
    ref = CStr s /\ split ":" s = ["connection"; ref_id] /\ connections !! ref_id = Some c.

(** The keys of [paths] that [_add_paths] puts under the resource, in the
    order in which it does. *)
Definition attached (py : Python) (paths : Dict) : list string :=
  filter (fun path => text_eq_bytes py path ["/"%byte] = false)
    (sorted text_lt (dict_keys paths)).

(** [type] is one of the types of path that [_create_resource] knows. *)
Definition recognised (type : Config) : bool :=
  existsb (is_str type) path_types.

(** A path configuration whose type is not recognised, or a container of
    paths that holds one, at any depth. *)
Inductive unrecognised : Config -> Prop :=
| unrecognised_here d type :
    dict_lookup d "type" = Some type ->
    recognised type = false ->
    unrecognised (CDict d)
| unrecognised_below d paths path path_config :
    dict_lookup d "type" = Some (CStr "path") ->
    dict_lookup d "paths" = Some (CDict paths) ->
    dict_lookup paths path = Some path_config ->
    unrecognised path_config ->
    unrecognised (CDict d).

(** [m] raises, whatever the worker it starts from. *)
Definition fails {A} (m : M A) : Prop :=
  forall w, exists w' e, m w = (w', Raise e).

(** ** The management API as a transition system

    The procedures that [onJoin] registers are called one after the other on
    the single event loop; a call that waits for a Deferred leaves the rest of
    its work pending, and the loop runs it when the Deferred fires, possibly
    after other calls. *)
Module Proc.
Inductive t :=
| get_router_realms
| start_router_realm (id : string) (config : Dict) (schemas : Config) (enable_trace : bool)
| stop_router_realm (id : string) (close_sessions : bool)
| get_router_realm_roles (id : string)
| start_router_realm_role (id role_id : string) (config : Dict)
| stop_router_realm_role (id role_id : string)
| get_router_realm_uplinks (id : string)
| start_router_realm_uplink (realm_id uplink_id : string) (uplink_config : Dict)
| stop_router_realm_uplink (id uplink_id : string)
| get_router_components
| start_router_component (id : string) (config : Dict)
| stop_router_component (id : string)
| get_router_transports
| start_router_transport (id : string) (config : Dict)
| stop_router_transport (id : string).
End Proc.

(** A call that has run to its end, discarding what it returns. *)
Definition finished {A} (m : M A) : M (option (Awaiting unit)) :=
  bind m (fun _ => ret None).

(** A call that has run up to the Deferred it waits for. *)
Definition suspended (m : M (Awaiting unit)) : M (option (Awaiting unit)) :=
  bind m (fun k => ret (Some k)).

(** The call of a procedure, up to its return or to its suspension. *)
Definition invoke (env : Env) (p : Proc.t) : M (option (Awaiting unit)) :=
  match p with
  | Proc.get_router_realms => finished get_router_realms
  | Proc.start_router_realm id config schemas enable_trace =>
      suspended (start_router_realm env id config schemas enable_trace)
  | Proc.stop_router_realm id close_sessions => finished (stop_router_realm id close_sessions)
  | Proc.get_router_realm_roles id => finished (get_router_realm_roles id)
  | Proc.start_router_realm_role id role_id config =>
      finished (start_router_realm_role id role_id config)
  | Proc.stop_router_realm_role id role_id => finished (stop_router_realm_role id role_id)
  | Proc.get_router_realm_uplinks id => finished (get_router_realm_uplinks id)
  | Proc.start_router_realm_uplink realm_id uplink_id uplink_config =>
      suspended (start_router_realm_uplink realm_id uplink_id uplink_config)
  | Proc.stop_router_realm_uplink id uplink_id => finished (stop_router_realm_uplink id uplink_id)
  | Proc.get_router_components => finished (get_router_components env)
  | Proc.start_router_component id config => finished (start_router_component env id config)
  | Proc.stop_router_component id => finished (stop_router_component id)
  | Proc.get_router_transports => finished (get_router_transports env)
  | Proc.start_router_transport id config => suspended (start_router_transport env id config)
  | Proc.stop_router_transport id => suspended (stop_router_transport id)
  end.

(** The worker process: the worker object and the continuations that wait
    for their Deferred. *)
Record Process := mkProcess {
  worker : Worker;
  pending : list (Awaiting unit) }.

Definition set_utcnow (now : Z) (w : Worker) : Worker :=
  mkWorker (realms w) (realm_to_id w) (components w) (transports w)
    (_router_factory w) (_router_session_factory w) (_connections w)
    now (thread_pools w) (listening w).

Inductive step (env : Env) : Process -> Process -> Prop :=
| step_call p ps w' r :
    invoke env p (worker ps) = (w', r) ->
    step env ps
      (mkProcess w' (match r with
                     | Ok (Some k) => (pending ps ++ [k])%list
                     | _ => pending ps
                     end))
| step_fire ps i k fired w' r :
    pending ps !! i = Some k ->
    k fired (worker ps) = (w', r) ->
    step env ps (mkProcess w' (delete i (pending ps)))
| step_clock ps now :
    step env ps (mkProcess (set_utcnow now (worker ps)) (pending ps)).

(** The processes reached from the worker that [onJoin] leaves. *)
Definition reachable (env : Env) (ps : Process) : Prop :=
  exists conns now, rtc (step env) (mkProcess (onJoin conns now) []) ps.

(** The continuations the methods leave pending. *)
Inductive continuation_of : Awaiting unit -> Prop :=
| of_realm : continuation_of realm_ready
| of_uplink realm_id uplink_id : continuation_of (uplink_ready realm_id uplink_id)
| of_listening id config transport_factory :
    continuation_of (listening_callbacks id config transport_factory)
| of_stopped id : continuation_of (stopped_callbacks id).

(** From [w] to [w'] no realm, no uplink of a realm and no component has been
    removed, and the components in place have not been changed. *)
Definition grows (w w' : Worker) : Prop :=
  (forall id rlm,
     realms w !! id = Some rlm ->
     exists rlm',
       realms w' !! id = Some rlm' /\
       forall uplink_id,
         is_Some (RouterRealm.uplinks rlm !! uplink_id) ->
         is_Some (RouterRealm.uplinks rlm' !! uplink_id)) /\
  (forall id c, components w !! id = Some c -> components w' !! id = Some c).

(** The entries of the registries carry the id they are registered under. *)
Definition ids_agree (w : Worker) : Prop :=
  (forall id rlm, realms w !! id = Some rlm -> RouterRealm.id rlm = id) /\
  (forall id c, components w !! id = Some c -> RouterComponent.id c = id) /\
  (forall id t, transports w !! id = Some t -> RouterTransport.id t = id).

(** [steady w w']: nothing registered is lost and the ids still agree. *)
Definition steady (w w' : Worker) : Prop :=
  grows w w' /\ (ids_agree w -> ids_agree w').

(** Modelled from the spec: the checker [crossbar.common.checkconfig] is not
    among the sources. Of a Web transport the specification says that each of
    its paths holds "one of the 13 resource-type configs" and that "any
    unrecognized type is Invalid-Configuration". [recognised_paths] is this
    part of the check: every path of the container, down to [depth] levels of
    nesting, is a dictionary with a recognised type. *)
Fixpoint recognised_paths (depth : nat) (paths : Config) : bool :=
  match depth, paths with
  | S depth, CDict paths =>
      forallb
        (fun entry =>
           match entry.2 with
           | CDict d =>
               match dict_lookup d "type" with
               | Some type =>
                   recognised type &&
                   (if is_str type "path"
                    then recognised_paths depth (dict_get d "paths" (CDict []))
                    else true)
               | None => false
               end
           | _ => false
           end)
        paths
  | _, _ => false
  end.

(** Modelled from the spec: the check of the paths of a Web transport, as
    above; the other checks of [check_router_transport] are not described. *)
Definition check_web_paths (depth : nat) (config : Dict) : option Exn :=
  match dict_lookup config "type" with
  | Some type =>
      if is_str type "web" then
        if recognised_paths depth (dict_get config "paths" (CDict [])) then None
        else Some (Exception "invalid type for path service")
      else None
  | None => None
  end.

(** The checker of transports of [env] refuses what [check_web_paths]
    refuses. *)
Definition checks_web_paths (env : Env) : Prop :=
  exists depth,
    forall config,
      is_Some (check_web_paths depth config) ->
      is_Some (check_router_transport env config).

(** ** A worked configuration

    A node directory, collaborators that accept every configuration, and a
    few configurations, used to run the methods on concrete inputs. *)
Module Sample.
Definition env (py : Python) : Env :=
  mkEnv py 100 "/node"
    (fun _ => None) (fun _ => None) (fun _ => None)
    (fun _ => Ok (fun _ _ => None))
    (fun _ => Raise ImportError) (fun _ _ => Raise OSError)
    (fun s => s) (fun a b => (a ++ "/" ++ b)%string)
    true true (fun _ _ _ => None)
    (fun _ => true) (fun _ => true) (fun _ => None) "/tmp"
    (fun _ _ => true)
    (fun _ => "1970-01-01T00:00:00.000Z") (fun _ => None).

(** Collaborators whose checker of transports is [check_web_paths]. *)
Definition checking_env : Env :=
  mkEnv Python2 100 "/node"
    (fun _ => None) (fun _ => None) (check_web_paths 100)
    (fun _ => Ok (fun _ _ => None))
    (fun _ => Raise ImportError) (fun _ _ => Raise OSError)
    (fun s => s) (fun a b => (a ++ "/" ++ b)%string)
    true true (fun _ _ _ => None)
    (fun _ => true) (fun _ => true) (fun _ => None) "/tmp"
    (fun _ _ => true)
    (fun _ => "1970-01-01T00:00:00.000Z") (fun _ => None).


Definition worker : Worker := onJoin ∅ 0.

Definition realm1 : Dict := [("name", CStr "realm1")].

Definition component1 : Dict :=
  [("type", CStr "class"); ("realm", CStr "realm1")].

Definition json1 : Config := CDict [("type", CStr "json"); ("value", CInt 1)].

Definition endpoint : Config := CDict [("type", CStr "tcp"); ("port", CInt 8080)].

Definition web : Dict :=
  [("type", CStr "web"); ("endpoint", endpoint);
   ("paths", CDict [("ws", CDict [("type", CStr "websocket")]); ("/", json1)])].

Definition web_unknown : Dict :=
  [("type", CStr "web"); ("endpoint", endpoint);
   ("paths", CDict [("/", json1);
                    ("sub", CDict [("type", CStr "path");
                                   ("paths", CDict [("x", CDict [("type", CStr "ftp")])])])])].

(** The worker once [component1] runs as ["c1"]. *)
Definition worker_c1 : Worker :=
  (start_router_component (env Python2) "c1" component1 worker).1.

(** The worker while realm ["r1"] waits for its service session. *)
Definition worker_r1 : Worker :=
  (start_router_realm (env Python2) "r1" realm1 CNone false worker).1.

(** The worker once transport ["t1"] listens on port 1. *)
Definition worker_t1 : Worker :=
  let r := start_router_transport (env Python2) "t1" web worker in
  match r.2 with
  | Ok k => (k (Callback (VPort 1%nat)) r.1).1
  | Raise _ => r.1
  end.




Definition websocket : Config := CDict [("type", CStr "websocket")].

(** A path map with a root and one other path. *)
Definition paths : Dict := [("ws", websocket); ("/", json1)].

Definition create (py : Python) (c : Config) : M Resource :=
  _create_resource (env py) 10 c true.

Definition uplink : Dict := [("transport", CStr "ws")].

(** The worker while uplink ["up1"] of realm ["r1"] waits for its bridge. *)
Definition worker_up1 : Worker :=
  (start_router_realm_uplink "r1" "up1" uplink worker_r1).1.

(** The same worker once component ["c1"] has been started meanwhile. *)
Definition worker_up1_c1 : Worker :=
  (invoke (env Python2) (Proc.start_router_component "c1" component1)
     worker_up1).1.

(** The worker with component ["c1"] once realm ["r1"] has been started too. *)
Definition worker_c1_r1 : Worker :=
  (invoke (env Python2) (Proc.start_router_realm "r1" realm1 CNone false)
     worker_c1).1.

(** A role of a realm. *)
Definition role : Dict :=
  [("name", CStr "backend");
   ("permissions", CList [CDict [("uri", CStr "*"); ("call", CBool true)]])].

Definition endpoint_tls : Config :=
  CDict [("type", CStr "tcp"); ("port", CInt 443);
         ("tls", CDict [("key", CStr "server.key"); ("certificate", CStr "server.crt")])].

(** A Web transport on a TLS endpoint that asks for HSTS. *)
Definition web_tls : Dict :=
  [("type", CStr "web"); ("endpoint", endpoint_tls);
   ("paths", CDict [("/", json1)]);
   ("options", CDict [("hsts", CBool true)])].

(** Collaborators of an installation without CGI support and without any
    directory, whose module [app] has the objects [application] and [broken],
    the second of which is no WSGI application. *)
Definition app_env : Env :=
  mkEnv Python2 100 "/node"
    (fun _ => None) (fun _ => None) (fun _ => None)
    (fun _ => Ok (fun _ _ => None))
    (fun m => if is_str m "app" then Ok ["application"; "broken"] else Raise ImportError)
    (fun _ _ => Raise OSError)
    (fun s => s) (fun a b => (a ++ "/" ++ b)%string)
    true false (fun _ obj _ => if is_str obj "broken" then Some TypeError else None)
    (fun _ => false) (fun _ => false) (fun _ => Some OSError) "/tmp"
    (fun _ _ => false)
    (fun _ => "1970-01-01T00:00:00.000Z") (fun _ => None).

Definition wsgi_broken : Dict :=
  [("type", CStr "wsgi"); ("module", CStr "app"); ("object", CStr "broken")].

Definition publisher1 : Dict :=
  [("type", CStr "publisher"); ("realm", CStr "realm1"); ("role", CStr "frontend")].

Definition schemas1 : Config :=
  CDict [("com.example.person", CDict [("type", CStr "object")])].

Definition realm2 : Dict := [("name", CStr "realm2")].

(** The worker while realm ["r2"], started with [schemas1], waits for its
    service session. *)
Definition worker_r2 : Worker :=
  (start_router_realm (env Python2) "r2" realm2 schemas1 false worker).1.
End Sample.

(** ** Vocabulary of the invariants of the process *)

(** [rlm'] is the realm [rlm] but for its roles and its uplinks. *)
Definition same_realm (rlm rlm' : RouterRealm.t) : Prop :=
  RouterRealm.id rlm' = RouterRealm.id rlm /\
  RouterRealm.config rlm' = RouterRealm.config rlm /\
  RouterRealm.session rlm' = RouterRealm.session rlm /\
  RouterRealm.created rlm' = RouterRealm.created rlm.

(** Every registered realm has a name in its configuration, and every entry
    of the index of URIs leads to a registered realm that has this URI for
    name and its service session attached. *)
Definition indexed (w : Worker) : Prop :=
  (forall id rlm,
     realms w !! id = Some rlm ->
     is_Some (dict_lookup (RouterRealm.config rlm) "name")) /\
  (forall uri id,
     realm_to_id w !! uri = Some id ->
     exists rlm realm schemas,
       realms w !! id = Some rlm /\
       dict_lookup (RouterRealm.config rlm) "name" = Some realm /\
       hash_key realm = Ok uri /\
       RouterRealm.session rlm = Some (RouterServiceSession realm schemas)).

(** [calm w w']: nothing but sessions and thread pools has been added. *)
Definition calm (w w' : Worker) : Prop :=
  quiet w w' /\
  _router_session_factory w `prefix_of` _router_session_factory w' /\
  thread_pools w `prefix_of` thread_pools w'.

(** [lasting w w']: the realms of [w] are still there, the same but for
    their roles and uplinks; no URI has left the index; sessions, thread
    pools and requested ports have only been added; the connection pool is
    the same; and the index is still sound. *)
Definition lasting (w w' : Worker) : Prop :=
  (forall id rlm,
     realms w !! id = Some rlm ->
     exists rlm', realms w' !! id = Some rlm' /\ same_realm rlm rlm') /\
  (forall uri, is_Some (realm_to_id w !! uri) -> is_Some (realm_to_id w' !! uri)) /\
  _router_session_factory w `prefix_of` _router_session_factory w' /\
  thread_pools w `prefix_of` thread_pools w' /\
  listening w `prefix_of` listening w' /\
  _connections w' = _connections w /\
  (indexed w -> indexed w').

(** The inverse of [encode_utf8]: [b.decode('utf8')] on the encoding of a
    text with code points below 256 (one byte below 128, or a lead byte and
    a continuation byte). *)
Fixpoint decode_utf8 (b : list byte) : option string :=
  match b with
  | [] => Some ""
  | b1 :: rest =>
      let n1 := Byte.to_N b1 in
      if (n1 <? 128)%N then String (ascii_of_byte b1) <$> decode_utf8 rest
      else
        match rest with
        | b2 :: rest' =>
            String (ascii_of_N (N.lor (N.shiftl (N.land n1 3) 6)
                                  (N.land (Byte.to_N b2) 63)))
              <$> decode_utf8 rest'
        | [] => None
        end
  end.

(** What the dictionary of references holds: texts that resolve, each with
    its connection, no text twice. *)
Definition resolved_entries (connections : gmap string Config)
    (references : list (string * Config)) : Prop :=
  NoDup references.*1 /\
  forall s c,
    dict_lookup references s = Some c ->
    exists ref_id, split ":" s = ["connection"; ref_id] /\ connections !! ref_id = Some c.

(** [alike w w']: the two workers have the same realms and the same index of
    URIs. *)
Definition alike (w w' : Worker) : Prop :=
  realms w' = realms w /\ realm_to_id w' = realm_to_id w.

(** [m] reads nothing of the worker but the realms and the index of URIs:
    from two workers that are alike it gives the same result and leaves
    workers that are alike. *)
Definition uniform {A} (m : M A) : Prop :=
  forall w w' w1 r,
    alike w w' -> m w = (w1, r) -> exists w1', m w' = (w1', r) /\ alike w1 w1'.

(** ** Properties *)

Local Open Scope list_scope.

Ltac run :=
  unfold bind, get, modify, raise, ret, lift, try_except, add_session in *;
  simpl in *.

(** *** stop_router_component *)

Lemma stop_router_component_absent w id :
  components w !! id = None ->
  stop_router_component id w = (w, Raise no_such_object).
Proof. intros H. unfold stop_router_component. run. now rewrite H. Qed.

Lemma stop_router_component_present w id :
  is_Some (components w !! id) ->
  stop_router_component id w = (w, Raise cannot_stop).
Proof. intros [c H]. unfold stop_router_component. run. now rewrite H. Qed.

(** *** start_router_realm *)

Lemma start_router_realm_running env w id config schemas enable_trace :
  is_Some (realms w !! id) ->
  start_router_realm env id config schemas enable_trace w = (w, Raise already_running).
Proof. intros [r H]. unfold start_router_realm. run. now rewrite H. Qed.

Lemma start_router_realm_invalid env w id config schemas enable_trace :
  realms w !! id = None ->
  is_Some (check_router_realm env config) ->
  start_router_realm env id config schemas enable_trace w
  = (w, Raise invalid_configuration).
Proof. intros H [e He]. unfold start_router_realm. run. now rewrite H, He. Qed.

Lemma start_router_realm_suspends env w id config schemas enable_trace realm uri :
  realms w !! id = None ->
  check_router_realm env config = None ->
  dict_lookup config "name" = Some realm ->
  hash_key realm = Ok uri ->
  exists k,
    start_router_realm env id config schemas enable_trace w
    = (realm_started w id config realm schemas uri enable_trace, Ok k) /\
    (forall v w', k (Callback v) w' = (w', Ok tt)) /\
    (forall e w', k (Errback e) w' = (w', Raise e)).
Proof.
  intros Hid Hck Hname Huri. unfold start_router_realm, dict_item. run.
  rewrite Hid, Hck, Hname. simpl. rewrite Huri. simpl.
  eexists. split.
  - f_equal. unfold realm_started, set_router_session_factory, set_realms,
      set_router_factory, set_realm_to_id. simpl.
    destruct enable_trace; simpl; f_equal.
    all: rewrite ?alter_insert_eq; reflexivity.
  - split; intros; reflexivity.
Qed.

(** *** What building resources leaves untouched *)

Lemma quiet_refl w : quiet w w.
Proof. unfold quiet. tauto. Qed.

Lemma quiet_trans w1 w2 w3 : quiet w1 w2 -> quiet w2 w3 -> quiet w1 w3.
Proof. unfold quiet. intuition congruence. Qed.

Section Preserves.
Context (P : Worker -> Worker -> Prop).
Context (P_refl : forall w, P w w).
Context (P_trans : forall w1 w2 w3, P w1 w2 -> P w2 w3 -> P w1 w3).

Lemma preserves_ret {A} (a : A) : preserves P (ret a).
Proof. intros w w' r [= <- _]. apply P_refl. Qed.

Lemma preserves_raise {A} e : preserves P (@raise A e).
Proof. intros w w' r [= <- _]. apply P_refl. Qed.

Lemma preserves_lift {A} (x : Result A) : preserves P (lift x).
Proof. intros w w' r [= <- _]. apply P_refl. Qed.

Lemma preserves_get : preserves P get.
Proof. intros w w' r [= <- _]. apply P_refl. Qed.

Lemma preserves_modify f : (forall w, P w (f w)) -> preserves P (modify f).
Proof. intros H w w' r [= <- _]. apply H. Qed.

Lemma preserves_bind {A B} (m : M A) (k : A -> M B) :
  preserves P m -> (forall a, preserves P (k a)) -> preserves P (bind m k).
Proof.
  intros Hm Hk w w' r. unfold bind.
  destruct (m w) as [w1 [a | e]] eqn:E; intros H.
  - eapply P_trans; [eapply Hm, E | eapply Hk, H].
  - injection H as <- _. eapply Hm, E.
Qed.
End Preserves.

Lemma quiet_ret {A} (a : A) : preserves quiet (ret a).
Proof. apply preserves_ret, quiet_refl. Qed.

Lemma quiet_raise {A} e : preserves quiet (@raise A e).
Proof. apply preserves_raise, quiet_refl. Qed.

Lemma quiet_lift {A} (x : Result A) : preserves quiet (lift x).
Proof. apply preserves_lift, quiet_refl. Qed.

Lemma quiet_get : preserves quiet get.
Proof. apply preserves_get, quiet_refl. Qed.

Lemma quiet_bind {A B} (m : M A) (k : A -> M B) :
  preserves quiet m -> (forall a, preserves quiet (k a)) -> preserves quiet (bind m k).
Proof. apply preserves_bind, quiet_trans. Qed.

Ltac preserve_step :=
  first
    [ apply quiet_ret
    | apply quiet_raise
    | apply quiet_lift
    | apply quiet_get
    | apply quiet_bind; [| intros]
    | match goal with
      | |- preserves _ (match ?x with _ => _ end) => destruct x
      end ].

Create HintDb quiet.

Ltac preserve := repeat first [ solve [eauto with quiet] | preserve_step ].

Lemma add_session_quiet s authrole : preserves quiet (add_session s authrole).
Proof. apply preserves_modify. intros w. unfold quiet. simpl. tauto. Qed.
#[export] Hint Resolve add_session_quiet : quiet.

Lemma set_thread_pools_quiet f : preserves quiet (modify (set_thread_pools f)).
Proof. apply preserves_modify. intros w. unfold quiet. simpl. tauto. Qed.
#[export] Hint Resolve set_thread_pools_quiet : quiet.

Lemma vanilla_session_quiet path_config : preserves quiet (vanilla_session path_config).
Proof. unfold vanilla_session. preserve. Qed.
#[export] Hint Resolve vanilla_session_quiet : quiet.

Section Quiet.
Context (env : Env).

Lemma create_static_quiet pc : preserves quiet (create_static env pc).
Proof. unfold create_static. preserve. Qed.

Lemma create_wsgi_quiet pc nested : preserves quiet (create_wsgi env pc nested).
Proof. unfold create_wsgi. preserve. Qed.

Lemma create_redirect_quiet pc : preserves quiet (create_redirect pc).
Proof. unfold create_redirect. preserve. Qed.

Lemma create_json_quiet pc : preserves quiet (create_json pc).
Proof. unfold create_json. preserve. Qed.

Lemma create_cgi_quiet pc : preserves quiet (create_cgi env pc).
Proof. unfold create_cgi. preserve. Qed.

Lemma create_longpoll_quiet pc : preserves quiet (create_longpoll pc).
Proof. unfold create_longpoll. preserve. Qed.

Lemma create_publisher_quiet pc : preserves quiet (create_publisher pc).
Proof. unfold create_publisher. preserve. Qed.

Lemma create_webhook_quiet pc : preserves quiet (create_webhook pc).
Proof. unfold create_webhook. preserve. Qed.

Lemma create_caller_quiet pc : preserves quiet (create_caller pc).
Proof. unfold create_caller. preserve. Qed.

Lemma create_upload_quiet pc : preserves quiet (create_upload env pc).
Proof. unfold create_upload. preserve. Qed.

Lemma create_custom_quiet pc : preserves quiet (create_custom env pc).
Proof. unfold create_custom. preserve. Qed.

Lemma create_schemadoc_quiet pc : preserves quiet (create_schemadoc pc).
Proof. unfold create_schemadoc. preserve. Qed.

Lemma add_each_quiet create paths keys :
  (forall c, preserves quiet (create c)) ->
  forall resource, preserves quiet (add_each env create paths keys resource).
Proof.
  intros Hc. induction keys as [| path keys IH]; intros resource; simpl.
  - preserve.
  - unfold add_path. preserve.
Qed.

Lemma _add_paths_quiet create resource paths :
  (forall c, preserves quiet (create c)) ->
  preserves quiet (_add_paths env create resource paths).
Proof. intros Hc. unfold _add_paths. now apply add_each_quiet. Qed.

Lemma _create_resource_quiet depth :
  forall pc nested, preserves quiet (_create_resource env depth pc nested).
Proof.
  induction depth as [| depth IH]; intros pc nested; simpl.
  - preserve.
  - pose proof create_static_quiet. pose proof create_wsgi_quiet.
    pose proof create_redirect_quiet. pose proof create_json_quiet.
    pose proof create_cgi_quiet. pose proof create_longpoll_quiet.
    pose proof create_publisher_quiet. pose proof create_webhook_quiet.
    pose proof create_caller_quiet. pose proof create_upload_quiet.
    pose proof create_custom_quiet. pose proof create_schemadoc_quiet.
    preserve. apply _add_paths_quiet. intros c. apply IH.
Qed.

Lemma create_site_quiet config : preserves quiet (create_site env config).
Proof.
  unfold create_site. pose proof _create_resource_quiet.
  preserve. apply _add_paths_quiet. intros c. apply _create_resource_quiet.
Qed.
End Quiet.

Lemma start_router_realm_inv env w id config schemas enable_trace w1 k :
  start_router_realm env id config schemas enable_trace w = (w1, Ok k) ->
  exists realm uri,
    realms w !! id = None /\
    check_router_realm env config = None /\
    dict_lookup config "name" = Some realm /\
    hash_key realm = Ok uri /\
    w1 = realm_started w id config realm schemas uri enable_trace /\
    (forall v w', k (Callback v) w' = (w', Ok tt)) /\
    (forall e w', k (Errback e) w' = (w', Raise e)).
Proof.
  intros H.
  destruct (realms w !! id) as [r |] eqn:Hid.
  { rewrite start_router_realm_running in H by eauto. discriminate. }
  destruct (check_router_realm env config) as [e |] eqn:Hck.
  { rewrite start_router_realm_invalid in H by eauto. discriminate. }
  destruct (dict_lookup config "name") as [realm |] eqn:Hname.
  2: { unfold start_router_realm, dict_item in H. run.
       rewrite Hid, Hck, Hname in H. discriminate. }
  destruct (hash_key realm) as [uri | e] eqn:Huri.
  2: { unfold start_router_realm, dict_item in H. run.
       rewrite Hid, Hck, Hname in H. simpl in H. rewrite Huri in H. discriminate. }
  destruct (start_router_realm_suspends env w id config schemas enable_trace
              realm uri Hid Hck Hname Huri) as (k' & Hk' & Hcb & Heb).
  rewrite Hk' in H. injection H as <- <-.
  exists realm, uri. repeat split; auto.
Qed.

(** *** start_router_realm_uplink *)

Lemma start_router_realm_uplink_exists w realm_id uplink_id uplink_config rlm :
  realms w !! realm_id = Some rlm ->
  is_Some (RouterRealm.uplinks rlm !! uplink_id) ->
  start_router_realm_uplink realm_id uplink_id uplink_config w
  = (w, Raise already_exists).
Proof.
  intros Hr [u Hu]. unfold start_router_realm_uplink. run. now rewrite Hr, Hu.
Qed.

(** *** start_router_component *)

Lemma start_router_component_running env w id config :
  is_Some (components w !! id) ->
  start_router_component env id config w = (w, Raise already_running).
Proof. intros [c H]. unfold start_router_component. run. now rewrite H. Qed.

Lemma start_router_component_registers env w id config w1 :
  start_router_component env id config w = (w1, Ok tt) ->
  components w1 !! id
  = Some (RouterComponent.mk id config
            (HostedSession config (dict_get config "realm" CNone)
               (dict_get config "extra" CNone))
            (utcnow w)).
Proof.
  unfold start_router_component, dict_item, dict_get. run.
  destruct (components w !! id); [discriminate |].
  destruct (check_router_component env config); [discriminate |].
  destruct (dict_lookup config "type"); [| discriminate]. simpl.
  destruct (iterate _) as [refs | ?]; [| discriminate]. simpl.
  destruct (resolve_references _ _ _); [| discriminate].
  destruct (dict_lookup config "realm") as [realm |]; [| discriminate]. simpl.
  destruct (_appsession_loader env config) as [create | ?]; [| discriminate].
  destruct (create _ _); [discriminate |].
  intros [= <-]. simpl. apply lookup_insert_eq.
Qed.

(** *** start_router_transport *)

Lemma start_router_transport_running env w id config :
  is_Some (transports w !! id) ->
  start_router_transport env id config w = (w, Raise already_running).
Proof. intros [c H]. unfold start_router_transport. run. now rewrite H. Qed.

Lemma start_router_transport_invalid env w id config :
  transports w !! id = None ->
  is_Some (check_router_transport env config) ->
  start_router_transport env id config w = (w, Raise invalid_configuration).
Proof. intros H [e He]. unfold start_router_transport. run. now rewrite H, He. Qed.

Lemma choose_factory_quiet env config : preserves quiet (choose_factory env config).
Proof. unfold choose_factory. pose proof (create_site_quiet env). preserve. Qed.

(** The ways [start_router_transport] ends: refused, failed while the factory
    was built, or suspended on the Deferred of the listening port. *)
Lemma start_router_transport_inv env w id config w1 r :
  start_router_transport env id config w = (w1, r) ->
  match r with
  | Raise _ => quiet w w1
  | Ok k =>
      transports w !! id = None /\
      check_router_transport env config = None /\
      exists w0 transport_factory endpoint,
        choose_factory env config w = (w0, Ok transport_factory) /\
        quiet w w0 /\
        dict_lookup config "endpoint" = Some endpoint /\
        w1 = set_listening (fun l => l ++ [(endpoint, transport_factory)]) w0 /\
        k = listening_callbacks id config transport_factory
  end.
Proof.
  unfold start_router_transport, dict_item. run.
  destruct (transports w !! id) eqn:Hid.
  { intros [= <- <-]. apply quiet_refl. }
  destruct (check_router_transport env config) eqn:Hck.
  { intros [= <- <-]. apply quiet_refl. }
  destruct (choose_factory env config w) as [w0 [f | e]] eqn:Hf.
  2: { intros [= <- <-]. eapply choose_factory_quiet, Hf. }
  pose proof (choose_factory_quiet env config _ _ _ Hf) as Hq.
  destruct (dict_lookup config "endpoint") as [endpoint |] eqn:Hep; simpl.
  2: { intros [= <- <-]. exact Hq. }
  intros [= <- <-].
  split; [reflexivity |]. split; [reflexivity |].
  exists w0, f, endpoint. split; [reflexivity |]. split; [exact Hq |]. auto.
Qed.

Lemma listening_callbacks_ok id config transport_factory port w :
  listening_callbacks id config transport_factory (Callback port) w
  = (set_transports
       <[id := RouterTransport.mk id config transport_factory port (utcnow w)]> w,
     Ok tt).
Proof. reflexivity. Qed.

Lemma listening_callbacks_fail id config transport_factory err w :
  listening_callbacks id config transport_factory (Errback err) w
  = (w, Raise cannot_listen).
Proof. reflexivity. Qed.

(** *** Sorting *)

Section SortedFacts.
Context {A : Type} (lt : A -> A -> bool) (le : A -> A -> Prop).
Context (lt_le : forall x y, lt x y = true -> le x y).
Context (not_lt_le : forall x y, lt y x = false -> le x y).

Lemma insert_sorted_perm x l : insert_sorted lt x l ≡ₚ x :: l.
Proof.
  induction l as [| y l IH]; simpl; [reflexivity |].
  destruct (lt y x); [| reflexivity].
  rewrite IH. apply Permutation_swap.
Qed.

Lemma sorted_perm l : sorted lt l ≡ₚ l.
Proof.
  induction l as [| x l IH]; simpl; [reflexivity |].
  rewrite insert_sorted_perm. now rewrite IH.
Qed.

Lemma insert_sorted_HdRel a x l :
  le a x -> HdRel le a l -> HdRel le a (insert_sorted lt x l).
Proof.
  intros Hax Hal. destruct l as [| y l]; simpl; [now constructor |].
  destruct (lt y x); constructor; [now inversion Hal | assumption].
Qed.

Lemma insert_sorted_Sorted x l : Sorted le l -> Sorted le (insert_sorted lt x l).
Proof.
  induction l as [| y l IH]; simpl; intros Hs.
  - repeat constructor.
  - inversion Hs as [| ? ? Hl Hy]; subst.
    destruct (lt y x) eqn:E.
    + constructor; [now apply IH |].
      apply insert_sorted_HdRel; [now apply lt_le | assumption].
    + constructor; [assumption |]. constructor. now apply not_lt_le.
Qed.

Lemma sorted_Sorted l : Sorted le (sorted lt l).
Proof.
  induction l as [| x l IH]; simpl; [constructor |].
  now apply insert_sorted_Sorted.
Qed.
End SortedFacts.

Lemma created_sorted {A} (created : A -> Z) l :
  Sorted (fun x y => created x <= created y)
    (sorted (fun x y => created x <? created y) l).
Proof. apply sorted_Sorted; intros x y; lia. Qed.

Lemma text_lt_le s t : text_lt s t = true -> String.leb s t = true.
Proof.
  unfold text_lt, String.ltb, String.leb. now destruct (String.compare s t).
Qed.

Lemma text_not_lt_le s t : text_lt t s = false -> String.leb s t = true.
Proof.
  unfold text_lt, String.ltb, String.leb. rewrite (String.compare_antisym s t).
  now destruct (String.compare t s).
Qed.

(** [sorted] on texts gives them in ascending lexicographic order. *)
Lemma text_sorted l : Sorted (fun s t => String.leb s t = true) (sorted text_lt l).
Proof. apply sorted_Sorted; [apply text_lt_le | apply text_not_lt_le]. Qed.

(** *** The references of a component *)

Lemma resolve_references_resolved connections pre refs acc :
  Forall (resolves connections) pre ->
  exists acc',
    resolve_references connections (pre ++ refs) acc
    = resolve_references connections refs acc'.
Proof.
  intros H. revert acc. induction H as [| ref pre (s & rid & c & -> & Hs & Hc) _ IH];
    intros acc; simpl.
  - now exists acc.
  - rewrite Hs. simpl. rewrite Hc. apply IH.
Qed.


(** *** _add_paths *)

Lemma dict_lookup_elem_of (d : Dict) k v : dict_lookup d k = Some v -> (k, v) ∈ d.
Proof.
  induction d as [| [k' v'] d IH]; simpl; [discriminate |].
  destruct (String.eqb_spec k' k) as [-> | Hne].
  - intros [= ->]. left.
  - intros H. right. now apply IH.
Qed.

Lemma add_each_children env create paths keys :
  forall resource w w' r,
    add_each env create paths keys resource w = (w', Ok r) ->
    kind r = kind resource /\
    exists cs,
      children r = children resource ++ cs /\
      cs.*1 = encode_utf8 <$>
                filter (fun path => text_eq_bytes (python env) path ["/"%byte] = false) keys.
Proof.
  induction keys as [| path keys IH]; intros resource w w' r; simpl.
  - intros [= <- <-]. split; [reflexivity |]. exists []. now rewrite app_nil_r.
  - unfold add_path, dict_item. run. rewrite filter_cons.
    destruct (text_eq_bytes (python env) path ["/"%byte]) eqn:Hroot; simpl.
    + intros H. apply IH in H. rewrite ?decide_False by discriminate. exact H.
    + destruct (dict_lookup paths path) as [pc |]; simpl; [| discriminate].
      destruct (create pc w) as [w0 [child | e]]; [| discriminate].
      intros H. apply IH in H as (Hk & cs & Hcs & Hnames). simpl in *.
      split; [exact Hk |].
      exists ((encode_utf8 path, child) :: cs).
      rewrite Hcs, <- app_assoc. split; [reflexivity |].
      rewrite ?decide_True by reflexivity. simpl. f_equal. exact Hnames.
Qed.

(** When [_add_paths] returns, the resource has got one more child for each
    key of [attached], in that order, under the UTF-8 encoding of the key. *)
Lemma _add_paths_children env create resource paths w w' r :
  _add_paths env create resource paths w = (w', Ok r) ->
  kind r = kind resource /\
  exists cs,
    children r = children resource ++ cs /\
    cs.*1 = encode_utf8 <$> attached (python env) paths.
Proof. apply add_each_children. Qed.

Lemma text_eq_bytes_root py path :
  text_eq_bytes py path ["/"%byte] = true -> py = Python2 /\ path = "/".
Proof.
  destruct py; simpl; [| discriminate]. intros H. split; [reflexivity |].
  apply bool_decide_eq_true in H. unfold bytes_of_ascii_text in H.
  destruct path as [| c [| c' path]]; simpl in H; try discriminate.
  injection H as H. apply (f_equal ascii_of_byte) in H.
  rewrite ascii_of_byte_of_ascii in H. now subst c.
Qed.

(** Under Python 2 the root path is left out and every other key is put. *)
Lemma attached_python2 paths path :
  path ∈ attached Python2 paths <-> path ∈ dict_keys paths /\ path <> "/".
Proof.
  unfold attached. rewrite list_elem_of_filter, sorted_perm. split.
  - intros [Hne Hin]. split; [exact Hin |]. intros ->. discriminate Hne.
  - intros [Hin Hne]. split; [| exact Hin].
    destruct (text_eq_bytes Python2 path ["/"%byte]) eqn:E; [| reflexivity].
    apply text_eq_bytes_root in E as [_ ->]. congruence.
Qed.

(** Under Python 3 no key is left out, the root path no more than another. *)
Lemma attached_python3 paths : attached Python3 paths = sorted text_lt (dict_keys paths).
Proof.
  unfold attached. induction (sorted text_lt (dict_keys paths)) as [| k l IH];
    [reflexivity |].
  rewrite filter_cons_True by reflexivity. now rewrite IH.
Qed.

(** *** Paths of an unrecognised type *)

Lemma add_each_fails env create paths keys path path_config :
  path ∈ keys ->
  text_eq_bytes (python env) path ["/"%byte] = false ->
  dict_lookup paths path = Some path_config ->
  fails (create path_config) ->
  forall resource, fails (add_each env create paths keys resource).
Proof.
  intros Hin Hroot Hpc Hfail.
  induction keys as [| k keys IH]; intros resource w; [inversion Hin |].
  simpl. unfold add_path, dict_item. run.
  destruct (decide (k = path)) as [-> | Hne].
  - rewrite Hroot, Hpc. simpl.
    destruct (Hfail w) as (w' & e & ->). eauto.
  - assert (Hin' : path ∈ keys) by (inversion Hin; subst; congruence).
    destruct (text_eq_bytes (python env) k ["/"%byte]); simpl; [now apply IH |].
    destruct (dict_lookup paths k) as [pc |]; simpl; [| eauto].
    destruct (create pc w) as [w0 [child | e]]; [| eauto].
    now apply IH.
Qed.

Lemma _add_paths_fails env create paths path path_config resource :
  text_eq_bytes (python env) path ["/"%byte] = false ->
  dict_lookup paths path = Some path_config ->
  fails (create path_config) ->
  fails (_add_paths env create resource paths).
Proof.
  intros Hroot Hpc Hfail. unfold _add_paths.
  eapply add_each_fails; eauto.
  rewrite sorted_perm. unfold dict_keys.
  clear Hfail Hroot. induction paths as [| [k v] paths IH]; [discriminate |].
  simpl in *. destruct (String.eqb_spec k path) as [-> | Hne].
  - left.
  - right. now apply IH.
Qed.

Lemma _create_resource_unrecognised_type env depth d nested type w :
  dict_lookup d "type" = Some type ->
  recognised type = false ->
  _create_resource env (S depth) (CDict d) nested w = (w, Raise invalid_configuration).
Proof.
  intros Hty Hrec. simpl. unfold dict_item. run. rewrite Hty. simpl.
  unfold recognised, path_types in Hrec. simpl in Hrec.
  repeat (apply orb_false_elim in Hrec as [? Hrec]).
  repeat match goal with H : is_str type _ = false |- _ => rewrite H; clear H end.
  reflexivity.
Qed.

(** A container of paths fails when one of its paths fails to be created:
    the root path in the creation of the root, another in [_add_paths]. *)
Lemma paths_fail env (create_root create : Config -> M Resource) paths path path_config :
  dict_lookup paths path = Some path_config ->
  fails (create_root path_config) ->
  fails (create path_config) ->
  fails (has_root <- lift (py_in "/" (CDict paths)) ;;
         resource <-
           (if has_root then
              root_config <- lift (subscript (CDict paths) "/") ;;
              create_root root_config
            else ret (leaf (Resource404 []))) ;;
         paths' <- lift (as_paths (CDict paths)) ;;
         _add_paths env create resource paths').
Proof.
  intros Hpc Hroot Hfail w. run. unfold dict_has, dict_item.
  destruct (text_eq_bytes (python env) path ["/"%byte]) eqn:E.
  - apply text_eq_bytes_root in E as [_ ->]. rewrite Hpc. simpl.
    destruct (Hroot w) as (w' & e & ->). eauto.
  - pose proof (fun r => _add_paths_fails env create paths path path_config r
                           E Hpc Hfail) as Hadd.
    destruct (dict_lookup paths "/") as [root_config |]; simpl.
    + destruct (create_root root_config w) as [w0 [root | e]]; [| eauto].
      apply Hadd.
    + apply Hadd.
Qed.

Lemma _create_resource_unrecognised env path_config :
  unrecognised path_config ->
  forall depth nested, fails (_create_resource env depth path_config nested).
Proof.
  induction 1 as [d type Hty Hrec | d paths path pc Hty Hpaths Hpc _ IH];
    intros depth nested w.
  - destruct depth; [simpl; eauto |].
    erewrite _create_resource_unrecognised_type; eauto.
  - destruct depth; [simpl; eauto |].
    simpl. unfold dict_item, dict_get at 1. run. rewrite Hty. simpl.
    unfold dict_get. rewrite Hpaths.
    apply (paths_fail env (fun c => _create_resource env depth c true)
             (fun c => _create_resource env depth c true) paths path pc Hpc);
      apply IH.
Qed.

Lemma create_site_unrecognised env config paths path path_config :
  dict_lookup config "paths" = Some (CDict paths) ->
  dict_lookup paths path = Some path_config ->
  unrecognised path_config ->
  fails (create_site env config).
Proof.
  intros Hpaths Hpc Hun w.
  unfold create_site, dict_item, dict_get. rewrite Hpaths.
  destruct (paths_fail env
              (fun c => _create_resource env (recursion_limit env) c false)
              (fun c => _create_resource env (recursion_limit env) c true)
              paths path path_config Hpc
              (_create_resource_unrecognised env _ Hun _ _)
              (_create_resource_unrecognised env _ Hun _ _) w) as (w' & e & H).
  exists w', e. revert H. run.
  destruct (dict_has paths "/").
  - destruct (dict_item paths "/") as [rc |]; simpl; [| now intros [= -> ->]].
    destruct (_create_resource env (recursion_limit env) rc false w) as [w0 [r | e0]];
      [| now intros [= -> ->]].
    match goal with
    | |- context [_add_paths ?a ?b ?c ?d ?x] =>
        destruct (_add_paths a b c d x) as [w1 [r1 | e1]]; [discriminate | now intros [= -> ->]]
    end.
  - match goal with
    | |- context [_add_paths ?a ?b ?c ?d ?x] =>
        destruct (_add_paths a b c d x) as [w1 [r1 | e1]]; [discriminate | now intros [= -> ->]]
    end.
Qed.

Lemma choose_factory_web env config :
  dict_lookup config "type" = Some (CStr "web") ->
  choose_factory env config = create_site env config.
Proof. intros H. unfold choose_factory, dict_item. rewrite H. reflexivity. Qed.

(** *** The transition system *)

Lemma grows_refl w : grows w w.
Proof. split; eauto. Qed.

Lemma grows_trans w1 w2 w3 : grows w1 w2 -> grows w2 w3 -> grows w1 w3.
Proof.
  intros [Hr1 Hc1] [Hr2 Hc2]. split; [| eauto].
  intros id rlm H. apply Hr1 in H as (rlm' & H' & Hu).
  apply Hr2 in H' as (rlm'' & H'' & Hu'). eauto.
Qed.

(** [grows] and [ids_agree] look at the registries only. *)
Lemma grows_registries w w1 w2 :
  realms w2 = realms w1 -> components w2 = components w1 ->
  grows w w1 -> grows w w2.
Proof. intros Hr Hc [H1 H2]. split; rewrite ?Hr, ?Hc; assumption. Qed.

Lemma ids_agree_registries w1 w2 :
  realms w2 = realms w1 -> components w2 = components w1 ->
  transports w2 = transports w1 ->
  ids_agree w1 -> ids_agree w2.
Proof. intros Hr Hc Ht (H1 & H2 & H3). repeat split; rewrite ?Hr, ?Hc, ?Ht; assumption. Qed.

Lemma steady_refl w : steady w w.
Proof. split; [apply grows_refl | auto]. Qed.

Lemma steady_trans w1 w2 w3 : steady w1 w2 -> steady w2 w3 -> steady w1 w3.
Proof. intros [G1 I1] [G2 I2]. split; [eapply grows_trans; eauto | auto]. Qed.

Lemma steady_registries w w1 w2 :
  realms w2 = realms w1 -> components w2 = components w1 ->
  transports w2 = transports w1 ->
  steady w w1 -> steady w w2.
Proof.
  intros Hr Hc Ht [G I]. split; [eapply grows_registries; eauto |].
  intros H. eapply ids_agree_registries; eauto.
Qed.

Lemma quiet_steady w w' : quiet w w' -> steady w w'.
Proof.
  intros (Hr & _ & Hc & Ht & _). eapply steady_registries; eauto. apply steady_refl.
Qed.

(** A realm put under its id, with at least the uplinks of the realm that
    was there. *)
Lemma steady_set_realm w id rlm :
  (ids_agree w -> RouterRealm.id rlm = id) ->
  (forall old, realms w !! id = Some old ->
     forall uplink_id,
       is_Some (RouterRealm.uplinks old !! uplink_id) ->
       is_Some (RouterRealm.uplinks rlm !! uplink_id)) ->
  steady w (set_realms <[id := rlm]> w).
Proof.
  intros Hid Hold. split; [split |].
  - intros id' rlm' H. simpl. destruct (decide (id = id')) as [<- | Hne].
    + rewrite lookup_insert_eq. eauto.
    + rewrite lookup_insert_ne by assumption. eauto.
  - auto.
  - intros Hw. pose proof (Hid Hw) as Hid'. destruct Hw as (H1 & H2 & H3).
    repeat split; simpl; [| assumption | assumption].
    intros id' rlm' H. destruct (decide (id = id')) as [<- | Hne].
    + rewrite lookup_insert_eq in H. congruence.
    + rewrite lookup_insert_ne in H by assumption. auto.
Qed.

Lemma steady_set_component w id c :
  RouterComponent.id c = id ->
  components w !! id = None ->
  steady w (set_components <[id := c]> w).
Proof.
  intros Hid Hnone. split; [split |].
  - eauto.
  - intros id' c' H. simpl. rewrite lookup_insert_ne; [assumption | congruence].
  - intros (H1 & H2 & H3). repeat split; simpl; [assumption | | assumption].
    intros id' c' H. destruct (decide (id = id')) as [<- | Hne].
    + rewrite lookup_insert_eq in H. congruence.
    + rewrite lookup_insert_ne in H by assumption. auto.
Qed.

Lemma steady_set_transports w f :
  (ids_agree w ->
   forall id t, f (transports w) !! id = Some t -> RouterTransport.id t = id) ->
  steady w (set_transports f w).
Proof.
  intros H. split; [split; eauto |].
  intros Hw. destruct Hw as (H1 & H2 & H3).
  repeat split; auto. apply H. repeat split; auto.
Qed.

Lemma steady_ret {A} (a : A) : preserves steady (ret a).
Proof. apply preserves_ret, steady_refl. Qed.

Lemma steady_raise {A} e : preserves steady (@raise A e).
Proof. apply preserves_raise, steady_refl. Qed.

Lemma steady_bind {A B} (m : M A) (k : A -> M B) :
  preserves steady m -> (forall a, preserves steady (k a)) -> preserves steady (bind m k).
Proof. apply preserves_bind, steady_trans. Qed.

Lemma quiet_preserves_steady {A} (m : M A) : preserves quiet m -> preserves steady m.
Proof. intros H w w' r E. apply quiet_steady. eapply H, E. Qed.

Lemma steady_others w w' :
  realms w' = realms w -> components w' = components w ->
  transports w' = transports w -> steady w w'.
Proof. intros. eapply steady_registries; eauto. apply steady_refl. Qed.

Lemma start_router_realm_steady env id config schemas enable_trace :
  preserves steady (start_router_realm env id config schemas enable_trace).
Proof.
  intros w w' [k | e] E.
  - apply start_router_realm_inv in E
      as (realm & uri & Hid & _ & _ & _ & -> & _).
    eapply steady_registries; [| | | eapply (steady_set_realm w id)];
      try reflexivity.
    intros old. congruence.
  - revert E. unfold start_router_realm, dict_item. run.
    destruct (realms w !! id) eqn:Hid; [intros [= <- <-]; apply steady_refl |].
    destruct (check_router_realm env config); [intros [= <- <-]; apply steady_refl |].
    destruct (dict_lookup config "name") as [realm |]; simpl;
      [| intros [= <- <-]; apply steady_refl].
    destruct (hash_key realm) as [uri | e']; simpl.
    + destruct enable_trace; discriminate.
    + intros [= <- <-]. apply steady_set_realm; [reflexivity | intros old; congruence].
Qed.

Lemma start_router_realm_role_steady id role_id config :
  preserves steady (start_router_realm_role id role_id config).
Proof.
  intros w w' r. unfold start_router_realm_role, dict_item. run.
  destruct (realms w !! id) as [rlm |] eqn:Hid; [| intros [= <- <-]; apply steady_refl].
  destruct (RouterRealm.roles rlm !! role_id); [intros [= <- <-]; apply steady_refl |].
  assert (S1 : steady w (set_realms
                 <[id := RouterRealm.set_roles rlm
                           (<[role_id := RouterRealmRole.mk role_id config]>
                              (RouterRealm.roles rlm))]> w)).
  { apply steady_set_realm.
    - intros (H & _). simpl. eauto.
    - intros old. rewrite Hid. intros [= <-]. auto. }
  destruct (dict_lookup (RouterRealm.config rlm) "name") as [realm |]; simpl;
    [| intros [= <- <-]; exact S1].
  destruct (hash_key realm); simpl; intros [= <- <-]; [| exact S1].
  eapply steady_registries; [| | | exact S1]; reflexivity.
Qed.

Lemma stop_router_realm_role_steady id role_id :
  preserves steady (stop_router_realm_role id role_id).
Proof.
  intros w w' r. unfold stop_router_realm_role. run.
  destruct (realms w !! id) as [rlm |] eqn:Hid; [| intros [= <- <-]; apply steady_refl].
  destruct (RouterRealm.roles rlm !! role_id); intros [= <- <-]; [| apply steady_refl].
  apply steady_set_realm.
  - intros (H & _). simpl. eauto.
  - intros old. rewrite Hid. intros [= <-]. auto.
Qed.

Lemma set_uplink_session_steady realm_id uplink_id s :
  preserves steady (set_uplink_session realm_id uplink_id s).
Proof.
  intros w w' r. unfold set_uplink_session. run.
  destruct (realms w !! realm_id) as [rlm |] eqn:Hid;
    [| intros [= <- <-]; apply steady_refl].
  destruct (RouterRealm.uplinks rlm !! uplink_id) as [u |] eqn:Hu;
    intros [= <- <-]; [| apply steady_refl].
  apply steady_set_realm.
  - intros (H & _). simpl. eauto.
  - intros old. rewrite Hid. intros [= <-] uid Huid. simpl.
    destruct (decide (uplink_id = uid)) as [<- | Hne].
    + rewrite lookup_insert_eq. eauto.
    + now rewrite lookup_insert_ne.
Qed.

Lemma start_router_realm_uplink_steady realm_id uplink_id uplink_config :
  preserves steady (start_router_realm_uplink realm_id uplink_id uplink_config).
Proof.
  intros w w' r. unfold start_router_realm_uplink, dict_item. run.
  destruct (realms w !! realm_id) as [rlm |] eqn:Hid;
    [| intros [= <- <-]; apply steady_refl].
  destruct (RouterRealm.uplinks rlm !! uplink_id) eqn:Hu;
    [intros [= <- <-]; apply steady_refl |].
  assert (S1 : steady w (set_realms
                 <[realm_id := RouterRealm.set_uplinks rlm
                     (<[uplink_id := RouterRealmUplink.new uplink_id uplink_config]>
                        (RouterRealm.uplinks rlm))]> w)).
  { apply steady_set_realm.
    - intros (H & _). simpl. eauto.
    - intros old. rewrite Hid. intros [= <-] uid Huid. simpl.
      destruct (decide (uplink_id = uid)) as [<- | Hne].
      + rewrite lookup_insert_eq. eauto.
      + now rewrite lookup_insert_ne. }
  destruct (dict_lookup (RouterRealm.config rlm) "name"); simpl;
    intros [= <- <-]; [| exact S1].
  eapply steady_registries; [| | | exact S1]; reflexivity.
Qed.

Lemma start_router_component_steady env id config :
  preserves steady (start_router_component env id config).
Proof.
  intros w w' r. unfold start_router_component, dict_item. run.
  destruct (components w !! id) eqn:Hid; [intros [= <- <-]; apply steady_refl |].
  destruct (check_router_component env config); [intros [= <- <-]; apply steady_refl |].
  destruct (dict_lookup config "type"); simpl; [| intros [= <- <-]; apply steady_refl].
  destruct (iterate _); simpl; [| intros [= <- <-]; apply steady_refl].
  destruct (resolve_references _ _ _); simpl; [| intros [= <- <-]; apply steady_refl].
  destruct (dict_lookup config "realm"); simpl; [| intros [= <- <-]; apply steady_refl].
  destruct (_appsession_loader env config) as [create |]; simpl;
    [| intros [= <- <-]; apply steady_refl].
  destruct (create _ _); intros [= <- <-]; [apply steady_refl |].
  eapply steady_registries; [| | | apply (steady_set_component w id)];
    try reflexivity. exact Hid.
Qed.

Lemma stop_router_component_steady id : preserves steady (stop_router_component id).
Proof.
  intros w w' r E. destruct (components w !! id) eqn:Hid.
  - rewrite stop_router_component_present in E by eauto.
    injection E as <- <-. apply steady_refl.
  - rewrite stop_router_component_absent in E by assumption.
    injection E as <- <-. apply steady_refl.
Qed.

Lemma start_router_transport_steady env id config :
  preserves steady (start_router_transport env id config).
Proof.
  intros w w' r E. apply start_router_transport_inv in E.
  destruct r as [k | e]; [| now apply quiet_steady].
  destruct E as (_ & _ & w0 & f & ep & _ & Hq & _ & -> & _).
  eapply steady_registries; [| | | apply quiet_steady, Hq]; reflexivity.
Qed.

Lemma stop_router_transport_steady id : preserves steady (stop_router_transport id).
Proof.
  intros w w' r. unfold stop_router_transport. run.
  destruct (transports w !! id); intros [= <- <-]; apply steady_refl.
Qed.

Lemma steady_finished {A} (m : M A) : preserves steady m -> preserves steady (finished m).
Proof. intros H. apply steady_bind; [exact H | intros; apply steady_ret]. Qed.

Lemma steady_suspended m : preserves steady m -> preserves steady (suspended m).
Proof. intros H. apply steady_bind; [exact H | intros; apply steady_ret]. Qed.

Lemma steady_unchanged {A} (m : M A) :
  (forall w, exists r, m w = (w, r)) -> preserves steady m.
Proof. intros H w w' r E. destruct (H w) as (r' & E'). rewrite E' in E.
  injection E as <- _. apply steady_refl. Qed.

(** Every call of a procedure keeps what is registered. *)
Lemma invoke_steady env p : preserves steady (invoke env p).
Proof.
  destruct p; simpl;
    first [apply steady_finished | apply steady_suspended].
  - apply steady_unchanged. intros w. eexists. reflexivity.
  - apply start_router_realm_steady.
  - apply steady_unchanged. intros w. eexists. reflexivity.
  - apply steady_unchanged. intros w. unfold get_router_realm_roles. run.
    destruct (realms w !! id); eauto.
  - apply start_router_realm_role_steady.
  - apply stop_router_realm_role_steady.
  - apply steady_unchanged. intros w. unfold get_router_realm_uplinks. run.
    destruct (realms w !! id); eauto.
  - apply start_router_realm_uplink_steady.
  - apply steady_unchanged. intros w. eexists. reflexivity.
  - apply steady_unchanged. intros w. eexists. reflexivity.
  - apply start_router_component_steady.
  - apply stop_router_component_steady.
  - apply steady_unchanged. intros w. eexists. reflexivity.
  - apply start_router_transport_steady.
  - apply stop_router_transport_steady.
Qed.

Lemma start_router_realm_continuation env id config schemas enable_trace w w' k :
  start_router_realm env id config schemas enable_trace w = (w', Ok k) ->
  k = realm_ready.
Proof.
  unfold start_router_realm, dict_item. run.
  destruct (realms w !! id); [discriminate |].
  destruct (check_router_realm env config); [discriminate |].
  destruct (dict_lookup config "name") as [realm |]; simpl; [| discriminate].
  destruct (hash_key realm); simpl; [| discriminate].
  destruct enable_trace; simpl; now intros [= _ <-].
Qed.

Lemma start_router_realm_uplink_continuation realm_id uplink_id uplink_config w w' k :
  start_router_realm_uplink realm_id uplink_id uplink_config w = (w', Ok k) ->
  k = uplink_ready realm_id uplink_id.
Proof.
  unfold start_router_realm_uplink, dict_item. run.
  destruct (realms w !! realm_id) as [rlm |]; [| discriminate].
  destruct (RouterRealm.uplinks rlm !! uplink_id); [discriminate |].
  destruct (dict_lookup (RouterRealm.config rlm) "name"); simpl; [| discriminate].
  now intros [= _ <-].
Qed.

Lemma stop_router_transport_continuation id w w' k :
  stop_router_transport id w = (w', Ok k) -> k = stopped_callbacks id.
Proof.
  unfold stop_router_transport. run.
  destruct (transports w !! id); [| discriminate]. now intros [= _ <-].
Qed.

Lemma invoke_continuation env p w w' k :
  invoke env p w = (w', Ok (Some k)) -> continuation_of k.
Proof.
  destruct p; simpl; unfold finished, suspended, bind, ret;
    match goal with
    | |- context [let (_, _) := ?m w in _] =>
        destruct (m w) as [w0 [a | e]] eqn:E
    end; try discriminate; intros [= _ <-].
  - apply start_router_realm_continuation in E as ->. constructor.
  - apply start_router_realm_uplink_continuation in E as ->. constructor.
  - apply start_router_transport_inv in E as (_ & _ & ? & ? & ? & _ & _ & _ & _ & ->).
    constructor.
  - apply stop_router_transport_continuation in E as ->. constructor.
Qed.

Lemma continuation_steady k fired : continuation_of k -> preserves steady (k fired).
Proof.
  intros [| realm_id uplink_id | id config f | id]; destruct fired as [v | e]; simpl.
  - apply steady_ret.
  - apply steady_raise.
  - apply set_uplink_session_steady.
  - apply steady_raise.
  - intros w w' r [= <- <-]. apply steady_set_transports.
    intros (_ & _ & Ht) id' t. destruct (decide (id = id')) as [<- | Hne].
    + rewrite lookup_insert_eq. now intros [= <-].
    + rewrite lookup_insert_ne by assumption. apply Ht.
  - apply steady_raise.
  - intros w w' r [= <- <-]. apply steady_set_transports.
    intros (_ & _ & Ht) id' t. rewrite lookup_delete_Some. intros [_ H]. now apply Ht.
  - apply steady_raise.
Qed.

Lemma set_utcnow_steady now w : steady w (set_utcnow now w).
Proof. apply steady_others; reflexivity. Qed.

(** Along the steps of the process the pending continuations are those of
    the methods, no realm, uplink or component is lost, and the ids agree. *)
Lemma step_steady env ps ps' :
  step env ps ps' ->
  Forall continuation_of (pending ps) ->
  Forall continuation_of (pending ps') /\ steady (worker ps) (worker ps').
Proof.
  intros [p ps0 w' r E | ps0 i k fired w' r Hk E | ps0 now] Hp; simpl.
  - split; [| eapply invoke_steady, E].
    destruct r as [[k |] | e]; try assumption.
    apply Forall_app. split; [assumption |].
    constructor; [| constructor]. eapply invoke_continuation, E.
  - split; [now apply Forall_delete |].
    + eapply continuation_steady; [| exact E].
      rewrite Forall_forall in Hp. apply Hp. eapply list_elem_of_lookup_2, Hk.
  - split; [assumption | apply set_utcnow_steady].
Qed.

Lemma steps_steady env ps ps' :
  rtc (step env) ps ps' ->
  Forall continuation_of (pending ps) ->
  Forall continuation_of (pending ps') /\ steady (worker ps) (worker ps').
Proof.
  induction 1 as [ps | ps1 ps2 ps3 Hs _ IH]; intros Hp.
  - split; [assumption | apply steady_refl].
  - apply (step_steady env) in Hs as [Hp2 S12]; [| assumption].
    destruct (IH Hp2) as [Hp3 S23]. split; [assumption |].
    eapply steady_trans; eauto.
Qed.

Lemma onJoin_ids_agree conns now : ids_agree (onJoin conns now).
Proof. repeat split; intros id x H; simpl in H; now rewrite lookup_empty in H. Qed.

(** In every process reached from [onJoin] the entries of the registries
    carry the id they are registered under. *)
Lemma reachable_ids_agree env ps : reachable env ps -> ids_agree (worker ps).
Proof.
  intros (conns & now & H). apply steps_steady in H as [_ [_ Hi]]; [| constructor].
  apply Hi, onJoin_ids_agree.
Qed.

(** [start_router_realm_uplink], the checks passed: the uplink is recorded
    with no session, the method suspends when the realm has a name, and a
    second start on the worker so left is refused. *)
Lemma start_router_realm_uplink_records
    (w : Worker) (realm_id uplink_id : string) (uplink_config : Dict)
    (rlm : RouterRealm.t) :
  realms w !! realm_id = Some rlm ->
  RouterRealm.uplinks rlm !! uplink_id = None ->
  exists w1 r,
    start_router_realm_uplink realm_id uplink_id uplink_config w = (w1, r) /\
    (exists rlm1,
       realms w1 !! realm_id = Some rlm1 /\
       RouterRealm.uplinks rlm1 !! uplink_id
       = Some (RouterRealmUplink.mk uplink_id uplink_config VNone)) /\
    (is_Some (dict_lookup (RouterRealm.config rlm) "name") -> exists k, r = Ok k) /\
    forall uplink_config',
      start_router_realm_uplink realm_id uplink_id uplink_config' w1
      = (w1, Raise already_exists).
Proof.
  intros Hr Hu.
  set (rlm1 := RouterRealm.set_uplinks rlm
                 (<[uplink_id := RouterRealmUplink.new uplink_id uplink_config]>
                    (RouterRealm.uplinks rlm))).
  assert (Hu1 : RouterRealm.uplinks rlm1 !! uplink_id
                = Some (RouterRealmUplink.mk uplink_id uplink_config VNone))
    by apply lookup_insert_eq.
  assert (Hr1 : forall l, realms (set_router_session_factory l
                   (set_realms <[realm_id := rlm1]> w)) !! realm_id = Some rlm1)
    by (intros; apply lookup_insert_eq).
  assert (Hr2 : realms (set_realms <[realm_id := rlm1]> w) !! realm_id = Some rlm1)
    by apply lookup_insert_eq.
  unfold start_router_realm_uplink at 1, dict_item.
  unfold bind, get, modify, raise, ret, lift, add_session.
  rewrite Hr, Hu.
  destruct (dict_lookup (RouterRealm.config rlm) "name") as [realm |] eqn:Hname.
  - eexists _, _. split; [reflexivity |].
    split; [exists rlm1; split; [apply Hr1 | exact Hu1] |].
    split; [eauto |].
    intros cfg'. eapply start_router_realm_uplink_exists; [apply Hr1 |].
    rewrite Hu1. eauto.
  - eexists _, _. split; [reflexivity |].
    split; [exists rlm1; split; [apply Hr2 | exact Hu1] |].
    split; [intros [? ?]; discriminate |].
    intros cfg'. eapply start_router_realm_uplink_exists; [apply Hr2 |].
    rewrite Hu1. eauto.
Qed.

(** *** What stays registered along the steps of the process *)

Lemma registered_realm_stays env w pend ps' id :
  Forall continuation_of pend ->
  rtc (step env) (mkProcess w pend) ps' ->
  is_Some (realms w !! id) ->
  is_Some (realms (worker ps') !! id).
Proof.
  intros Hp Hs [rlm H]. apply steps_steady in Hs as [_ [[Hr _] _]]; [| exact Hp].
  apply Hr in H as (rlm' & H' & _). eauto.
Qed.

Lemma registered_uplink_stays env w pend ps' realm_id uplink_id rlm :
  Forall continuation_of pend ->
  rtc (step env) (mkProcess w pend) ps' ->
  realms w !! realm_id = Some rlm ->
  is_Some (RouterRealm.uplinks rlm !! uplink_id) ->
  exists rlm',
    realms (worker ps') !! realm_id = Some rlm' /\
    is_Some (RouterRealm.uplinks rlm' !! uplink_id).
Proof.
  intros Hp Hs H Hu. apply steps_steady in Hs as [_ [[Hr _] _]]; [| exact Hp].
  apply Hr in H as (rlm' & H' & Hu'). eauto.
Qed.

Lemma registered_component_stays env w pend ps' id c :
  Forall continuation_of pend ->
  rtc (step env) (mkProcess w pend) ps' ->
  components w !! id = Some c ->
  components (worker ps') !! id = Some c.
Proof.
  intros Hp Hs H. apply steps_steady in Hs as [_ [[_ Hc] _]]; [| exact Hp].
  now apply Hc.
Qed.

(** Two starts of the same transport, the second made before the port of the
    first listens: the registry does not hold the id yet, the second start
    passes the duplicate check as well and asks for a second port. *)
Lemma start_router_transport_twice_before_listening :
  let env := Sample.env Python2 in
  exists w1 k1 w2 k2,
    start_router_transport env "t1" Sample.web Sample.worker = (w1, Ok k1) /\
    start_router_transport env "t1" Sample.web w1 = (w2, Ok k2) /\
    length (listening w2) = 2%nat.
Proof.
  intros env.
  set (r1 := start_router_transport env "t1" Sample.web Sample.worker).
  set (r2 := start_router_transport env "t1" Sample.web r1.1).
  exists r1.1, (continuation r1.2), r2.1, (continuation r2.2).
  split; [vm_compute; reflexivity |]. split; [vm_compute; reflexivity |].
  reflexivity.
Qed.

(** *** The check of the paths of a Web transport *)


Lemma recognised_paths_unrecognised depth paths path path_config :
  dict_lookup paths path = Some path_config ->
  unrecognised path_config ->
  recognised_paths depth (CDict paths) = false.
Proof.
  intros Hpc Hun. revert depth paths path Hpc.
  induction Hun as [d type Hty Hrec | d ps k pc Hty Hps Hk _ IH];
    intros depth paths path Hpc.
  - destruct depth; [reflexivity |]. simpl.
    apply not_true_is_false. intros H. rewrite forallb_forall in H.
    apply dict_lookup_elem_of, list_elem_of_In, H in Hpc. simpl in Hpc.
    rewrite Hty, Hrec in Hpc. discriminate.
  - destruct depth; [reflexivity |]. simpl.
    apply not_true_is_false. intros H. rewrite forallb_forall in H.
    apply dict_lookup_elem_of, list_elem_of_In, H in Hpc. simpl in Hpc.
    rewrite Hty in Hpc. simpl in Hpc. unfold dict_get in Hpc. rewrite Hps in Hpc.
    rewrite (IH depth ps k Hk) in Hpc. discriminate.
Qed.

Lemma check_web_paths_unrecognised depth config paths path path_config :
  dict_lookup config "type" = Some (CStr "web") ->
  dict_lookup config "paths" = Some (CDict paths) ->
  dict_lookup paths path = Some path_config ->
  unrecognised path_config ->
  is_Some (check_web_paths depth config).
Proof.
  intros Hweb Hpaths Hpc Hun. unfold check_web_paths, dict_get.
  rewrite Hweb, Hpaths. simpl.
  rewrite (recognised_paths_unrecognised depth paths path path_config Hpc Hun). eauto.
Qed.

Lemma checking_env_checks_web_paths : checks_web_paths Sample.checking_env.
Proof. exists 100%nat. intros config H. exact H. Qed.

(** ** The claims *)




(** *** What building a transport factory reads of the worker

    The factory of a transport is built from the configuration, the
    environment and, for a schema-documentation resource, the realms and the
    index of URIs: a start repeated on a worker with the same realms builds
    the same factory. *)

Lemma uniform_ret {A} (a : A) : uniform (ret a).
Proof. intros w w' w1 r Ha [= <- <-]. eauto. Qed.

Lemma uniform_raise {A} e : uniform (@raise A e).
Proof. intros w w' w1 r Ha [= <- <-]. eauto. Qed.

Lemma uniform_lift {A} (x : Result A) : uniform (lift x).
Proof. intros w w' w1 r Ha [= <- <-]. eauto. Qed.

Lemma uniform_bind {A B} (m : M A) (k : A -> M B) :
  uniform m -> (forall a, uniform (k a)) -> uniform (bind m k).
Proof.
  intros Hm Hk w w' w1 r Ha. unfold bind.
  destruct (m w) as [w0 [a | e]] eqn:E.
  - destruct (Hm _ _ _ _ Ha E) as (w0' & -> & Ha0). intros E1.
    exact (Hk a _ _ _ _ Ha0 E1).
  - destruct (Hm _ _ _ _ Ha E) as (w0' & -> & Ha0). intros [= <- <-]. eauto.
Qed.

Lemma uniform_modify (f : Worker -> Worker) :
  (forall w, realms (f w) = realms w /\ realm_to_id (f w) = realm_to_id w) ->
  uniform (modify f).
Proof.
  intros Hf w w' w1 r [Hr Hx] [= <- <-]. exists (f w'). split; [reflexivity |].
  destruct (Hf w) as [E1 E2], (Hf w') as [E3 E4]. split; congruence.
Qed.

Ltac uniform_step :=
  first
    [ apply uniform_ret
    | apply uniform_raise
    | apply uniform_lift
    | apply uniform_bind; [| intros]
    | apply uniform_modify; intros; split; reflexivity
    | match goal with
      | |- uniform (match ?x with _ => _ end) => destruct x
      end ].

Ltac uniformity := repeat first [ solve [auto] | uniform_step ].

Lemma add_session_uniform s authrole : uniform (add_session s authrole).
Proof. unfold add_session. uniformity. Qed.

Lemma vanilla_session_uniform path_config : uniform (vanilla_session path_config).
Proof. pose proof add_session_uniform. unfold vanilla_session. uniformity. Qed.

Lemma create_schemadoc_uniform pc : uniform (create_schemadoc pc).
Proof.
  unfold create_schemadoc.
  apply uniform_bind; [apply uniform_lift | intros realm].
  apply uniform_bind; [apply uniform_lift | intros uri].
  intros w w' w1 r [Hr Hx]. unfold bind, get, lift, ret, raise. simpl.
  rewrite Hr, Hx.
  destruct (realm_to_id w !! uri) as [realm_id |];
    [| intros [= <- <-]; eexists; split; [reflexivity | now split]].
  destruct (realms w !! realm_id) as [rlm |];
    [| intros [= <- <-]; eexists; split; [reflexivity | now split]].
  destruct (_schemas (RouterRealm.session rlm)); intros [= <- <-];
    eexists; (split; [reflexivity | now split]).
Qed.

Section Uniform.
Context (env : Env).

Lemma create_static_uniform pc : uniform (create_static env pc).
Proof. unfold create_static. uniformity. Qed.

Lemma create_wsgi_uniform pc nested : uniform (create_wsgi env pc nested).
Proof. unfold create_wsgi. uniformity. Qed.

Lemma create_redirect_uniform pc : uniform (create_redirect pc).
Proof. unfold create_redirect. uniformity. Qed.

Lemma create_json_uniform pc : uniform (create_json pc).
Proof. unfold create_json. uniformity. Qed.

Lemma create_cgi_uniform pc : uniform (create_cgi env pc).
Proof. unfold create_cgi. uniformity. Qed.

Lemma create_longpoll_uniform pc : uniform (create_longpoll pc).
Proof. unfold create_longpoll. uniformity. Qed.

Lemma create_publisher_uniform pc : uniform (create_publisher pc).
Proof. pose proof vanilla_session_uniform. unfold create_publisher. uniformity. Qed.

Lemma create_webhook_uniform pc : uniform (create_webhook pc).
Proof. pose proof vanilla_session_uniform. unfold create_webhook. uniformity. Qed.

Lemma create_caller_uniform pc : uniform (create_caller pc).
Proof. pose proof vanilla_session_uniform. unfold create_caller. uniformity. Qed.

Lemma create_upload_uniform pc : uniform (create_upload env pc).
Proof. pose proof vanilla_session_uniform. unfold create_upload. uniformity. Qed.

Lemma create_custom_uniform pc : uniform (create_custom env pc).
Proof. unfold create_custom. uniformity. Qed.

Lemma add_each_uniform create paths keys :
  (forall c, uniform (create c)) ->
  forall resource, uniform (add_each env create paths keys resource).
Proof.
  intros Hc. induction keys as [| path keys IH]; intros resource; simpl.
  - uniformity.
  - unfold add_path. uniformity.
Qed.

Lemma _add_paths_uniform create resource paths :
  (forall c, uniform (create c)) ->
  uniform (_add_paths env create resource paths).
Proof. intros Hc. unfold _add_paths. now apply add_each_uniform. Qed.

Lemma _create_resource_uniform depth :
  forall pc nested, uniform (_create_resource env depth pc nested).
Proof.
  induction depth as [| depth IH]; intros pc nested; simpl.
  - uniformity.
  - pose proof create_static_uniform. pose proof create_wsgi_uniform.
    pose proof create_redirect_uniform. pose proof create_json_uniform.
    pose proof create_cgi_uniform. pose proof create_longpoll_uniform.
    pose proof create_publisher_uniform. pose proof create_webhook_uniform.
    pose proof create_caller_uniform. pose proof create_upload_uniform.
    pose proof create_custom_uniform. pose proof create_schemadoc_uniform.
    uniformity. apply _add_paths_uniform. intros c. apply IH.
Qed.

Lemma create_site_uniform config : uniform (create_site env config).
Proof.
  unfold create_site. pose proof _create_resource_uniform.
  uniformity. apply _add_paths_uniform. intros c. apply _create_resource_uniform.
Qed.

Lemma choose_factory_uniform config : uniform (choose_factory env config).
Proof. unfold choose_factory. pose proof create_site_uniform. uniformity. Qed.
End Uniform.

(** C2: a second start of an id that was started before. For a realm and for
    a component the second start fails with Already-Running and gives back
    the worker unchanged, whatever the process has gone through in between: a
    realm is registered from the moment its start suspends, a component when
    its start returns, and neither is ever removed. For a transport the
    second start fails in this way once the port of the first start listens.
    Made before that, while the first start waits for its port, it is not
    refused: the registry holds the id only once the port listens, so a
    second start of the same configuration passes the duplicate check, builds
    the same factory and asks for a second port on the same endpoint, and the
    id is still not registered. When both ports listen, the entry written
    for the first port is replaced by the entry of the second. *)
Theorem start_twice_outcome (env : Env) (id : string) :
  (forall w config schemas enable_trace w1 k,
     start_router_realm env id config schemas enable_trace w = (w1, Ok k) ->
     (forall v, k (Callback v) w1 = (w1, Ok tt)) /\
     forall pend ps' config' schemas' enable_trace',
       Forall continuation_of pend ->
       rtc (step env) (mkProcess w1 pend) ps' ->
       start_router_realm env id config' schemas' enable_trace' (worker ps')
       = (worker ps', Raise already_running)) /\
  (forall w config w1,
     start_router_component env id config w = (w1, Ok tt) ->
     forall pend ps' config',
       Forall continuation_of pend ->
       rtc (step env) (mkProcess w1 pend) ps' ->
       components (worker ps') !! id = components w1 !! id /\
       start_router_component env id config' (worker ps')
       = (worker ps', Raise already_running)) /\
  (forall w config w1 k port w1' w2 config',
     start_router_transport env id config w = (w1, Ok k) ->
     k (Callback port) w1' = (w2, Ok tt) ->
     start_router_transport env id config' w2 = (w2, Raise already_running)) /\
  (forall w config w1 k,
     start_router_transport env id config w = (w1, Ok k) ->
     transports w1 !! id = None /\
     exists w2 endpoint transport_factory,
       start_router_transport env id config w1 = (w2, Ok k) /\
       k = listening_callbacks id config transport_factory /\
       listening w1 = listening w ++ [(endpoint, transport_factory)] /\
       listening w2 = listening w1 ++ [(endpoint, transport_factory)] /\
       transports w2 = transports w /\
       forall port1 port2,
         exists w3 w4,
           k (Callback port1) w2 = (w3, Ok tt) /\
           transports w3 !! id
           = Some (RouterTransport.mk id config transport_factory port1 (utcnow w2)) /\
           k (Callback port2) w3 = (w4, Ok tt) /\
           transports w4
           = <[id := RouterTransport.mk id config transport_factory port2 (utcnow w3)]>
               (transports w)).
Proof.
  split; [| split; [| split]].
  - intros w config schemas tr w1 k H.
    apply start_router_realm_inv in H
      as (realm & uri & _ & _ & _ & _ & -> & Hcb & _).
    split; [intros v; apply Hcb |].
    intros pend ps' config' schemas' tr' Hp Hs.
    apply start_router_realm_running.
    eapply registered_realm_stays; [exact Hp | exact Hs |].
    simpl. rewrite lookup_insert_eq. eauto.
  - intros w config w1 H pend ps' config' Hp Hs.
    apply start_router_component_registers in H.
    pose proof (registered_component_stays env w1 pend ps' id _ Hp Hs H) as H'.
    split; [congruence |].
    apply start_router_component_running. rewrite H'. eauto.
  - intros w config w1 k port w1' w2 config' H Hk.
    apply start_router_transport_inv in H as (_ & _ & w0 & f & ep & _ & _ & _ & _ & ->).
    rewrite listening_callbacks_ok in Hk. injection Hk as <-.
    apply start_router_transport_running. simpl. rewrite lookup_insert_eq. eauto.
  - intros w config w1 k H.
    apply start_router_transport_inv in H
      as (Hid & Hck & w0 & f & ep & Hf & Hq & Hep & -> & ->).
    destruct Hq as (Hr & Hx & _ & Ht & _ & _ & _ & Hl).
    set (w1 := set_listening (fun l => l ++ [(ep, f)]) w0).
    assert (Ha : alike w w1) by (split; [exact Hr | exact Hx]).
    destruct (choose_factory_uniform env config w w1 w0 (Ok f) Ha Hf)
      as (w0' & Hf' & _).
    pose proof (choose_factory_quiet env config _ _ _ Hf')
      as (_ & _ & _ & Ht' & _ & _ & _ & Hl').
    assert (Hid1 : transports w1 !! id = None) by (simpl; now rewrite Ht).
    split; [exact Hid1 |].
    exists (set_listening (fun l => l ++ [(ep, f)]) w0'), ep, f.
    split.
    { unfold start_router_transport, dict_item, bind, get. simpl.
      change (transports w0) with (transports w1). rewrite Hid1, Hck.
      fold w1. rewrite Hf'. unfold lift. rewrite Hep. reflexivity. }
    split; [reflexivity |].
    split; [simpl; now rewrite Hl |].
    split; [simpl; now rewrite Hl' |].
    split; [simpl; rewrite Ht'; simpl; exact Ht |].
    intros port1 port2. eexists _, _.
    split; [apply listening_callbacks_ok |].
    split; [simpl; apply lookup_insert_eq |].
    split; [apply listening_callbacks_ok |].
    simpl. rewrite insert_insert_eq, Ht'. simpl. now rewrite Ht.
Qed.

Lemma start_twice_outcome_witness :
  let env := Sample.env Python2 in
  (start_router_realm env "r1" Sample.realm1 CNone false Sample.worker
   = (Sample.worker_r1, Ok realm_ready) /\
   (* while the realm waits, an uplink is started on it *)
   invoke env (Proc.start_router_realm_uplink "r1" "up1" Sample.uplink) Sample.worker_r1
   = (Sample.worker_up1, Ok (Some (uplink_ready "r1" "up1"))) /\
   start_router_realm env "r1" Sample.realm1 CNone true Sample.worker_up1
   = (Sample.worker_up1, Raise already_running)) /\
  (start_router_component env "c1" Sample.component1 Sample.worker
   = (Sample.worker_c1, Ok tt) /\
   (* a realm is started in between *)
   invoke env (Proc.start_router_realm "r1" Sample.realm1 CNone false) Sample.worker_c1
   = (Sample.worker_c1_r1, Ok (Some realm_ready)) /\
   components Sample.worker_c1_r1 !! "c1" = components Sample.worker_c1 !! "c1" /\
   start_router_component env "c1" Sample.component1 Sample.worker_c1_r1
   = (Sample.worker_c1_r1, Raise already_running)) /\
  (exists w1 k,
     start_router_transport env "t1" Sample.web Sample.worker = (w1, Ok k) /\
     k (Callback (VPort 1%nat)) w1 = (Sample.worker_t1, Ok tt) /\
     start_router_transport env "t1" Sample.web Sample.worker_t1
     = (Sample.worker_t1, Raise already_running)) /\
  (* the second start made while the first waits for its port *)
  (exists w1 k w2,
     start_router_transport env "t1" Sample.web Sample.worker = (w1, Ok k) /\
     transports w1 !! "t1" = None /\
     start_router_transport env "t1" Sample.web w1 = (w2, Ok k) /\
     length (listening w2) = 2%nat /\
     transports w2 = transports Sample.worker).
Proof.
  intros env.
  pose proof (start_twice_outcome env "r1") as (Hrealm & _ & _ & _).
  pose proof (start_twice_outcome env "c1") as (_ & Hcomponent & _ & _).
  pose proof (start_twice_outcome env "t1") as (_ & _ & Htransport & Hwaiting).
  split; [| split; [| split]].
  - assert (E : start_router_realm env "r1" Sample.realm1 CNone false Sample.worker
                = (Sample.worker_r1, Ok realm_ready)) by (vm_compute; reflexivity).
    assert (E' : invoke env (Proc.start_router_realm_uplink "r1" "up1" Sample.uplink)
                   Sample.worker_r1
                 = (Sample.worker_up1, Ok (Some (uplink_ready "r1" "up1"))))
      by (vm_compute; reflexivity).
    split; [exact E |]. split; [exact E' |].
    apply (proj2 (Hrealm Sample.worker Sample.realm1 CNone false _ _ E)
             [realm_ready]
             (mkProcess Sample.worker_up1 [realm_ready; uplink_ready "r1" "up1"])).
    + repeat constructor.
    + apply rtc_once.
      exact (step_call env (Proc.start_router_realm_uplink "r1" "up1" Sample.uplink)
               (mkProcess Sample.worker_r1 [realm_ready]) _ _ E').
  - assert (E : start_router_component env "c1" Sample.component1 Sample.worker
                = (Sample.worker_c1, Ok tt)) by (vm_compute; reflexivity).
    assert (E' : invoke env (Proc.start_router_realm "r1" Sample.realm1 CNone false)
                   Sample.worker_c1
                 = (Sample.worker_c1_r1, Ok (Some realm_ready)))
      by (vm_compute; reflexivity).
    split; [exact E |]. split; [exact E' |].
    apply (Hcomponent Sample.worker Sample.component1 _ E []
             (mkProcess Sample.worker_c1_r1 [realm_ready])).
    + constructor.
    + apply rtc_once.
      exact (step_call env (Proc.start_router_realm "r1" Sample.realm1 CNone false)
               (mkProcess Sample.worker_c1 []) _ _ E').
  - set (r := start_router_transport env "t1" Sample.web Sample.worker).
    assert (E : r = (r.1, Ok (continuation r.2))) by (vm_compute; reflexivity).
    assert (E' : continuation r.2 (Callback (VPort 1%nat)) r.1
                 = (Sample.worker_t1, Ok tt)) by (vm_compute; reflexivity).
    exists r.1, (continuation r.2). split; [exact E |]. split; [exact E' |].
    exact (Htransport Sample.worker Sample.web _ _ _ _ _ Sample.web E E').
  - set (r := start_router_transport env "t1" Sample.web Sample.worker).
    assert (E : r = (r.1, Ok (continuation r.2))) by (vm_compute; reflexivity).
    destruct (Hwaiting Sample.worker Sample.web _ _ E)
      as (Hid & w2 & ep & f & E2 & _ & Hl1 & Hl2 & Ht & _).
    exists r.1, (continuation r.2), w2.
    split; [exact E |]. split; [exact Hid |]. split; [exact E2 |].
    split; [rewrite Hl2, Hl1; reflexivity | exact Ht].
Defined.

(** C3, as the code has it: an absent id raises No-Such-Object; for a
    registered id the read of [_session_factory] fails, the handler turns the
    failure into Cannot-Stop, and the component stays in the registry and in
    the routing-session factory. *)
Theorem stop_router_component_cannot_stop (w : Worker) (id : string) :
  (components w !! id = None ->
     stop_router_component id w = (w, Raise no_such_object)) /\
  (is_Some (components w !! id) ->
     stop_router_component id w = (w, Raise cannot_stop)).
Proof.
  split; [apply stop_router_component_absent | apply stop_router_component_present].
Qed.

Lemma stop_router_component_cannot_stop_witness :
  (components Sample.worker !! "c1" = None /\
   stop_router_component "c1" Sample.worker = (Sample.worker, Raise no_such_object)) /\
  (is_Some (components Sample.worker_c1 !! "c1") /\
   stop_router_component "c1" Sample.worker_c1 = (Sample.worker_c1, Raise cannot_stop)).
Proof.
  split.
  - assert (H : components Sample.worker !! "c1" = None) by reflexivity.
    split; [exact H |].
    exact (proj1 (stop_router_component_cannot_stop Sample.worker "c1") H).
  - assert (H : is_Some (components Sample.worker_c1 !! "c1")) by (vm_compute; eauto).
    split; [exact H |].
    exact (proj2 (stop_router_component_cannot_stop Sample.worker_c1 "c1") H).
Defined.

(** C4, on the code: under Python 3 a key, which is a text, is never equal to
    the byte string [b"/"], so [_add_paths] leaves no key out: when it returns,
    the resource has one more child for every key of the path map, the root
    path ["/"] included, in ascending order of the keys and under their UTF-8
    encodings. *)
Theorem _add_paths_attaches_root_python3
    (env : Env) (create : Config -> M Resource) (resource : Resource) (paths : Dict)
    (w w' : Worker) (r : Resource) :
  python env = Python3 ->
  _add_paths env create resource paths w = (w', Ok r) ->
  exists cs,
    children r = children resource ++ cs /\
    cs.*1 = encode_utf8 <$> sorted text_lt (dict_keys paths) /\
    Sorted (fun s t => String.leb s t = true) (sorted text_lt (dict_keys paths)) /\
    (is_Some (dict_lookup paths "/") -> ["/"%byte] ∈ cs.*1).
Proof.
  intros Hpy H. apply _add_paths_children in H as (_ & cs & Hcs & Hnames).
  rewrite Hpy, attached_python3 in Hnames.
  exists cs. split; [exact Hcs |]. split; [exact Hnames |].
  split; [apply text_sorted |].
  intros [v Hv]. rewrite Hnames.
  apply (list_elem_of_fmap_2 encode_utf8 _ "/").
  rewrite sorted_perm. unfold dict_keys.
  apply (list_elem_of_fmap_2 fst _ ("/", v)). now apply dict_lookup_elem_of.
Qed.

Lemma _add_paths_attaches_root_python3_witness :
  let env := Sample.env Python3 in
  python env = Python3 /\
  is_Some (dict_lookup Sample.paths "/") /\
  _add_paths env (Sample.create Python3) (leaf (Resource404 [])) Sample.paths Sample.worker
  = (Sample.worker,
     Ok (Res (Resource404 [])
           [(["/"%byte], leaf (JsonResource (CInt 1)));
            (["w"%byte; "s"%byte], leaf (WebSocketResource [("type", CStr "websocket")]))])) /\
  ["/"%byte] ∈ [["/"%byte]; ["w"%byte; "s"%byte]].
Proof.
  intros env.
  assert (E : _add_paths env (Sample.create Python3) (leaf (Resource404 []))
                Sample.paths Sample.worker
              = (Sample.worker,
                 Ok (Res (Resource404 [])
                       [(["/"%byte], leaf (JsonResource (CInt 1)));
                        (["w"%byte; "s"%byte],
                         leaf (WebSocketResource [("type", CStr "websocket")]))])))
    by (vm_compute; reflexivity).
  assert (Hroot : is_Some (dict_lookup Sample.paths "/")) by (vm_compute; eauto).
  split; [reflexivity |]. split; [exact Hroot |]. split; [exact E |].
  destruct (_add_paths_attaches_root_python3 env _ _ _ _ _ _ eq_refl E)
    as (cs & Hcs & Hnames & _ & Hin).
  simpl in Hcs. subst cs. exact (Hin Hroot).
Defined.

(** The same call under Python 2 skips the root path. *)
Lemma _add_paths_skips_root_python2 :
  _add_paths (Sample.env Python2) (Sample.create Python2) (leaf (Resource404 []))
    Sample.paths Sample.worker
  = (Sample.worker,
     Ok (Res (Resource404 [])
           [(["w"%byte; "s"%byte], leaf (WebSocketResource [("type", CStr "websocket")]))])).
Proof. vm_compute. reflexivity. Qed.

(** C5: a Web transport one of whose paths, at any depth, has a type that is
    none of the recognised ones is never started: [start_router_transport]
    raises, the registry of transports is as it was and no listening port has
    been requested. The id being free and the checker of configurations
    refusing the paths of unrecognised type, as the specification has it, the
    fault is Invalid-Configuration and the worker is unchanged; and
    [_create_resource] itself raises Invalid-Configuration on a path of an
    unrecognised type. *)
Theorem unrecognised_path_type_rejected
    (env : Env) (w : Worker) (id : string) (config paths : Dict) (path : string)
    (path_config : Config) :
  dict_lookup config "type" = Some (CStr "web") ->
  dict_lookup config "paths" = Some (CDict paths) ->
  dict_lookup paths path = Some path_config ->
  unrecognised path_config ->
  (exists w' e,
     start_router_transport env id config w = (w', Raise e) /\
     transports w' = transports w /\
     listening w' = listening w) /\
  (checks_web_paths env ->
   transports w !! id = None ->
   start_router_transport env id config w = (w, Raise invalid_configuration)) /\
  (forall d type depth nested w0,
     dict_lookup d "type" = Some type ->
     recognised type = false ->
     _create_resource env (S depth) (CDict d) nested w0
     = (w0, Raise invalid_configuration)).
Proof.
  intros Hweb Hpaths Hpc Hun.
  split; [| split].
  - destruct (start_router_transport env id config w) as [w' [k | e]] eqn:E;
      apply start_router_transport_inv in E.
    + destruct E as (_ & _ & w0 & f & ep & Hf & _).
      rewrite (choose_factory_web env config Hweb) in Hf.
      destruct (create_site_unrecognised env config paths path path_config
                  Hpaths Hpc Hun w) as (w1 & e & He).
      congruence.
    + exists w', e. split; [reflexivity |].
      destruct E as (_ & _ & _ & Ht & _ & _ & _ & Hl). auto.
  - intros [depth Hcheck] Hid. apply start_router_transport_invalid; [exact Hid |].
    eapply Hcheck, check_web_paths_unrecognised; eauto.
  - intros d type depth nested w0. apply _create_resource_unrecognised_type.
Qed.

Lemma unrecognised_path_type_rejected_witness :
  unrecognised (CDict [("type", CStr "path");
                       ("paths", CDict [("x", CDict [("type", CStr "ftp")])])]) /\
  (exists w' e,
     start_router_transport (Sample.env Python2) "t1" Sample.web_unknown Sample.worker
     = (w', Raise e) /\
     transports w' = transports Sample.worker /\
     listening w' = listening Sample.worker) /\
  checks_web_paths Sample.checking_env /\
  start_router_transport Sample.checking_env "t1" Sample.web_unknown Sample.worker
  = (Sample.worker, Raise invalid_configuration).
Proof.
  assert (H : unrecognised (CDict [("type", CStr "path");
                ("paths", CDict [("x", CDict [("type", CStr "ftp")])])])).
  { apply (unrecognised_below _ [("x", CDict [("type", CStr "ftp")])] "x"
             (CDict [("type", CStr "ftp")])); [reflexivity | reflexivity | reflexivity |].
    apply (unrecognised_here _ (CStr "ftp")); reflexivity. }
  split; [exact H |]. split; [| split; [exact checking_env_checks_web_paths |]].
  - exact (proj1 (unrecognised_path_type_rejected (Sample.env Python2) Sample.worker
                    "t1" Sample.web_unknown _ "sub" _ eq_refl eq_refl eq_refl H)).
  - exact (proj1 (proj2 (unrecognised_path_type_rejected Sample.checking_env
                           Sample.worker "t1" Sample.web_unknown _ "sub" _
                           eq_refl eq_refl eq_refl H))
             checking_env_checks_web_paths eq_refl).
Defined.

(** C6: [get_router_components] and [get_router_transports] change nothing
    and return one summary (id, created as the UTC text of the creation time,
    config) for each registered entity, each entity once, in ascending order
    of creation time. *)
Theorem get_router_lists_sorted (env : Env) (w : Worker) :
  (exists cs,
     get_router_components env w
     = (w, Ok ((fun c => [("id", CStr (RouterComponent.id c));
                          ("created", CStr (utcstr env (RouterComponent.created c)));
                          ("config", CDict (RouterComponent.config c))]) <$> cs)) /\
     cs ≡ₚ (map_to_list (components w)).*2 /\
     (forall c, c ∈ cs <-> exists id, components w !! id = Some c) /\
     Sorted (fun c1 c2 => RouterComponent.created c1 <= RouterComponent.created c2) cs) /\
  (exists ts,
     get_router_transports env w
     = (w, Ok ((fun t => [("id", CStr (RouterTransport.id t));
                          ("created", CStr (utcstr env (RouterTransport.created t)));
                          ("config", CDict (RouterTransport.config t))]) <$> ts)) /\
     ts ≡ₚ (map_to_list (transports w)).*2 /\
     (forall t, t ∈ ts <-> exists id, transports w !! id = Some t) /\
     Sorted (fun t1 t2 => RouterTransport.created t1 <= RouterTransport.created t2) ts).
Proof.
  split.
  - eexists. split; [reflexivity |].
    split; [apply sorted_perm |].
    split; [| apply (created_sorted RouterComponent.created)].
    intros c. rewrite sorted_perm.
    rewrite list_elem_of_fmap. split.
    + intros ([id c'] & -> & Hin). exists id. now apply elem_of_map_to_list in Hin.
    + intros (id & Hid). exists (id, c). split; [reflexivity |].
      now apply elem_of_map_to_list.
  - eexists. split; [reflexivity |].
    split; [apply sorted_perm |].
    split; [| apply (created_sorted RouterTransport.created)].
    intros t. rewrite sorted_perm.
    rewrite list_elem_of_fmap. split.
    + intros ([id t'] & -> & Hin). exists id. now apply elem_of_map_to_list in Hin.
    + intros (id & Hid). exists (id, t). split; [reflexivity |].
      now apply elem_of_map_to_list.
Qed.

(** C7: when [start_router_transport] has accepted the configuration and asked
    for the listening port, nothing is in the registry yet. If the port comes
    up, the callback commits the record (id, config, factory, port) under
    [id]; if the bind fails, the call fails with Cannot-Listen and the worker
    is left as it was when the failure arrived, so the registry, which did not
    hold [id], does not hold it now. *)
Theorem start_router_transport_bind
    (env : Env) (w : Worker) (id : string) (config : Dict) (w1 : Worker)
    (k : Awaiting unit) :
  start_router_transport env id config w = (w1, Ok k) ->
  transports w !! id = None /\
  transports w1 = transports w /\
  exists transport_factory endpoint,
    dict_lookup config "endpoint" = Some endpoint /\
    last (listening w1) = Some (endpoint, transport_factory) /\
    (forall port w',
       exists w2,
         k (Callback port) w' = (w2, Ok tt) /\
         transports w2
         = <[id := RouterTransport.mk id config transport_factory port (utcnow w')]>
             (transports w')) /\
    (forall err w', k (Errback err) w' = (w', Raise cannot_listen)) /\
    (forall err,
       exists w2,
         k (Errback err) w1 = (w2, Raise cannot_listen) /\
         transports w2 !! id = None).
Proof.
  intros H.
  apply start_router_transport_inv in H
    as (Hid & _ & w0 & f & ep & _ & Hq & Hep & -> & ->).
  destruct Hq as (_ & _ & _ & Ht & _).
  split; [exact Hid |]. split; [exact Ht |].
  exists f, ep. split; [exact Hep |].
  split; [simpl; apply last_snoc |].
  split; [intros port w'; eexists; split; reflexivity |].
  split; [reflexivity |].
  intros err. eexists. split; [reflexivity |]. simpl. now rewrite Ht.
Qed.

Lemma start_router_transport_bind_witness :
  let env := Sample.env Python2 in
  exists w1 k,
    start_router_transport env "t1" Sample.web Sample.worker = (w1, Ok k) /\
    transports w1 !! "t1" = None /\
    (exists w2,
       k (Callback (VPort 1%nat)) w1 = (w2, Ok tt) /\
       is_Some (transports w2 !! "t1")) /\
    k (Errback (Foreign "address in use")) w1 = (w1, Raise cannot_listen).
Proof.
  intros env.
  set (r := start_router_transport env "t1" Sample.web Sample.worker).
  assert (E : r = (r.1, Ok (continuation r.2))) by (vm_compute; reflexivity).
  exists r.1, (continuation r.2). split; [exact E |].
  destruct (start_router_transport_bind env Sample.worker "t1" Sample.web _ _ E)
    as (Hid & Ht & f & ep & Hep & Hl & Hok & Hfail & Hfail1).
  split; [rewrite Ht; exact Hid |].
  split; [| apply Hfail].
  destruct (Hok (VPort 1%nat) r.1) as (w2 & Hk & Hw2).
  exists w2. split; [exact Hk |]. rewrite Hw2, lookup_insert_eq. eauto.
Defined.

(** C8: once the realm is found and the uplink id is free,
    [start_router_realm_uplink] records the uplink in the uplink map of the
    realm with session [None] before anything else; the method then suspends
    (the realm being one whose configuration has a name, as every started
    realm has). From then on, whatever calls and Deferreds the process goes
    through while the first start waits, a second start of the same uplink
    fails with Already-Exists and changes nothing. *)
Theorem start_router_realm_uplink_placeholder
    (w : Worker) (realm_id uplink_id : string) (uplink_config : Dict)
    (rlm : RouterRealm.t) :
  realms w !! realm_id = Some rlm ->
  RouterRealm.uplinks rlm !! uplink_id = None ->
  exists w1 r,
    start_router_realm_uplink realm_id uplink_id uplink_config w = (w1, r) /\
    (exists rlm1,
       realms w1 !! realm_id = Some rlm1 /\
       RouterRealm.uplinks rlm1 !! uplink_id
       = Some (RouterRealmUplink.mk uplink_id uplink_config VNone)) /\
    (is_Some (dict_lookup (RouterRealm.config rlm) "name") ->
     r = Ok (uplink_ready realm_id uplink_id)) /\
    forall env pend ps' uplink_config',
      Forall continuation_of pend ->
      rtc (step env) (mkProcess w1 (pend ++ [uplink_ready realm_id uplink_id])) ps' ->
      start_router_realm_uplink realm_id uplink_id uplink_config' (worker ps')
      = (worker ps', Raise already_exists).
Proof.
  intros Hr Hu.
  destruct (start_router_realm_uplink_records w realm_id uplink_id uplink_config rlm
              Hr Hu) as (w1 & r & E & (rlm1 & Hr1 & Hu1) & Hk & _).
  exists w1, r. split; [exact E |].
  split; [exists rlm1; auto |]. split.
  - intros Hname. destruct (Hk Hname) as (k & ->).
    apply start_router_realm_uplink_continuation in E as ->. reflexivity.
  - intros env pend ps' cfg' Hp Hs.
    assert (Hp' : Forall continuation_of (pend ++ [uplink_ready realm_id uplink_id])).
    { apply Forall_app. split; [exact Hp |]. repeat constructor. }
    destruct (registered_uplink_stays env w1 _ ps' realm_id uplink_id rlm1 Hp' Hs Hr1)
      as (rlm' & Hr' & Hu'); [rewrite Hu1; eauto |].
    eapply start_router_realm_uplink_exists; eauto.
Qed.

Lemma start_router_realm_uplink_placeholder_witness :
  let env := Sample.env Python2 in
  realms Sample.worker_r1 !! "r1"
  = Some (RouterRealm.mk "r1" Sample.realm1
            (Some (RouterServiceSession (CStr "realm1") CNone)) 0 ∅ ∅) /\
  start_router_realm_uplink "r1" "up1" Sample.uplink Sample.worker_r1
  = (Sample.worker_up1, Ok (uplink_ready "r1" "up1")) /\
  (exists rlm1,
     realms Sample.worker_up1 !! "r1" = Some rlm1 /\
     RouterRealm.uplinks rlm1 !! "up1"
     = Some (RouterRealmUplink.mk "up1" Sample.uplink VNone)) /\
  (* while the uplink waits, a component is started *)
  invoke env (Proc.start_router_component "c1" Sample.component1) Sample.worker_up1
  = (Sample.worker_up1_c1, Ok None) /\
  start_router_realm_uplink "r1" "up1" Sample.uplink Sample.worker_up1_c1
  = (Sample.worker_up1_c1, Raise already_exists).
Proof.
  intros env.
  assert (H : realms Sample.worker_r1 !! "r1"
              = Some (RouterRealm.mk "r1" Sample.realm1
                        (Some (RouterServiceSession (CStr "realm1") CNone)) 0 ∅ ∅))
    by reflexivity.
  split; [exact H |].
  destruct (start_router_realm_uplink_placeholder Sample.worker_r1 "r1" "up1"
              Sample.uplink _ H eq_refl) as (w1 & r & E & Hrec & Hk & Hlater).
  rewrite (Hk (ex_intro _ (CStr "realm1") eq_refl)) in E.
  assert (E1 : w1 = Sample.worker_up1) by (unfold Sample.worker_up1; now rewrite E).
  subst w1. split; [exact E |]. split; [exact Hrec |].
  assert (E2 : invoke env (Proc.start_router_component "c1" Sample.component1)
                 Sample.worker_up1 = (Sample.worker_up1_c1, Ok None))
    by (vm_compute; reflexivity).
  split; [exact E2 |].
  apply (Hlater env [] (mkProcess Sample.worker_up1_c1 [uplink_ready "r1" "up1"])
           Sample.uplink (Forall_nil_2 _)).
  apply rtc_once.
  exact (step_call env (Proc.start_router_component "c1" Sample.component1)
           (mkProcess Sample.worker_up1 [uplink_ready "r1" "up1"]) _ _ E2).
Defined.

(** C9: whatever the worker, [get_router_realms] raises the bare exception
    "not implemented", which is no fault of the management API, returns no
    list, and leaves the worker as it was. *)
Theorem get_router_realms_not_implemented (w : Worker) :
  exists e,
    get_router_realms w = (w, Raise e) /\
    e = Exception "not implemented" /\
    forall uri, e <> ApplicationError uri.
Proof.
  exists (Exception "not implemented"). split; [reflexivity | split; [reflexivity |]].
  intros uri H. discriminate H.
Qed.





(** ** Further properties of the worker *)

(** *** Realms, roles and uplinks *)

Lemma set_roles_back rlm m :
  RouterRealm.set_roles (RouterRealm.set_roles rlm m) (RouterRealm.roles rlm) = rlm.
Proof. now destruct rlm. Qed.

Lemma values_insert {V} (m : gmap string V) k v :
  m !! k = None -> (map_to_list (<[k := v]> m)).*2 ≡ₚ v :: (map_to_list m).*2.
Proof. intros H. now rewrite map_to_list_insert. Qed.

(** X1: The five procedures that take the id of a realm and look it up fail with
    No-Such-Object on an id that is not registered, and change nothing. *)
Theorem unknown_realm_no_such_object (w : Worker) (id : string) :
  realms w !! id = None ->
  get_router_realm_roles id w = (w, Raise no_such_object) /\
  get_router_realm_uplinks id w = (w, Raise no_such_object) /\
  (forall role_id config,
     start_router_realm_role id role_id config w = (w, Raise no_such_object)) /\
  (forall role_id,
     stop_router_realm_role id role_id w = (w, Raise no_such_object)) /\
  (forall uplink_id uplink_config,
     start_router_realm_uplink id uplink_id uplink_config w
     = (w, Raise no_such_object)).
Proof.
  intros H.
  unfold get_router_realm_roles, get_router_realm_uplinks, start_router_realm_role,
    stop_router_realm_role, start_router_realm_uplink.
  run. rewrite H. repeat split.
Qed.

Lemma unknown_realm_no_such_object_witness :
  realms Sample.worker !! "r1" = None /\
  get_router_realm_roles "r1" Sample.worker = (Sample.worker, Raise no_such_object) /\
  start_router_realm_uplink "r1" "up1" Sample.uplink Sample.worker
  = (Sample.worker, Raise no_such_object).
Proof.
  assert (H : realms Sample.worker !! "r1" = None) by reflexivity.
  split; [exact H |].
  destruct (unknown_realm_no_such_object Sample.worker "r1" H) as (H1 & _ & _ & _ & H5).
  split; [exact H1 | apply H5].
Defined.

(** X2: the roles of a registered realm. [start_router_realm_role] puts the
    role into the role map of the realm before it turns to the router
    factory: however the call ends, the role is in the registry. In every
    worker with this registry of realms, whatever the router factory has
    done, the list of roles shows the role and a second start under the same
    id is refused with Already-Exists; [stop_router_realm_role] takes the
    role out again, so that the registry of realms is what it was before the
    start, and changes nothing else: the router factory is not called. After
    the stop a start records the role anew. *)
Theorem realm_role_round_trip
    (w : Worker) (id role_id : string) (config : Dict) (rlm : RouterRealm.t) :
  realms w !! id = Some rlm ->
  RouterRealm.roles rlm !! role_id = None ->
  let registered :=
    <[id := RouterRealm.set_roles rlm
              (<[role_id := RouterRealmRole.mk role_id config]>
                 (RouterRealm.roles rlm))]> (realms w) in
  (exists w1 r,
     start_router_realm_role id role_id config w = (w1, r) /\
     realms w1 = registered) /\
  forall w1,
    realms w1 = registered ->
    exists roles w2,
      get_router_realm_roles id w1 = (w1, Ok roles) /\
      roles ≡ₚ RouterRealmRole.mk role_id config
                 :: (map_to_list (RouterRealm.roles rlm)).*2 /\
      (forall config',
         start_router_realm_role id role_id config' w1 = (w1, Raise already_exists)) /\
      stop_router_realm_role id role_id w1 = (w2, Ok tt) /\
      realms w2 = realms w /\
      w2 = set_realms (fun _ => realms w) w1 /\
      (forall config',
         exists w3 r' rlm3,
           start_router_realm_role id role_id config' w2 = (w3, r') /\
           realms w3 !! id = Some rlm3 /\
           RouterRealm.roles rlm3 !! role_id
           = Some (RouterRealmRole.mk role_id config')).
Proof.
  intros Hr Hrole registered.
  set (rlm1 := RouterRealm.set_roles rlm
                 (<[role_id := RouterRealmRole.mk role_id config]> (RouterRealm.roles rlm))).
  assert (Hstart : forall w0 rlm0 cfg,
             realms w0 !! id = Some rlm0 ->
             RouterRealm.roles rlm0 !! role_id = None ->
             exists w' r',
               start_router_realm_role id role_id cfg w0 = (w', r') /\
               realms w'
               = <[id := RouterRealm.set_roles rlm0
                           (<[role_id := RouterRealmRole.mk role_id cfg]>
                              (RouterRealm.roles rlm0))]> (realms w0)).
  { intros w0 rlm0 cfg H0 H0'. unfold start_router_realm_role, dict_item. run.
    rewrite H0, H0'.
    destruct (dict_lookup (RouterRealm.config rlm0) "name") as [realm |]; simpl;
      [| eauto].
    destruct (hash_key realm); simpl; eauto. }
  split; [exact (Hstart w rlm config Hr Hrole) |].
  intros w1 Hw1. subst registered. fold rlm1 in Hw1.
  assert (Hr1 : realms w1 !! id = Some rlm1) by (rewrite Hw1; apply lookup_insert_eq).
  set (w2 := set_realms <[id := RouterRealm.set_roles rlm1
                                  (delete role_id (RouterRealm.roles rlm1))]> w1).
  assert (E2 : stop_router_realm_role id role_id w1 = (w2, Ok tt)).
  { unfold stop_router_realm_role. run. rewrite Hr1. simpl.
    rewrite lookup_insert_eq. reflexivity. }
  assert (Hw2 : realms w2 = realms w).
  { change (realms w2)
      with (<[id := RouterRealm.set_roles rlm1
                      (delete role_id
                         (<[role_id := RouterRealmRole.mk role_id config]>
                            (RouterRealm.roles rlm)))]> (realms w1)).
    rewrite Hw1, insert_insert_eq, delete_insert_id by exact Hrole.
    unfold rlm1. rewrite set_roles_back. now apply insert_id. }
  exists ((map_to_list (RouterRealm.roles rlm1)).*2), w2.
  split; [unfold get_router_realm_roles; run; now rewrite Hr1 |].
  split; [now apply values_insert |].
  split.
  { intros config'. unfold start_router_realm_role. run. rewrite Hr1. simpl.
    now rewrite lookup_insert_eq. }
  split; [exact E2 |]. split; [exact Hw2 |].
  split.
  { unfold w2, set_realms. f_equal. exact Hw2. }
  intros config'.
  destruct (Hstart w2 rlm config') as (w3 & r' & E3 & Hw3);
    [now rewrite Hw2 | exact Hrole |].
  exists w3, r'. eexists. split; [exact E3 |].
  rewrite Hw3. split; [apply lookup_insert_eq | apply lookup_insert_eq].
Qed.

Lemma realm_role_round_trip_witness :
  exists w1 r w2,
    start_router_realm_role "r1" "backend" Sample.role Sample.worker_r1 = (w1, r) /\
    stop_router_realm_role "r1" "backend" w1 = (w2, Ok tt) /\
    realms w2 = realms Sample.worker_r1.
Proof.
  destruct (realm_role_round_trip Sample.worker_r1 "r1" "backend" Sample.role _
              eq_refl eq_refl)
    as [(w1 & r & E1 & Hw1) H].
  destruct (H w1 Hw1) as (roles & w2 & _ & _ & _ & E2 & Hw & _).
  exists w1, r, w2. auto.
Defined.

(** *** What lasts along the steps of the process *)

Lemma same_realm_refl rlm : same_realm rlm rlm.
Proof. repeat split. Qed.

Lemma same_realm_trans r1 r2 r3 : same_realm r1 r2 -> same_realm r2 r3 -> same_realm r1 r3.
Proof. unfold same_realm. intuition congruence. Qed.

Lemma calm_refl w : calm w w.
Proof. split; [apply quiet_refl | split; reflexivity]. Qed.

Lemma calm_trans w1 w2 w3 : calm w1 w2 -> calm w2 w3 -> calm w1 w3.
Proof.
  intros (Q1 & S1 & T1) (Q2 & S2 & T2).
  split; [eapply quiet_trans; eauto | split; etrans; eauto].
Qed.

Lemma calm_ret {A} (a : A) : preserves calm (ret a).
Proof. apply preserves_ret, calm_refl. Qed.

Lemma calm_raise {A} e : preserves calm (@raise A e).
Proof. apply preserves_raise, calm_refl. Qed.

Lemma calm_lift {A} (x : Result A) : preserves calm (lift x).
Proof. apply preserves_lift, calm_refl. Qed.

Lemma calm_get : preserves calm get.
Proof. apply preserves_get, calm_refl. Qed.

Lemma calm_bind {A B} (m : M A) (k : A -> M B) :
  preserves calm m -> (forall a, preserves calm (k a)) -> preserves calm (bind m k).
Proof. apply preserves_bind, calm_trans. Qed.

Create HintDb calm.

Ltac calm_step :=
  first
    [ apply calm_ret
    | apply calm_raise
    | apply calm_lift
    | apply calm_get
    | apply calm_bind; [| intros]
    | match goal with
      | |- preserves _ (match ?x with _ => _ end) => destruct x
      end ].

Ltac calming := repeat first [ solve [eauto with calm] | calm_step ].

Lemma add_session_calm s authrole : preserves calm (add_session s authrole).
Proof.
  apply preserves_modify. intros w.
  split; [unfold quiet; simpl; tauto |]. split; [| reflexivity].
  simpl. now apply prefix_app_r.
Qed.
#[export] Hint Resolve add_session_calm : calm.

Lemma set_thread_pools_calm x :
  preserves calm (modify (set_thread_pools (fun l => l ++ [x]))).
Proof.
  apply preserves_modify. intros w.
  split; [unfold quiet; simpl; tauto |]. split; [reflexivity |].
  simpl. now apply prefix_app_r.
Qed.
#[export] Hint Resolve set_thread_pools_calm : calm.

Lemma vanilla_session_calm path_config : preserves calm (vanilla_session path_config).
Proof. unfold vanilla_session. calming. Qed.
#[export] Hint Resolve vanilla_session_calm : calm.

Section Calm.
Context (env : Env).

Lemma create_static_calm pc : preserves calm (create_static env pc).
Proof. unfold create_static. calming. Qed.

Lemma create_wsgi_calm pc nested : preserves calm (create_wsgi env pc nested).
Proof. unfold create_wsgi. calming. Qed.

Lemma create_redirect_calm pc : preserves calm (create_redirect pc).
Proof. unfold create_redirect. calming. Qed.

Lemma create_json_calm pc : preserves calm (create_json pc).
Proof. unfold create_json. calming. Qed.

Lemma create_cgi_calm pc : preserves calm (create_cgi env pc).
Proof. unfold create_cgi. calming. Qed.

Lemma create_longpoll_calm pc : preserves calm (create_longpoll pc).
Proof. unfold create_longpoll. calming. Qed.

Lemma create_publisher_calm pc : preserves calm (create_publisher pc).
Proof. unfold create_publisher. calming. Qed.

Lemma create_webhook_calm pc : preserves calm (create_webhook pc).
Proof. unfold create_webhook. calming. Qed.

Lemma create_caller_calm pc : preserves calm (create_caller pc).
Proof. unfold create_caller. calming. Qed.

Lemma create_upload_calm pc : preserves calm (create_upload env pc).
Proof. unfold create_upload. calming. Qed.

Lemma create_custom_calm pc : preserves calm (create_custom env pc).
Proof. unfold create_custom. calming. Qed.

Lemma create_schemadoc_calm pc : preserves calm (create_schemadoc pc).
Proof. unfold create_schemadoc. calming. Qed.

Lemma add_each_calm create paths keys :
  (forall c, preserves calm (create c)) ->
  forall resource, preserves calm (add_each env create paths keys resource).
Proof.
  intros Hc. induction keys as [| path keys IH]; intros resource; simpl.
  - calming.
  - unfold add_path. calming.
Qed.

Lemma _add_paths_calm create resource paths :
  (forall c, preserves calm (create c)) ->
  preserves calm (_add_paths env create resource paths).
Proof. intros Hc. unfold _add_paths. now apply add_each_calm. Qed.

Lemma _create_resource_calm depth :
  forall pc nested, preserves calm (_create_resource env depth pc nested).
Proof.
  induction depth as [| depth IH]; intros pc nested; simpl.
  - calming.
  - pose proof create_static_calm. pose proof create_wsgi_calm.
    pose proof create_redirect_calm. pose proof create_json_calm.
    pose proof create_cgi_calm. pose proof create_longpoll_calm.
    pose proof create_publisher_calm. pose proof create_webhook_calm.
    pose proof create_caller_calm. pose proof create_upload_calm.
    pose proof create_custom_calm. pose proof create_schemadoc_calm.
    calming. apply _add_paths_calm. intros c. apply IH.
Qed.

Lemma create_site_calm config : preserves calm (create_site env config).
Proof.
  unfold create_site. pose proof _create_resource_calm.
  calming. apply _add_paths_calm. intros c. apply _create_resource_calm.
Qed.

Lemma choose_factory_calm config : preserves calm (choose_factory env config).
Proof. unfold choose_factory. pose proof create_site_calm. calming. Qed.
End Calm.

Lemma lasting_refl w : lasting w w.
Proof.
  split; [| split; [auto | split; [reflexivity | split; [reflexivity |
    split; [reflexivity | split; [reflexivity | auto]]]]]].
  intros id rlm H. exists rlm. split; [exact H | apply same_realm_refl].
Qed.

Lemma lasting_trans w1 w2 w3 : lasting w1 w2 -> lasting w2 w3 -> lasting w1 w3.
Proof.
  intros (R1 & X1 & S1 & T1 & L1 & C1 & I1) (R2 & X2 & S2 & T2 & L2 & C2 & I2).
  split; [| split; [auto | split; [etrans; eassumption | split; [etrans; eassumption |
    split; [etrans; eassumption | split; [congruence | auto]]]]]].
  intros id rlm H. apply R1 in H as (rlm' & H' & E1).
  apply R2 in H' as (rlm'' & H'' & E2).
  exists rlm''. split; [exact H'' | eapply same_realm_trans; eauto].
Qed.

(** [lasting] and [indexed] look at the realms and at the index only. *)
Lemma indexed_same w w' :
  realms w' = realms w -> realm_to_id w' = realm_to_id w -> indexed w -> indexed w'.
Proof. intros Hr Hx [H1 H2]. split; rewrite ?Hr, ?Hx; assumption. Qed.

Lemma lasting_others w w' :
  realms w' = realms w ->
  realm_to_id w' = realm_to_id w ->
  _router_session_factory w `prefix_of` _router_session_factory w' ->
  thread_pools w `prefix_of` thread_pools w' ->
  listening w `prefix_of` listening w' ->
  _connections w' = _connections w ->
  lasting w w'.
Proof.
  intros Hr Hx Hs Ht Hl Hc.
  split; [| split; [now rewrite Hx | split; [exact Hs | split; [exact Ht |
    split; [exact Hl | split; [exact Hc | now apply indexed_same]]]]]].
  intros id rlm H. exists rlm. rewrite Hr. split; [exact H | apply same_realm_refl].
Qed.

Lemma calm_lasting w w' : calm w w' -> lasting w w'.
Proof.
  intros ((Hr & Hx & _ & _ & _ & Hc & _ & Hl) & Hs & Ht).
  apply lasting_others; auto. now rewrite Hl.
Qed.

(** A registered realm replaced by the same realm with other roles or
    uplinks. *)
Lemma lasting_update_realm w id old rlm :
  realms w !! id = Some old ->
  same_realm old rlm ->
  lasting w (set_realms <[id := rlm]> w).
Proof.
  intros Hold Hsame.
  split; [| split; [auto | repeat split; auto]].
  - intros id' rlm' H. simpl. destruct (decide (id = id')) as [<- | Hne].
    + rewrite lookup_insert_eq. exists rlm. split; [reflexivity | congruence].
    + rewrite lookup_insert_ne by assumption. exists rlm'.
      split; [exact H | apply same_realm_refl].
  - intros id' rlm'. simpl. destruct (decide (id = id')) as [<- | Hne].
    + rewrite lookup_insert_eq. intros [= <-].
      destruct Hsame as (_ & -> & _). eapply H, Hold.
    + rewrite lookup_insert_ne by assumption. apply H.
  - intros uri id' Hx. destruct H as [_ H].
    destruct (H uri id' Hx) as (rlm' & realm & schemas & Hr & Hn & Hh & Hs).
    simpl. destruct (decide (id = id')) as [<- | Hne].
    + rewrite lookup_insert_eq. exists rlm, realm, schemas.
      destruct Hsame as (_ & Hc & Hss & _).
      assert (rlm' = old) as -> by congruence.
      rewrite Hc, Hss. auto.
    + rewrite lookup_insert_ne by assumption. eauto 10.
Qed.

(** A realm put under a free id, with a name in its configuration. *)
Lemma lasting_new_realm w id rlm :
  realms w !! id = None ->
  is_Some (dict_lookup (RouterRealm.config rlm) "name") ->
  lasting w (set_realms <[id := rlm]> w).
Proof.
  intros Hfree Hname.
  split; [| split; [auto | repeat split; auto]].
  - intros id' rlm' H. simpl. exists rlm'.
    rewrite lookup_insert_ne by congruence. split; [exact H | apply same_realm_refl].
  - intros id' rlm'. simpl. destruct (decide (id = id')) as [<- | Hne].
    + rewrite lookup_insert_eq. now intros [= <-].
    + rewrite lookup_insert_ne by assumption. apply H.
  - intros uri id' Hx. destruct H as [_ H].
    destruct (H uri id' Hx) as (rlm' & realm & schemas & Hr & Hn & Hh & Hs).
    simpl. rewrite lookup_insert_ne by congruence. eauto 10.
Qed.

(** The worker at the suspension point of [start_router_realm]. *)
Lemma lasting_realm_started w id config realm schemas uri enable_trace :
  realms w !! id = None ->
  dict_lookup config "name" = Some realm ->
  hash_key realm = Ok uri ->
  lasting w (realm_started w id config realm schemas uri enable_trace).
Proof.
  intros Hfree Hname Huri.
  split; [| split; [| repeat split; auto]].
  - intros id' rlm' H. simpl. exists rlm'.
    rewrite lookup_insert_ne by congruence. split; [exact H | apply same_realm_refl].
  - intros uri' H. simpl. destruct (decide (uri = uri')) as [<- | Hne].
    + rewrite lookup_insert_eq. eauto.
    + now rewrite lookup_insert_ne.
  - simpl. now apply prefix_app_r.
  - intros id' rlm'. simpl. destruct (decide (id = id')) as [<- | Hne].
    + rewrite lookup_insert_eq. intros [= <-]. simpl. eauto.
    + rewrite lookup_insert_ne by assumption. apply H.
  - intros uri' id'. simpl. destruct (decide (uri = uri')) as [<- | Hne].
    + rewrite lookup_insert_eq. intros [= <-]. rewrite lookup_insert_eq.
      eexists _, realm, schemas. split; [reflexivity |]. simpl. auto.
    + rewrite lookup_insert_ne by assumption. intros Hx. destruct H as [_ H].
      destruct (H uri' id' Hx) as (rlm' & realm' & schemas' & Hr & Hn & Hh & Hs).
      rewrite lookup_insert_ne by congruence. eauto 10.
Qed.

Lemma lasting_ret {A} (a : A) : preserves lasting (ret a).
Proof. apply preserves_ret, lasting_refl. Qed.

Lemma lasting_raise {A} e : preserves lasting (@raise A e).
Proof. apply preserves_raise, lasting_refl. Qed.

Lemma lasting_bind {A B} (m : M A) (k : A -> M B) :
  preserves lasting m -> (forall a, preserves lasting (k a)) ->
  preserves lasting (bind m k).
Proof. apply preserves_bind, lasting_trans. Qed.

Lemma lasting_unchanged {A} (m : M A) :
  (forall w, exists r, m w = (w, r)) -> preserves lasting m.
Proof.
  intros H w w' r E. destruct (H w) as (r' & E'). rewrite E' in E.
  injection E as <- _. apply lasting_refl.
Qed.

Lemma start_router_realm_lasting env id config schemas enable_trace :
  preserves lasting (start_router_realm env id config schemas enable_trace).
Proof.
  intros w w' [k | e] E.
  - apply start_router_realm_inv in E
      as (realm & uri & Hid & _ & Hname & Huri & -> & _).
    now apply lasting_realm_started.
  - revert E. unfold start_router_realm, dict_item. run.
    destruct (realms w !! id) eqn:Hid; [intros [= <- <-]; apply lasting_refl |].
    destruct (check_router_realm env config); [intros [= <- <-]; apply lasting_refl |].
    destruct (dict_lookup config "name") as [realm |] eqn:Hname; simpl;
      [| intros [= <- <-]; apply lasting_refl].
    destruct (hash_key realm) as [uri | e']; simpl.
    + destruct enable_trace; discriminate.
    + intros [= <- <-]. apply lasting_new_realm; [exact Hid | simpl; eauto].
Qed.

Lemma lasting_set_router_factory w w' f :
  lasting w w' -> lasting w (set_router_factory f w').
Proof.
  intros H. eapply lasting_trans; [exact H |].
  apply lasting_others; reflexivity.
Qed.

Lemma start_router_realm_role_lasting id role_id config :
  preserves lasting (start_router_realm_role id role_id config).
Proof.
  intros w w' r. unfold start_router_realm_role, dict_item. run.
  destruct (realms w !! id) as [rlm |] eqn:Hid; [| intros [= <- <-]; apply lasting_refl].
  destruct (RouterRealm.roles rlm !! role_id); [intros [= <- <-]; apply lasting_refl |].
  assert (S1 : lasting w (set_realms
                 <[id := RouterRealm.set_roles rlm
                           (<[role_id := RouterRealmRole.mk role_id config]>
                              (RouterRealm.roles rlm))]> w)).
  { eapply lasting_update_realm; [exact Hid | repeat split]. }
  destruct (dict_lookup (RouterRealm.config rlm) "name") as [realm |]; simpl;
    [| intros [= <- <-]; exact S1].
  destruct (hash_key realm); simpl; intros [= <- <-]; [| exact S1].
  now apply lasting_set_router_factory.
Qed.

Lemma stop_router_realm_role_lasting id role_id :
  preserves lasting (stop_router_realm_role id role_id).
Proof.
  intros w w' r. unfold stop_router_realm_role. run.
  destruct (realms w !! id) as [rlm |] eqn:Hid; [| intros [= <- <-]; apply lasting_refl].
  destruct (RouterRealm.roles rlm !! role_id); intros [= <- <-]; [| apply lasting_refl].
  eapply lasting_update_realm; [exact Hid | repeat split].
Qed.

Lemma set_uplink_session_lasting realm_id uplink_id s :
  preserves lasting (set_uplink_session realm_id uplink_id s).
Proof.
  intros w w' r. unfold set_uplink_session. run.
  destruct (realms w !! realm_id) as [rlm |] eqn:Hid;
    [| intros [= <- <-]; apply lasting_refl].
  destruct (RouterRealm.uplinks rlm !! uplink_id) as [u |] eqn:Hu;
    intros [= <- <-]; [| apply lasting_refl].
  eapply lasting_update_realm; [exact Hid | repeat split].
Qed.

Lemma start_router_realm_uplink_lasting realm_id uplink_id uplink_config :
  preserves lasting (start_router_realm_uplink realm_id uplink_id uplink_config).
Proof.
  intros w w' r. unfold start_router_realm_uplink, dict_item. run.
  destruct (realms w !! realm_id) as [rlm |] eqn:Hid;
    [| intros [= <- <-]; apply lasting_refl].
  destruct (RouterRealm.uplinks rlm !! uplink_id) eqn:Hu;
    [intros [= <- <-]; apply lasting_refl |].
  assert (S1 : lasting w (set_realms
                 <[realm_id := RouterRealm.set_uplinks rlm
                     (<[uplink_id := RouterRealmUplink.new uplink_id uplink_config]>
                        (RouterRealm.uplinks rlm))]> w)).
  { eapply lasting_update_realm; [exact Hid | repeat split]. }
  destruct (dict_lookup (RouterRealm.config rlm) "name"); simpl;
    intros [= <- <-]; [| exact S1].
  eapply lasting_trans; [exact S1 |].
  apply lasting_others; try reflexivity. simpl. now apply prefix_app_r.
Qed.

Lemma start_router_component_lasting env id config :
  preserves lasting (start_router_component env id config).
Proof.
  intros w w' r. unfold start_router_component, dict_item. run.
  destruct (components w !! id) eqn:Hid; [intros [= <- <-]; apply lasting_refl |].
  destruct (check_router_component env config); [intros [= <- <-]; apply lasting_refl |].
  destruct (dict_lookup config "type"); simpl; [| intros [= <- <-]; apply lasting_refl].
  destruct (iterate _); simpl; [| intros [= <- <-]; apply lasting_refl].
  destruct (resolve_references _ _ _); simpl; [| intros [= <- <-]; apply lasting_refl].
  destruct (dict_lookup config "realm"); simpl; [| intros [= <- <-]; apply lasting_refl].
  destruct (_appsession_loader env config) as [create |]; simpl;
    [| intros [= <- <-]; apply lasting_refl].
  destruct (create _ _); intros [= <- <-]; [apply lasting_refl |].
  apply lasting_others; try reflexivity. simpl. now apply prefix_app_r.
Qed.

Lemma stop_router_component_lasting id : preserves lasting (stop_router_component id).
Proof.
  intros w w' r E. destruct (components w !! id) eqn:Hid.
  - rewrite stop_router_component_present in E by eauto.
    injection E as <- <-. apply lasting_refl.
  - rewrite stop_router_component_absent in E by assumption.
    injection E as <- <-. apply lasting_refl.
Qed.

Lemma start_router_transport_lasting env id config :
  preserves lasting (start_router_transport env id config).
Proof.
  intros w w' r. unfold start_router_transport, dict_item. run.
  destruct (transports w !! id) eqn:Hid; [intros [= <- <-]; apply lasting_refl |].
  destruct (check_router_transport env config) eqn:Hck;
    [intros [= <- <-]; apply lasting_refl |].
  destruct (choose_factory env config w) as [w0 [f | e]] eqn:Hf.
  2: { intros [= <- <-]. eapply calm_lasting, choose_factory_calm, Hf. }
  pose proof (calm_lasting _ _ (choose_factory_calm env config _ _ _ Hf)) as Hq.
  destruct (dict_lookup config "endpoint") as [endpoint |] eqn:Hep; simpl.
  2: { intros [= <- <-]. exact Hq. }
  intros [= <- <-]. eapply lasting_trans; [exact Hq |].
  apply lasting_others; try reflexivity. simpl. now apply prefix_app_r.
Qed.

Lemma stop_router_transport_lasting id : preserves lasting (stop_router_transport id).
Proof.
  intros w w' r. unfold stop_router_transport. run.
  destruct (transports w !! id); intros [= <- <-]; apply lasting_refl.
Qed.

Lemma lasting_finished {A} (m : M A) : preserves lasting m -> preserves lasting (finished m).
Proof. intros H. apply lasting_bind; [exact H | intros; apply lasting_ret]. Qed.

Lemma lasting_suspended m : preserves lasting m -> preserves lasting (suspended m).
Proof. intros H. apply lasting_bind; [exact H | intros; apply lasting_ret]. Qed.

Lemma invoke_lasting env p : preserves lasting (invoke env p).
Proof.
  destruct p; simpl;
    first [apply lasting_finished | apply lasting_suspended].
  - apply lasting_unchanged. intros w. eexists. reflexivity.
  - apply start_router_realm_lasting.
  - apply lasting_unchanged. intros w. eexists. reflexivity.
  - apply lasting_unchanged. intros w. unfold get_router_realm_roles. run.
    destruct (realms w !! id); eauto.
  - apply start_router_realm_role_lasting.
  - apply stop_router_realm_role_lasting.
  - apply lasting_unchanged. intros w. unfold get_router_realm_uplinks. run.
    destruct (realms w !! id); eauto.
  - apply start_router_realm_uplink_lasting.
  - apply lasting_unchanged. intros w. eexists. reflexivity.
  - apply lasting_unchanged. intros w. eexists. reflexivity.
  - apply start_router_component_lasting.
  - apply stop_router_component_lasting.
  - apply lasting_unchanged. intros w. eexists. reflexivity.
  - apply start_router_transport_lasting.
  - apply stop_router_transport_lasting.
Qed.

Lemma continuation_lasting k fired : continuation_of k -> preserves lasting (k fired).
Proof.
  intros [| realm_id uplink_id | id config f | id]; destruct fired as [v | e]; simpl.
  - apply lasting_ret.
  - apply lasting_raise.
  - apply set_uplink_session_lasting.
  - apply lasting_raise.
  - intros w w' r [= <- <-]. apply lasting_others; reflexivity.
  - apply lasting_raise.
  - intros w w' r [= <- <-]. apply lasting_others; reflexivity.
  - apply lasting_raise.
Qed.

Lemma step_lasting env ps ps' :
  step env ps ps' ->
  Forall continuation_of (pending ps) ->
  lasting (worker ps) (worker ps').
Proof.
  intros [p ps0 w' r E | ps0 i k fired w' r Hk E | ps0 now] Hp; simpl.
  - eapply invoke_lasting, E.
  - eapply continuation_lasting; [| exact E].
    rewrite Forall_forall in Hp. apply Hp. eapply list_elem_of_lookup_2, Hk.
  - apply lasting_others; reflexivity.
Qed.

Lemma steps_lasting env ps ps' :
  rtc (step env) ps ps' ->
  Forall continuation_of (pending ps) ->
  lasting (worker ps) (worker ps').
Proof.
  induction 1 as [ps | ps1 ps2 ps3 Hs _ IH]; intros Hp.
  - apply lasting_refl.
  - pose proof (step_lasting env _ _ Hs Hp) as L12.
    apply (step_steady env) in Hs as [Hp2 _]; [| assumption].
    eapply lasting_trans; eauto.
Qed.

Lemma onJoin_indexed conns now : indexed (onJoin conns now).
Proof.
  split.
  - intros id rlm H. simpl in H. now rewrite lookup_empty in H.
  - intros uri id H. simpl in H. now rewrite lookup_empty in H.
Qed.

Lemma reachable_indexed env ps : reachable env ps -> indexed (worker ps).
Proof.
  intros (conns & now & H). apply steps_lasting in H; [| constructor].
  apply H, onJoin_indexed.
Qed.

(** X3: A realm, once in the registry, stays there for good:
    [stop_router_realm] is not implemented, and whatever calls and Deferreds
    the process goes through, the realm is found under its id with the same
    id, configuration, service session and creation time; only its roles and
    its uplinks change. *)
Theorem registered_realm_lasts
    (env : Env) (w : Worker) (pend : list (Awaiting unit)) (ps' : Process)
    (id : string) (rlm : RouterRealm.t) :
  Forall continuation_of pend ->
  rtc (step env) (mkProcess w pend) ps' ->
  realms w !! id = Some rlm ->
  (forall close_sessions,
     stop_router_realm id close_sessions (worker ps')
     = (worker ps', Raise NotImplementedError)) /\
  exists rlm',
    realms (worker ps') !! id = Some rlm' /\
    RouterRealm.id rlm' = RouterRealm.id rlm /\
    RouterRealm.config rlm' = RouterRealm.config rlm /\
    RouterRealm.session rlm' = RouterRealm.session rlm /\
    RouterRealm.created rlm' = RouterRealm.created rlm.
Proof.
  intros Hp Hs Hr. split; [reflexivity |].
  apply steps_lasting in Hs as (H & _); [| exact Hp].
  destruct (H id rlm Hr) as (rlm' & Hr' & Hsame). exists rlm'. split; assumption.
Qed.

Lemma registered_realm_lasts_witness :
  let env := Sample.env Python2 in
  exists w1 rlm',
    invoke env (Proc.start_router_realm_role "r1" "backend" Sample.role) Sample.worker_r1
    = (w1, Ok None) /\
    realms w1 !! "r1" = Some rlm' /\
    RouterRealm.config rlm' = Sample.realm1 /\
    RouterRealm.session rlm' = Some (RouterServiceSession (CStr "realm1") CNone).
Proof.
  intros env.
  set (r := invoke env (Proc.start_router_realm_role "r1" "backend" Sample.role)
              Sample.worker_r1).
  assert (E : r = (r.1, Ok None)) by (vm_compute; reflexivity).
  destruct (registered_realm_lasts env Sample.worker_r1 [realm_ready]
              (mkProcess r.1 [realm_ready]) "r1" _
              ltac:(repeat constructor)
              (rtc_once _ _ (step_call env _ (mkProcess Sample.worker_r1 [realm_ready])
                                 _ _ E))
              eq_refl)
    as (_ & rlm' & Hr & _ & Hc & Hs & _).
  exists r.1, rlm'. split; [exact E |]. split; [exact Hr |]. split; assumption.
Defined.

(** X4: No session is ever detached from the routing-session factory: along the
    steps of the process the sessions added so far stay, in the order they
    were added, and the connection pool is not touched. *)
Theorem sessions_never_detached (env : Env) (ps ps' : Process) :
  Forall continuation_of (pending ps) ->
  rtc (step env) ps ps' ->
  _router_session_factory (worker ps) `prefix_of` _router_session_factory (worker ps') /\
  _connections (worker ps') = _connections (worker ps).
Proof.
  intros Hp Hs. apply steps_lasting in Hs as (_ & _ & H & _ & _ & Hc & _); auto.
Qed.

Lemma sessions_never_detached_witness :
  let env := Sample.env Python2 in
  exists w2,
    invoke env (Proc.stop_router_component "c1") Sample.worker_c1_r1
    = (w2, Raise cannot_stop) /\
    _router_session_factory Sample.worker_c1 `prefix_of` _router_session_factory w2.
Proof.
  intros env.
  set (r := invoke env (Proc.stop_router_component "c1") Sample.worker_c1_r1).
  assert (E : r = (r.1, Raise cannot_stop)) by (vm_compute; reflexivity).
  assert (E' : invoke env (Proc.start_router_realm "r1" Sample.realm1 CNone false)
                 Sample.worker_c1
               = (Sample.worker_c1_r1, Ok (Some realm_ready)))
    by (vm_compute; reflexivity).
  exists r.1. split; [exact E |].
  refine (proj1 (sessions_never_detached env (mkProcess Sample.worker_c1 [])
                   (mkProcess r.1 [realm_ready]) ltac:(constructor) _)).
  eapply rtc_l; [exact (step_call env _ (mkProcess Sample.worker_c1 []) _ _ E') |].
  apply rtc_once.
  exact (step_call env _ (mkProcess Sample.worker_c1_r1 [realm_ready]) _ _ E).
Defined.

(** X5: in every process reached from [onJoin] an entry of the index of URIs
    leads to a realm that is in the registry and has this URI for name. So the
    schema-documentation resource of a realm URI ends in one of three ways,
    none of which changes the worker: it is refused with No-Such-Object, the
    URI not being in the index; or the realm of the index is found in the
    registry, never missing from it, and the resource is built from the
    schemas that the service session of this realm holds; or that realm has
    no service session, and reading its schemas raises [AttributeError].
    The schemas of a session created without any are the empty dictionary. *)
Theorem schemadoc_of_reachable
    (env : Env) (ps : Process) (depth : nat) (path_config : Dict) (realm : Config)
    (uri : Key) (nested : bool) :
  reachable env ps ->
  dict_lookup path_config "type" = Some (CStr "schemadoc") ->
  dict_lookup path_config "realm" = Some realm ->
  hash_key realm = Ok uri ->
  (realm_to_id (worker ps) !! uri = None /\
   _create_resource env (S depth) (CDict path_config) nested (worker ps)
   = (worker ps, Raise no_such_object)) \/
  (exists realm_id rlm name,
     realm_to_id (worker ps) !! uri = Some realm_id /\
     realms (worker ps) !! realm_id = Some rlm /\
     dict_lookup (RouterRealm.config rlm) "name" = Some name /\
     hash_key name = Ok uri /\
     ((exists session_realm schemas,
         RouterRealm.session rlm = Some (RouterServiceSession session_realm schemas) /\
         _create_resource env (S depth) (CDict path_config) nested (worker ps)
         = (worker ps,
            Ok (leaf (SchemaDocResource realm
                        (if truthy schemas then schemas else CDict []))))) \/
      ((forall session_realm schemas,
          RouterRealm.session rlm <> Some (RouterServiceSession session_realm schemas)) /\
       _create_resource env (S depth) (CDict path_config) nested (worker ps)
       = (worker ps, Raise (AttributeError "_schemas"))))).
Proof.
  intros Hreach Hty Hrealm Huri.
  apply reachable_indexed in Hreach as [_ Hx].
  assert (E : _create_resource env (S depth) (CDict path_config) nested (worker ps)
              = create_schemadoc path_config (worker ps)).
  { simpl. unfold dict_item. run. rewrite Hty. reflexivity. }
  rewrite E. unfold create_schemadoc, dict_item. run. rewrite Hrealm. simpl.
  rewrite Huri. simpl.
  destruct (realm_to_id (worker ps) !! uri) as [realm_id |] eqn:Hid; [right | left; auto].
  destruct (Hx uri realm_id Hid) as (rlm & name & schemas & Hr & Hn & Hh & _).
  exists realm_id, rlm, name. rewrite Hr.
  split; [reflexivity |]. split; [reflexivity |]. split; [exact Hn |].
  split; [exact Hh |].
  destruct (RouterRealm.session rlm) as [[n sc | | |] |];
    first [left; eexists _, _; split; reflexivity
          | right; split; [intros ? ?; discriminate | reflexivity]].
Qed.

Lemma schemadoc_of_reachable_witness :
  let env := Sample.env Python2 in
  reachable env (mkProcess Sample.worker_r2 [realm_ready]) /\
  _create_resource env 1 (CDict [("type", CStr "schemadoc"); ("realm", CStr "realm2")])
    true Sample.worker_r2
  = (Sample.worker_r2, Ok (leaf (SchemaDocResource (CStr "realm2") Sample.schemas1))) /\
  _create_resource env 1 (CDict [("type", CStr "schemadoc"); ("realm", CStr "realm1")])
    true Sample.worker_r2
  = (Sample.worker_r2, Raise no_such_object).
Proof.
  intros env.
  assert (E : invoke env (Proc.start_router_realm "r2" Sample.realm2 Sample.schemas1 false)
                Sample.worker
              = (Sample.worker_r2, Ok (Some realm_ready))) by (vm_compute; reflexivity).
  assert (R : reachable env (mkProcess Sample.worker_r2 [realm_ready])).
  { exists ∅, 0. apply rtc_once.
    exact (step_call env _ (mkProcess Sample.worker []) _ _ E). }
  split; [exact R |]. split.
  - destruct (schemadoc_of_reachable env _ 0
                [("type", CStr "schemadoc"); ("realm", CStr "realm2")]
                (CStr "realm2") (KStr "realm2") true R eq_refl eq_refl eq_refl)
      as [[H _] | (realm_id & rlm & name & _ & _ & _ & _ & H)].
    + discriminate H.
    + vm_compute. reflexivity.
  - destruct (schemadoc_of_reachable env _ 0
                [("type", CStr "schemadoc"); ("realm", CStr "realm1")]
                (CStr "realm1") (KStr "realm1") true R eq_refl eq_refl eq_refl)
      as [[_ H] | (realm_id & rlm & name & H & _)].
    + exact H.
    + discriminate H.
Defined.

(** *** Uplinks *)

(** X6: in every process reached from [onJoin] a registered realm has a name
    in its configuration. So the start of an uplink under a free id on a
    registered realm, the uplink recorded, does not fail on the name of the
    realm: it gets to hand the local session of the bridge, on the realm of
    that name, to the routing-session factory under the role [trusted], and
    it ends as this [add] ends, suspended on the ready signal when [add]
    returns, whatever [add] is. *)
Theorem start_router_realm_uplink_reaches_add
    (env : Env) (add : Session -> Config -> M unit) (ps : Process)
    (realm_id uplink_id : string) (uplink_config : Dict) (rlm : RouterRealm.t) :
  reachable env ps ->
  realms (worker ps) !! realm_id = Some rlm ->
  RouterRealm.uplinks rlm !! uplink_id = None ->
  start_router_realm_uplink realm_id uplink_id uplink_config
  = start_router_realm_uplink_with add_session realm_id uplink_id uplink_config /\
  exists name,
    dict_lookup (RouterRealm.config rlm) "name" = Some name /\
    start_router_realm_uplink_with add realm_id uplink_id uplink_config (worker ps)
    = bind (add (UplinkLocalSession name (CDict uplink_config)) (CStr "trusted"))
        (fun _ => ret (uplink_ready realm_id uplink_id))
        (set_realms
           <[realm_id := RouterRealm.set_uplinks rlm
               (<[uplink_id := RouterRealmUplink.new uplink_id uplink_config]>
                  (RouterRealm.uplinks rlm))]> (worker ps)).
Proof.
  intros Hreach Hr Hu. split; [reflexivity |].
  apply reachable_indexed in Hreach as [Hn _].
  destruct (Hn realm_id rlm Hr) as [name Hname].
  exists name. split; [exact Hname |].
  unfold start_router_realm_uplink_with, dict_item. unfold bind at 1 2 3, get, modify, lift.
  rewrite Hr, Hu, Hname. reflexivity.
Qed.

Lemma start_router_realm_uplink_reaches_add_witness :
  let env := Sample.env Python2 in
  reachable env (mkProcess Sample.worker_r1 [realm_ready]) /\
  start_router_realm_uplink_with add_session "r1" "up1" Sample.uplink Sample.worker_r1
  = (Sample.worker_up1, Ok (uplink_ready "r1" "up1")).
Proof.
  intros env.
  assert (E : invoke env (Proc.start_router_realm "r1" Sample.realm1 CNone false)
                Sample.worker
              = (Sample.worker_r1, Ok (Some realm_ready))) by (vm_compute; reflexivity).
  assert (R : reachable env (mkProcess Sample.worker_r1 [realm_ready])).
  { exists ∅, 0. apply rtc_once.
    exact (step_call env _ (mkProcess Sample.worker []) _ _ E). }
  split; [exact R |].
  destruct (start_router_realm_uplink_reaches_add env add_session _ "r1" "up1"
              Sample.uplink _ R eq_refl eq_refl) as (_ & name & Hname & H).
  vm_compute in Hname. injection Hname as <-.
  simpl worker in H. rewrite H. vm_compute. reflexivity.
Defined.

Lemma values_insert_over {V} (m : gmap string V) k v :
  (map_to_list (<[k := v]> m)).*2 ≡ₚ v :: (map_to_list (delete k m)).*2.
Proof.
  rewrite <- insert_delete_eq. apply values_insert, lookup_delete_eq.
Qed.

(** X7: What follows the wait of [start_router_realm_uplink], the uplink being in
    the registry. When the bridge is ready, the session it gives is stored in
    the uplink, which keeps its id and its configuration, and the list of
    uplinks shows it. When the bridge fails, the failure is raised again and
    nothing is undone: the uplink stays in the registry without a session, a
    new start under the same id is refused with Already-Exists, and the
    uplink cannot be stopped, [stop_router_realm_uplink] not being
    implemented. *)
Theorem uplink_ready_outcome
    (w : Worker) (realm_id uplink_id : string) (rlm : RouterRealm.t)
    (u : RouterRealmUplink.t) :
  realms w !! realm_id = Some rlm ->
  RouterRealm.uplinks rlm !! uplink_id = Some u ->
  (forall uplink_session,
     exists w' uplinks,
       uplink_ready realm_id uplink_id (Callback uplink_session) w = (w', Ok tt) /\
       get_router_realm_uplinks realm_id w' = (w', Ok uplinks) /\
       uplinks ≡ₚ RouterRealmUplink.mk (RouterRealmUplink.id u)
                    (RouterRealmUplink.config u) uplink_session
                  :: (map_to_list (delete uplink_id (RouterRealm.uplinks rlm))).*2) /\
  (forall e,
     uplink_ready realm_id uplink_id (Errback e) w = (w, Raise e) /\
     (forall uplink_config,
        start_router_realm_uplink realm_id uplink_id uplink_config w
        = (w, Raise already_exists)) /\
     stop_router_realm_uplink realm_id uplink_id w = (w, Raise NotImplementedError)).
Proof.
  intros Hr Hu. split.
  - intros s. eexists _, _. split; [| split].
    + simpl. unfold set_uplink_session. run. rewrite Hr, Hu. reflexivity.
    + unfold get_router_realm_uplinks. run. rewrite lookup_insert_eq. reflexivity.
    + apply values_insert_over.
  - intros e. split; [reflexivity |]. split; [| reflexivity].
    intros cfg. eapply start_router_realm_uplink_exists; [exact Hr | eauto].
Qed.

Lemma uplink_ready_outcome_witness :
  (exists w',
     uplink_ready "r1" "up1" (Callback (VSession (UplinkLocalSession (CStr "realm1")
                                                    (CDict Sample.uplink))))
       Sample.worker_up1 = (w', Ok tt)) /\
  uplink_ready "r1" "up1" (Errback (Foreign "connection refused")) Sample.worker_up1
  = (Sample.worker_up1, Raise (Foreign "connection refused")) /\
  start_router_realm_uplink "r1" "up1" Sample.uplink Sample.worker_up1
  = (Sample.worker_up1, Raise already_exists).
Proof.
  destruct (uplink_ready_outcome Sample.worker_up1 "r1" "up1" _ _ eq_refl eq_refl)
    as (Hok & Hfail).
  split.
  - destruct (Hok (VSession (UplinkLocalSession (CStr "realm1") (CDict Sample.uplink))))
      as (w' & uplinks & H & _).
    exists w'. exact H.
  - destruct (Hfail (Foreign "connection refused")) as (H1 & H2 & _).
    split; [exact H1 | apply H2].
Defined.

(** *** The life of a transport *)

(** X8: A transport from its start to its stop. While the port is not yet
    listening the transport is not in the registry and cannot be stopped
    (Not-Running). Once it listens it can be stopped: the call changes
    nothing by itself and hands on the Deferred of the port. If the port fails
    to stop, the fault is Cannot-Stop and the transport stays registered (the
    transport being in the registry when the Deferred fires); when the port
    has stopped, the entry is deleted, the registry of transports is again what
    it was before the start, and a further stop is refused with
    Not-Running. *)
Theorem transport_round_trip
    (env : Env) (w : Worker) (id : string) (config : Dict) (w1 : Worker)
    (k : Awaiting unit) (port v : Value) (err : Exn) :
  start_router_transport env id config w = (w1, Ok k) ->
  stop_router_transport id w1 = (w1, Raise not_running) /\
  exists w2 w3,
    k (Callback port) w1 = (w2, Ok tt) /\
    stop_router_transport id w2 = (w2, Ok (stopped_callbacks id)) /\
    stopped_callbacks id (Errback err) w2 = (w2, Raise cannot_stop) /\
    stopped_callbacks id (Callback v) w2 = (w3, Ok tt) /\
    transports w3 = transports w /\
    stop_router_transport id w3 = (w3, Raise not_running).
Proof.
  intros H.
  apply start_router_transport_inv in H
    as (Hid & _ & w0 & f & ep & _ & Hq & _ & -> & ->).
  destruct Hq as (_ & _ & _ & Ht & _).
  assert (Hid0 : transports w0 !! id = None) by now rewrite Ht.
  split.
  { unfold stop_router_transport. run. now rewrite Hid0. }
  eexists _, _. split; [reflexivity |].
  split; [unfold stop_router_transport; run; now rewrite lookup_insert_eq |].
  split; [reflexivity |]. split; [reflexivity |].
  assert (E : delete id (<[id := RouterTransport.mk id config f port (utcnow w0)]>
                           (transports w0)) = transports w).
  { rewrite delete_insert_id by exact Hid0. exact Ht. }
  split; [exact E |].
  unfold stop_router_transport. run. rewrite E, Hid. reflexivity.
Qed.

Lemma transport_round_trip_witness :
  let env := Sample.env Python2 in
  exists w1 k w2 w3,
    start_router_transport env "t1" Sample.web Sample.worker = (w1, Ok k) /\
    k (Callback (VPort 1%nat)) w1 = (w2, Ok tt) /\
    stopped_callbacks "t1" (Callback VNone) w2 = (w3, Ok tt) /\
    transports w3 = transports Sample.worker.
Proof.
  intros env.
  set (r := start_router_transport env "t1" Sample.web Sample.worker).
  assert (E : r = (r.1, Ok (continuation r.2))) by (vm_compute; reflexivity).
  destruct (transport_round_trip env Sample.worker "t1" Sample.web _ _
              (VPort 1%nat) VNone (Foreign "busy") E)
    as (_ & w2 & w3 & H1 & _ & _ & H2 & H3 & _).
  exists r.1, (continuation r.2), w2, w3. auto.
Defined.

(** *** Application components *)

(** X9: [start_router_component] writes nothing before the session of the
    component exists: a fault of the duplicate check, of the check of the
    configuration, of the references, of the loader or of the constructor
    leaves the worker as it was. Then the component is put into the registry,
    with its configuration, its session and the time of the call, and after
    that the session is handed to the routing-session factory under the role
    of the configuration, or [anonymous]: the call ends as this [add] ends,
    whatever [add] is, run on the worker in which the component is
    registered. *)
Theorem start_router_component_registers_then_adds
    (env : Env) (add : Session -> Config -> M unit) (w : Worker) (id : string)
    (config : Dict) (w1 : Worker) (r : Result unit) :
  start_router_component_with env add id config w = (w1, r) ->
  start_router_component env id config
  = start_router_component_with env add_session id config /\
  ((exists e, r = Raise e /\ w1 = w) \/
   (components w !! id = None /\
    exists realm,
      dict_lookup config "realm" = Some realm /\
      let session := HostedSession config realm (dict_get config "extra" CNone) in
      add session (dict_get config "role" (CStr "anonymous"))
        (set_components <[id := RouterComponent.mk id config session (utcnow w)]> w)
      = (w1, r))).
Proof.
  intros H. split; [reflexivity |]. revert H.
  unfold start_router_component_with, dict_item. run.
  destruct (components w !! id) eqn:Hid; [intros [= <- <-]; eauto |].
  destruct (check_router_component env config); [intros [= <- <-]; eauto |].
  destruct (dict_lookup config "type"); simpl; [| intros [= <- <-]; eauto].
  destruct (iterate _); simpl; [| intros [= <- <-]; eauto].
  destruct (resolve_references _ _ _); simpl; [| intros [= <- <-]; eauto].
  destruct (dict_lookup config "realm") as [realm |]; simpl; [| intros [= <- <-]; eauto].
  destruct (_appsession_loader env config) as [create |]; simpl;
    [| intros [= <- <-]; eauto].
  destruct (create _ _); [intros [= <- <-]; eauto |].
  intros H. right. split; [reflexivity |]. exists realm. split; [reflexivity |].
  exact H.
Qed.

Lemma start_router_component_registers_then_adds_witness :
  let env := Sample.env Python2 in
  let no_router : Session -> Config -> M unit := fun _ _ => raise (KeyError "realm1") in
  exists w1,
    start_router_component_with env no_router "c1" Sample.component1 Sample.worker
    = (w1, Raise (KeyError "realm1")) /\
    is_Some (components w1 !! "c1") /\
    start_router_component_with env no_router "c1" Sample.component1 w1
    = (w1, Raise already_running).
Proof.
  intros env no_router.
  set (m := start_router_component_with env no_router "c1" Sample.component1 Sample.worker).
  assert (E : m = (m.1, Raise (KeyError "realm1"))) by (vm_compute; reflexivity).
  destruct (start_router_component_registers_then_adds env no_router _ _ _ _ _ E)
    as (_ & [(e & _ & Hw) | (Hfree & realm & _ & Hadd)]);
    (exists m.1; split; [exact E |];
     split; [vm_compute; eauto | vm_compute; reflexivity]).
Defined.

(** X10: A component that has been started is listed from then on: whatever the
    process goes through afterwards, [get_router_components] returns a list
    that holds the summary of the component, with the time of its start. *)
Theorem started_component_listed
    (env : Env) (w : Worker) (id : string) (config : Dict) (w1 : Worker)
    (pend : list (Awaiting unit)) (ps' : Process) :
  start_router_component env id config w = (w1, Ok tt) ->
  Forall continuation_of pend ->
  rtc (step env) (mkProcess w1 pend) ps' ->
  exists summaries,
    get_router_components env (worker ps') = (worker ps', Ok summaries) /\
    [("id", CStr id); ("created", CStr (utcstr env (utcnow w))); ("config", CDict config)]
    ∈ summaries.
Proof.
  intros H Hp Hs. apply start_router_component_registers in H.
  pose proof (registered_component_stays env w1 pend ps' id _ Hp Hs H) as H'.
  eexists. split; [reflexivity |].
  set (c := RouterComponent.mk id config
              (HostedSession config (dict_get config "realm" CNone)
                 (dict_get config "extra" CNone)) (utcnow w)) in *.
  apply (list_elem_of_fmap_2
           (fun component =>
              summary env (RouterComponent.id component)
                (RouterComponent.created component) (RouterComponent.config component))
           _ c).
  rewrite sorted_perm.
  apply (list_elem_of_fmap_2 snd _ (id, c)). now apply elem_of_map_to_list.
Qed.

Lemma started_component_listed_witness :
  let env := Sample.env Python2 in
  exists summaries,
    get_router_components env Sample.worker_c1_r1 = (Sample.worker_c1_r1, Ok summaries) /\
    [("id", CStr "c1"); ("created", CStr (utcstr env 0)); ("config", CDict Sample.component1)]
    ∈ summaries.
Proof.
  intros env.
  assert (E : start_router_component env "c1" Sample.component1 Sample.worker
              = (Sample.worker_c1, Ok tt)) by (vm_compute; reflexivity).
  assert (E' : invoke env (Proc.start_router_realm "r1" Sample.realm1 CNone false)
                 Sample.worker_c1
               = (Sample.worker_c1_r1, Ok (Some realm_ready)))
    by (vm_compute; reflexivity).
  exact (started_component_listed env Sample.worker "c1" Sample.component1 _ []
           (mkProcess Sample.worker_c1_r1 [realm_ready]) E (Forall_nil_2 _)
           (rtc_once _ _ (step_call env _ (mkProcess Sample.worker_c1 []) _ _ E'))).
Defined.

(** *** The name of a realm *)

(** X11: The configuration accepted and the id free, [start_router_realm] can
    still fail on the name of the realm. Without a name it raises [KeyError]
    and nothing has changed. With a name that cannot be the key of a
    dictionary (a list, a dictionary) it raises [TypeError] at the index of
    URIs, after the realm has been put into the registry: the realm stays
    registered, without a service session and without an entry in the index,
    and its id is taken. *)
Theorem start_router_realm_name_faults
    (env : Env) (w : Worker) (id : string) (config : Dict) (schemas : Config)
    (enable_trace : bool) :
  realms w !! id = None ->
  check_router_realm env config = None ->
  (dict_lookup config "name" = None ->
   start_router_realm env id config schemas enable_trace w
   = (w, Raise (KeyError "name"))) /\
  (forall realm,
     dict_lookup config "name" = Some realm ->
     (exists l, realm = CList l) \/ (exists d, realm = CDict d) ->
     exists w1,
       start_router_realm env id config schemas enable_trace w = (w1, Raise TypeError) /\
       realms w1 = <[id := RouterRealm.new id config (utcnow w)]> (realms w) /\
       realm_to_id w1 = realm_to_id w /\
       _router_session_factory w1 = _router_session_factory w /\
       forall config' schemas' enable_trace',
         start_router_realm env id config' schemas' enable_trace' w1
         = (w1, Raise already_running)).
Proof.
  intros Hid Hck. split.
  - intros Hname. unfold start_router_realm, dict_item. run.
    now rewrite Hid, Hck, Hname.
  - intros realm Hname Hrealm.
    assert (Hh : hash_key realm = Raise TypeError)
      by (destruct Hrealm as [[l ->] | [d ->]]; reflexivity).
    eexists. split.
    + unfold start_router_realm, dict_item. run.
      rewrite Hid, Hck, Hname. simpl. rewrite Hh. reflexivity.
    + split; [reflexivity |]. split; [reflexivity |]. split; [reflexivity |].
      intros config' schemas' tr'. apply start_router_realm_running.
      simpl. rewrite lookup_insert_eq. eauto.
Qed.

Lemma start_router_realm_name_faults_witness :
  let env := Sample.env Python2 in
  start_router_realm env "r1" [("roles", CList [])] CNone false Sample.worker
  = (Sample.worker, Raise (KeyError "name")) /\
  exists w1,
    start_router_realm env "r1" [("name", CList [CStr "realm1"])] CNone false Sample.worker
    = (w1, Raise TypeError) /\
    start_router_realm env "r1" Sample.realm1 CNone false w1 = (w1, Raise already_running).
Proof.
  intros env. split.
  - exact (proj1 (start_router_realm_name_faults env Sample.worker "r1"
                    [("roles", CList [])] CNone false eq_refl eq_refl) eq_refl).
  - destruct (proj2 (start_router_realm_name_faults env Sample.worker "r1"
                       [("name", CList [CStr "realm1"])] CNone false eq_refl eq_refl)
                (CList [CStr "realm1"]) eq_refl (or_introl (ex_intro _ _ eq_refl)))
      as (w1 & H1 & _ & _ & _ & H2).
    exists w1. split; [exact H1 | apply H2].
Defined.

(** *** The ids of the lists *)

Lemma listed_ids {V} (m : gmap string V) (idf : V -> string) (l : list V) :
  (forall k v, m !! k = Some v -> idf v = k) ->
  l ≡ₚ (map_to_list m).*2 ->
  (fun v => CStr (idf v)) <$> l ≡ₚ CStr <$> (map_to_list m).*1 /\
  NoDup ((fun v => CStr (idf v)) <$> l).
Proof.
  intros Hid Hl.
  assert (E : (fun v => CStr (idf v)) <$> (map_to_list m).*2
              = CStr <$> (map_to_list m).*1).
  { rewrite <- !list_fmap_compose. apply Forall_fmap_ext, Forall_forall.
    intros [k v] Hin. simpl. apply elem_of_map_to_list in Hin.
    now rewrite (Hid k v Hin). }
  assert (P : (fun v => CStr (idf v)) <$> l ≡ₚ CStr <$> (map_to_list m).*1)
    by (rewrite Hl, E; reflexivity).
  split; [exact P |]. rewrite P.
  apply NoDup_fmap_2; [intros x y [= ->]; reflexivity | apply NoDup_fst_map_to_list].
Qed.

(** X12: In every process reached from [onJoin] the lists of components and of
    transports name each registered id once and no other id: the ids of the
    summaries are the keys of the registry, without repetition. *)
Theorem listed_ids_distinct (env : Env) (ps : Process) :
  reachable env ps ->
  (exists summaries,
     get_router_components env (worker ps) = (worker ps, Ok summaries) /\
     (fun d => dict_get d "id" CNone) <$> summaries
     ≡ₚ CStr <$> (map_to_list (components (worker ps))).*1 /\
     NoDup ((fun d => dict_get d "id" CNone) <$> summaries)) /\
  (exists summaries,
     get_router_transports env (worker ps) = (worker ps, Ok summaries) /\
     (fun d => dict_get d "id" CNone) <$> summaries
     ≡ₚ CStr <$> (map_to_list (transports (worker ps))).*1 /\
     NoDup ((fun d => dict_get d "id" CNone) <$> summaries)).
Proof.
  intros Hreach. apply reachable_ids_agree in Hreach as (_ & Hc & Ht).
  split.
  - eexists. split; [reflexivity |].
    rewrite <- list_fmap_compose.
    apply (listed_ids (components (worker ps)) RouterComponent.id);
      [exact Hc | apply sorted_perm].
  - eexists. split; [reflexivity |].
    rewrite <- list_fmap_compose.
    apply (listed_ids (transports (worker ps)) RouterTransport.id);
      [exact Ht | apply sorted_perm].
Qed.

Lemma listed_ids_distinct_witness :
  let env := Sample.env Python2 in
  exists summaries,
    get_router_components env Sample.worker_c1 = (Sample.worker_c1, Ok summaries) /\
    (fun d => dict_get d "id" CNone) <$> summaries = [CStr "c1"].
Proof.
  intros env.
  assert (E : invoke env (Proc.start_router_component "c1" Sample.component1)
                Sample.worker
              = (Sample.worker_c1, Ok None)) by (vm_compute; reflexivity).
  assert (R : reachable env (mkProcess Sample.worker_c1 [])).
  { exists ∅, 0. apply rtc_once.
    exact (step_call env _ (mkProcess Sample.worker []) _ _ E). }
  destruct (listed_ids_distinct env _ R) as ((summaries & H & _) & _).
  exists summaries. split; [exact H |].
  injection H as <-. vm_compute. reflexivity.
Defined.

(** *** The references of a component *)

Lemma dict_set_keys (d : Dict) k v s :
  s ∈ (dict_set d k v).*1 <-> s = k \/ s ∈ d.*1.
Proof.
  induction d as [| [k' v'] d IH]; simpl.
  - rewrite elem_of_cons, elem_of_nil. tauto.
  - destruct (String.eqb_spec k' k) as [-> | Hne]; simpl.
    + rewrite !elem_of_cons. tauto.
    + rewrite !elem_of_cons, IH. tauto.
Qed.

Lemma dict_set_NoDup (d : Dict) k v : NoDup d.*1 -> NoDup (dict_set d k v).*1.
Proof.
  induction d as [| [k' v'] d IH]; simpl; intros H.
  - apply NoDup_singleton.
  - apply NoDup_cons in H as [Hk' Hd].
    destruct (String.eqb_spec k' k) as [-> | Hne]; simpl.
    + apply NoDup_cons. split; assumption.
    + apply NoDup_cons. split; [| now apply IH].
      rewrite dict_set_keys. intros [-> | H]; [now apply Hne | now apply Hk'].
Qed.

Lemma dict_lookup_set (d : Dict) k v s :
  dict_lookup (dict_set d k v) s = if String.eqb k s then Some v else dict_lookup d s.
Proof.
  induction d as [| [k' v'] d IH]; simpl.
  - reflexivity.
  - destruct (String.eqb_spec k' k) as [-> | Hne]; simpl.
    + now destruct (String.eqb k s).
    + rewrite IH. destruct (String.eqb_spec k' s) as [-> | Hne'].
      * destruct (String.eqb_spec k s) as [-> | _]; [now destruct Hne | reflexivity].
      * reflexivity.
Qed.

Lemma dict_lookup_keys (d : Dict) s : s ∈ d.*1 <-> is_Some (dict_lookup d s).
Proof.
  induction d as [| [k v] d IH]; simpl.
  - rewrite elem_of_nil. split; [tauto | intros [? ?]; discriminate].
  - rewrite elem_of_cons. destruct (String.eqb_spec k s) as [-> | Hne].
    + split; eauto.
    + rewrite IH. split; [intros [-> | H]; [now destruct Hne | exact H] | tauto].
Qed.

Lemma resolve_references_ok connections refs :
  forall acc references,
    resolve_references connections refs acc = Ok references ->
    Forall (resolves connections) refs /\
    (resolved_entries connections acc -> resolved_entries connections references) /\
    forall s, s ∈ references.*1 <-> s ∈ acc.*1 \/ CStr s ∈ refs.
Proof.
  induction refs as [| ref refs IH]; intros acc out; simpl.
  - intros [= <-]. split; [constructor |]. split; [auto |].
    intros s. rewrite elem_of_nil. tauto.
  - destruct ref as [| | | s | |]; simpl; try discriminate.
    destruct (split ":" s) as [| ref_type [| ref_id [| ? ?]]] eqn:Hs; simpl;
      try discriminate.
    destruct (String.eqb ref_type "connection") eqn:Hty; [| discriminate].
    apply String.eqb_eq in Hty. subst ref_type.
    destruct (connections !! ref_id) as [c |] eqn:Hc; [| discriminate].
    intros H. apply IH in H as (Hall & Hinv & Hkeys).
    split; [constructor; [exists s, ref_id, c; auto | exact Hall] |].
    split.
    + intros [Hnd Hacc]. apply Hinv. split; [now apply dict_set_NoDup |].
      intros s' c'. rewrite dict_lookup_set.
      destruct (String.eqb_spec s s') as [<- | _]; [| apply Hacc].
      intros [= <-]. eauto.
    + intros s'. rewrite Hkeys, dict_set_keys, elem_of_cons.
      split; [intros [[-> | H] | H]; auto | intros [H | [[= ->] | H]]; auto].
Qed.

(** X13: the references of a component are all resolved or the start fails:
    the loop ends well exactly when every reference is a text
    ["connection:<id>"] whose id is in the connection pool. The dictionary it
    has then built has the texts of the references for keys, each once
    however often it was given, and under each the connection of its id. A
    component that has been started has only such references. *)
Theorem references_all_resolve
    (env : Env) (connections : gmap string Config) (refs : list Config) :
  ((exists references, resolve_references connections refs [] = Ok references) <->
   Forall (resolves connections) refs) /\
  (forall references,
     resolve_references connections refs [] = Ok references ->
     NoDup references.*1 /\
     forall s c,
       dict_lookup references s = Some c <->
       CStr s ∈ refs /\
       exists ref_id,
         split ":" s = ["connection"; ref_id] /\ connections !! ref_id = Some c) /\
  (forall w id config w1,
     start_router_component env id config w = (w1, Ok tt) ->
     exists refs',
       iterate (dict_get config "references" (CList [])) = Ok refs' /\
       Forall (resolves (_connections w)) refs').
Proof.
  split; [split |].
  - intros [out H]. now apply resolve_references_ok in H.
  - intros H.
    destruct (resolve_references_resolved connections refs [] [] H) as (acc' & E).
    rewrite app_nil_r in E. exists acc'. exact E.
  - split.
    + intros out H. apply resolve_references_ok in H as (_ & Hinv & Hkeys).
      destruct Hinv as [Hnd Hout].
      { split; [constructor | intros s c; discriminate]. }
      split; [exact Hnd |]. intros s c. split.
      * intros H. split; [| now apply Hout].
        assert (Hin : s ∈ out.*1) by (apply dict_lookup_keys; eauto).
        apply Hkeys in Hin as [Hin | Hin]; [now apply elem_of_nil in Hin | exact Hin].
      * intros (Hin & ref_id & Hs & Hc).
        assert (Hk : s ∈ out.*1) by (apply Hkeys; auto).
        apply dict_lookup_keys in Hk as [c' Hc'].
        destruct (Hout s c' Hc') as (ref_id' & Hs' & Hc'').
        congruence.
    + intros w id config w1. unfold start_router_component, dict_item. run.
      destruct (components w !! id); [discriminate |].
      destruct (check_router_component env config); [discriminate |].
      destruct (dict_lookup config "type"); simpl; [| discriminate].
      destruct (iterate _) as [refs' |]; simpl; [| discriminate].
      destruct (resolve_references _ _ _) as [out |] eqn:E; simpl; [| discriminate].
      intros _. exists refs'. split; [reflexivity |].
      now apply resolve_references_ok in E.
Qed.

Lemma references_all_resolve_witness :
  exists references,
    resolve_references {[ "db" := CStr "postgres" ]}
      [CStr "connection:db"; CStr "connection:db"] []
    = Ok references /\
    references = [("connection:db", CStr "postgres")] /\
    NoDup references.*1.
Proof.
  destruct (references_all_resolve (Sample.env Python2) {[ "db" := CStr "postgres" ]}
              [CStr "connection:db"; CStr "connection:db"]) as ((_ & Hok) & Hentries & _).
  destruct Hok as (references & H).
  { repeat constructor; exists "connection:db", "db", (CStr "postgres"); repeat split. }
  exists references. split; [exact H |].
  split; [| apply Hentries, H].
  vm_compute in H. now injection H as <-.
Defined.

(** *** The names of the children *)

Lemma decode_utf8_char c rest :
  decode_utf8 (utf8_char c ++ rest) = String c <$> decode_utf8 rest.
Proof. destruct c as [[] [] [] [] [] [] [] []]; reflexivity. Qed.

Lemma decode_encode_utf8 t : decode_utf8 (encode_utf8 t) = Some t.
Proof.
  induction t as [| c t IH]; [reflexivity |].
  simpl. now rewrite decode_utf8_char, IH.
Qed.

Lemma encode_utf8_inj s t : encode_utf8 s = encode_utf8 t -> s = t.
Proof.
  intros H. apply (f_equal decode_utf8) in H.
  rewrite !decode_encode_utf8 in H. congruence.
Qed.

Lemma attached_python2_filter paths :
  attached Python2 paths
  = filter (fun path => path <> "/") (sorted text_lt (dict_keys paths)).
Proof.
  unfold attached. apply list_filter_iff. intros path. split.
  - intros H ->. discriminate H.
  - intros Hne. destruct (text_eq_bytes Python2 path ["/"%byte]) eqn:E; [| reflexivity].
    apply text_eq_bytes_root in E as [_ ->]. congruence.
Qed.

(** X14: Under Python 2 [_add_paths] does what its documentation says: the
    resource keeps its kind and gets one child for every key of the path map
    but the root path, in ascending order of the keys, under the UTF-8
    encoding of the key; no child is named [b"/"]. *)
Theorem _add_paths_skips_root
    (env : Env) (create : Config -> M Resource) (resource : Resource) (paths : Dict)
    (w w' : Worker) (r : Resource) :
  python env = Python2 ->
  _add_paths env create resource paths w = (w', Ok r) ->
  kind r = kind resource /\
  exists cs,
    children r = children resource ++ cs /\
    cs.*1 = encode_utf8 <$> filter (fun path => path <> "/")
                              (sorted text_lt (dict_keys paths)) /\
    ["/"%byte] ∉ cs.*1.
Proof.
  intros Hpy H. apply _add_paths_children in H as (Hk & cs & Hcs & Hnames).
  rewrite Hpy, attached_python2_filter in Hnames.
  split; [exact Hk |]. exists cs. split; [exact Hcs |]. split; [exact Hnames |].
  rewrite Hnames. intros Hin. apply list_elem_of_fmap in Hin as (path & Hp & Hin).
  apply list_elem_of_filter in Hin as [Hne _]. apply Hne.
  apply encode_utf8_inj. now rewrite <- Hp.
Qed.

Lemma _add_paths_skips_root_witness :
  let env := Sample.env Python2 in
  exists r cs,
    _add_paths env (Sample.create Python2) (leaf (Resource404 [])) Sample.paths
      Sample.worker = (Sample.worker, Ok r) /\
    children r = cs /\
    cs.*1 = [["w"%byte; "s"%byte]] /\
    ["/"%byte] ∉ cs.*1.
Proof.
  intros env.
  set (m := _add_paths env (Sample.create Python2) (leaf (Resource404 [])) Sample.paths
              Sample.worker).
  assert (E : m = (Sample.worker,
                   Ok (Res (Resource404 [])
                         [(["w"%byte; "s"%byte],
                           leaf (WebSocketResource [("type", CStr "websocket")]))])))
    by (vm_compute; reflexivity).
  destruct (_add_paths_skips_root env _ _ _ _ _ _ eq_refl E) as (_ & cs & Hcs & _ & Hno).
  simpl in Hcs. subst cs.
  eexists _, _. split; [exact E |]. split; [reflexivity |]. split; [reflexivity | exact Hno].
Defined.

(** X15: Two keys of a path map never meet under one name: when the keys are
    distinct, as those of a dictionary are, the children that [_add_paths]
    puts under the resource have distinct names, the UTF-8 encoding of texts
    being injective. *)
Theorem child_names_distinct
    (env : Env) (create : Config -> M Resource) (resource : Resource) (paths : Dict)
    (w w' : Worker) (r : Resource) :
  NoDup (dict_keys paths) ->
  _add_paths env create resource paths w = (w', Ok r) ->
  exists cs,
    children r = children resource ++ cs /\
    NoDup cs.*1 /\
    forall t, decode_utf8 (encode_utf8 t) = Some t.
Proof.
  intros Hnd H. apply _add_paths_children in H as (_ & cs & Hcs & Hnames).
  exists cs. split; [exact Hcs |]. split; [| apply decode_encode_utf8].
  rewrite Hnames. apply NoDup_fmap_2; [intros s t; apply encode_utf8_inj |].
  unfold attached. apply NoDup_filter. now rewrite sorted_perm.
Qed.

Lemma child_names_distinct_witness :
  let env := Sample.env Python3 in
  exists r,
    _add_paths env (Sample.create Python3) (leaf (Resource404 [])) Sample.paths
      Sample.worker = (Sample.worker, Ok r) /\
    NoDup (children r).*1.
Proof.
  intros env.
  set (m := _add_paths env (Sample.create Python3) (leaf (Resource404 [])) Sample.paths
              Sample.worker).
  assert (E : m = (m.1, Ok match m.2 with Ok r => r | Raise _ => leaf (Resource404 []) end))
    by (vm_compute; reflexivity).
  assert (E1 : m.1 = Sample.worker) by (vm_compute; reflexivity).
  assert (Hnd : NoDup (dict_keys Sample.paths)).
  { apply NoDup_cons. split; [| apply NoDup_singleton].
    intros H. apply list_elem_of_singleton in H. discriminate H. }
  destruct (child_names_distinct env _ _ _ _ _ _ Hnd E) as (cs & Hcs & Hno & _).
  eexists. split; [exact (eq_trans E (f_equal (fun x => (x, _)) E1)) |].
  rewrite Hcs. exact Hno.
Defined.

(** *** Building resources and factories *)

(** X16: Building a Web resource, whatever the configuration and however it
    ends, leaves the registries, the index, the routers, the connection pool,
    the clock and the requested ports as they were: it only adds sessions to
    the routing-session factory and starts thread pools. The same holds of a
    [start_router_transport] that raises: nothing is registered and no port is
    requested, but the sessions and thread pools of the resources built
    before the failure stay. *)
Theorem building_resources_is_calm (env : Env) :
  (forall depth path_config nested w w' r,
     _create_resource env depth path_config nested w = (w', r) -> calm w w') /\
  (forall id config w w' e,
     start_router_transport env id config w = (w', Raise e) -> calm w w').
Proof.
  split.
  - intros depth pc nested w w' r H. eapply _create_resource_calm, H.
  - intros id config w w' e. unfold start_router_transport, dict_item. run.
    destruct (transports w !! id); [intros [= <- _]; apply calm_refl |].
    destruct (check_router_transport env config); [intros [= <- _]; apply calm_refl |].
    destruct (choose_factory env config w) as [w0 [f | e']] eqn:Hf.
    + pose proof (choose_factory_calm env config _ _ _ Hf) as Hq.
      destruct (dict_lookup config "endpoint"); simpl; [discriminate |].
      now intros [= <- _].
    + intros [= <- _]. eapply choose_factory_calm, Hf.
Qed.

Lemma building_resources_is_calm_witness :
  let env := Sample.env Python2 in
  exists w' e,
    start_router_transport env "t1" Sample.web_unknown Sample.worker = (w', Raise e) /\
    transports w' = transports Sample.worker /\
    listening w' = listening Sample.worker.
Proof.
  intros env.
  set (r := start_router_transport env "t1" Sample.web_unknown Sample.worker).
  assert (E : r = (r.1, Raise invalid_configuration)) by (vm_compute; reflexivity).
  destruct (proj2 (building_resources_is_calm env) _ _ _ _ _ E)
    as ((_ & _ & _ & Ht & _ & _ & _ & Hl) & _).
  exists r.1, invalid_configuration. auto.
Defined.

(** X17: The five kinds of transport that stand alone: the id free, the
    configuration accepted and an endpoint given, [start_router_transport]
    asks for one listening port on the endpoint with the factory of the kind,
    and changes nothing else (no session is added); the transport is
    registered by the callback of the port. A type that is none of the six
    known, the checker having let it pass, raises the bare exception
    "logic error". *)
Theorem standalone_transport_started
    (env : Env) (w : Worker) (id : string) (config : Dict) (type : string)
    (endpoint : Config) :
  transports w !! id = None ->
  check_router_transport env config = None ->
  dict_lookup config "type" = Some (CStr type) ->
  dict_lookup config "endpoint" = Some endpoint ->
  (forall factory,
     (type = "rawsocket" /\ factory = WampRawSocketServerFactory config) \/
     (type = "websocket" /\ factory = WampWebSocketServerFactory config) \/
     (type = "flashpolicy" /\
      factory = FlashPolicyFactory (dict_get config "allowed_domain" CNone)
                  (dict_get config "allowed_ports" CNone)) \/
     (type = "websocket.testee" /\ factory = WebSocketTesteeServerFactory config) \/
     (type = "stream.testee" /\ factory = StreamTesteeServerFactory) ->
     start_router_transport env id config w
     = (set_listening (fun l => l ++ [(endpoint, factory)]) w,
        Ok (listening_callbacks id config factory))) /\
  (type ∉ ["rawsocket"; "websocket"; "flashpolicy"; "websocket.testee";
           "stream.testee"; "web"] ->
   start_router_transport env id config w = (w, Raise (Exception "logic error"))).
Proof.
  intros Hid Hck Hty Hep. split.
  - intros factory H.
    unfold start_router_transport, choose_factory, dict_item. run.
    rewrite Hid, Hck, Hty. simpl.
    destruct H as [[-> ->] | [[-> ->] | [[-> ->] | [[-> ->] | [-> ->]]]]];
      simpl; rewrite Hep; reflexivity.
  - intros Hno.
    unfold start_router_transport, choose_factory, dict_item. run.
    rewrite Hid, Hck, Hty. simpl.
    repeat match goal with
           | |- context [String.eqb type ?s] =>
               destruct (String.eqb_spec type s) as [-> | _];
               [exfalso; apply Hno; set_solver |]
           end.
    reflexivity.
Qed.

Lemma standalone_transport_started_witness :
  let env := Sample.env Python2 in
  let config := [("type", CStr "rawsocket"); ("endpoint", Sample.endpoint)] in
  start_router_transport env "raw" config Sample.worker
  = (set_listening (fun l => l ++ [(Sample.endpoint, WampRawSocketServerFactory config)])
       Sample.worker,
     Ok (listening_callbacks "raw" config (WampRawSocketServerFactory config))) /\
  start_router_transport env "x"
    [("type", CStr "smtp"); ("endpoint", Sample.endpoint)] Sample.worker
  = (Sample.worker, Raise (Exception "logic error")).
Proof.
  intros env config. split.
  - apply (proj1 (standalone_transport_started env Sample.worker "raw" config
                    "rawsocket" Sample.endpoint eq_refl eq_refl eq_refl eq_refl)).
    left. split; reflexivity.
  - apply (proj2 (standalone_transport_started env Sample.worker "x"
                    [("type", CStr "smtp"); ("endpoint", Sample.endpoint)]
                    "smtp" Sample.endpoint eq_refl eq_refl eq_refl eq_refl)).
    rewrite !elem_of_cons, elem_of_nil. intros H.
    repeat (destruct H as [H | H]; [discriminate H |]). exact H.
Defined.

Lemma bind_Ok {A B} (m : M A) (k : A -> M B) w w' b :
  bind m k w = (w', Ok b) ->
  exists w0 a, m w = (w0, Ok a) /\ k a w0 = (w', Ok b).
Proof.
  unfold bind. destruct (m w) as [w0 [a | e]]; [eauto | discriminate].
Qed.

Lemma lift_Ok {A} (x : Result A) w w' a : lift x w = (w', Ok a) -> w' = w /\ x = Ok a.
Proof. now intros [= <- ->]. Qed.

(** How [create_site] ends when it gives a factory. *)
Lemma create_site_inv env config w w' f :
  create_site env config w = (w', Ok f) ->
  exists options root hsts,
    as_dict (dict_get config "options" (CDict [])) = Ok options /\
    f = Site root (truthy (dict_get options "access_log" (CBool false)))
          (dict_get options "display_tracebacks" (CBool false)) hsts /\
    if truthy (dict_get options "hsts" (CBool false)) then
      exists endpoint tls,
        dict_lookup config "endpoint" = Some endpoint /\
        py_in "tls" endpoint = Ok tls /\
        if tls then
          exists age,
            py_int env (dict_get options "hsts_max_age" (CInt 31536000)) = Ok age /\
            hsts = Some age
        else hsts = None
    else hsts = None.
Proof.
  unfold create_site. intros H.
  apply bind_Ok in H as (w1 & paths & _ & H).
  apply bind_Ok in H as (w2 & has_root & _ & H).
  apply bind_Ok in H as (w3 & root0 & _ & H).
  apply bind_Ok in H as (w4 & paths' & _ & H).
  apply bind_Ok in H as (w5 & root & _ & H).
  apply bind_Ok in H as (w6 & options & Ho & H).
  apply lift_Ok in Ho as [-> Ho].
  exists options, root. rewrite Ho.
  destruct (truthy (dict_get options "hsts" (CBool false))).
  - apply bind_Ok in H as (w7 & endpoint & He & H).
    apply lift_Ok in He as [-> He].
    apply bind_Ok in H as (w8 & tls & Ht & H).
    apply lift_Ok in Ht as [-> Ht].
    unfold dict_item in He.
    destruct (dict_lookup config "endpoint") as [ep |] eqn:Hep; [| discriminate].
    injection He as ->.
    destruct tls.
    + apply bind_Ok in H as (w9 & age & Ha & H).
      apply lift_Ok in Ha as [-> Ha]. injection H as <- <-.
      eexists. split; [reflexivity |]. split; [reflexivity |].
      exists endpoint, true. split; [reflexivity |]. split; [exact Ht |]. eauto.
    + injection H as <- <-.
      eexists. split; [reflexivity |]. split; [reflexivity |].
      exists endpoint, false. auto.
  - injection H as <- <-. eexists. split; [reflexivity |]. split; reflexivity.
Qed.

(** X18: The options of a Web transport, the id free and the configuration
    accepted. The paths are read before anything is built: without [paths]
    the call raises [KeyError] and nothing has changed. When the call gets as
    far as asking for the port, the factory handed over is a site whose
    access log and traceback settings are those of the options (both off by
    default), and which sends the HSTS header exactly when the option [hsts]
    is set and the endpoint has a [tls] part; on an endpoint without TLS the
    option is dropped and the transport starts all the same. The age sent is
    the integer value of [hsts_max_age], one year by default. *)
Theorem web_transport_options
    (env : Env) (w : Worker) (id : string) (config : Dict) :
  dict_lookup config "type" = Some (CStr "web") ->
  transports w !! id = None ->
  check_router_transport env config = None ->
  (dict_lookup config "paths" = None ->
   start_router_transport env id config w = (w, Raise (KeyError "paths"))) /\
  (forall w1 k,
     start_router_transport env id config w = (w1, Ok k) ->
     exists options endpoint root hsts,
       as_dict (dict_get config "options" (CDict [])) = Ok options /\
       dict_lookup config "endpoint" = Some endpoint /\
       last (listening w1)
       = Some (endpoint,
               Site root (truthy (dict_get options "access_log" (CBool false)))
                 (dict_get options "display_tracebacks" (CBool false)) hsts) /\
       (is_Some hsts <->
        truthy (dict_get options "hsts" (CBool false)) = true /\
        py_in "tls" endpoint = Ok true) /\
       (forall age,
          hsts = Some age ->
          py_int env (dict_get options "hsts_max_age" (CInt 31536000)) = Ok age) /\
       (dict_lookup options "hsts_max_age" = None -> is_Some hsts ->
        hsts = Some 31536000)).
Proof.
  intros Hweb Hid Hck. split.
  - intros Hpaths. unfold start_router_transport. run. rewrite Hid, Hck.
    rewrite (choose_factory_web env config Hweb).
    unfold create_site, dict_item. run. rewrite Hpaths. reflexivity.
  - intros w1 k H.
    apply start_router_transport_inv in H
      as (_ & _ & w0 & f & endpoint & Hf & _ & Hep & -> & _).
    rewrite (choose_factory_web env config Hweb) in Hf.
    apply create_site_inv in Hf as (options & root & hsts & Ho & -> & Hh).
    exists options, endpoint, root, hsts.
    split; [exact Ho |]. split; [exact Hep |].
    split; [simpl; apply last_snoc |].
    destruct (truthy (dict_get options "hsts" (CBool false))).
    + destruct Hh as (ep & tls & Hep' & Htls & Hh).
      assert (ep = endpoint) as -> by congruence.
      destruct tls.
      * destruct Hh as (age & Hage & ->).
        split; [split; [auto | eauto] |].
        split; [now intros age' [= <-] |].
        intros Hdef _. unfold dict_get in Hage. rewrite Hdef in Hage.
        simpl in Hage. congruence.
      * subst hsts. split.
        { split; [intros [? ?]; discriminate | intros [_ ?]; congruence]. }
        split; [discriminate |]. intros _ [? ?]. discriminate.
    + subst hsts. split.
      { split; [intros [? ?]; discriminate | intros [? _]; discriminate]. }
      split; [discriminate |]. intros _ [? ?]. discriminate.
Qed.

Lemma web_transport_options_witness :
  let env := Sample.env Python2 in
  start_router_transport env "t1" [("type", CStr "web"); ("endpoint", Sample.endpoint)]
    Sample.worker
  = (Sample.worker, Raise (KeyError "paths")) /\
  exists w1 k root,
    start_router_transport env "t2" Sample.web_tls Sample.worker = (w1, Ok k) /\
    last (listening w1)
    = Some (Sample.endpoint_tls, Site root false (CBool false) (Some 31536000)).
Proof.
  intros env. split.
  - exact (proj1 (web_transport_options env Sample.worker "t1"
                    [("type", CStr "web"); ("endpoint", Sample.endpoint)]
                    eq_refl eq_refl eq_refl) eq_refl).
  - set (r := start_router_transport env "t2" Sample.web_tls Sample.worker).
    assert (E : r = (r.1, Ok (continuation r.2))) by (vm_compute; reflexivity).
    destruct (proj2 (web_transport_options env Sample.worker "t2" Sample.web_tls
                       eq_refl eq_refl eq_refl) _ _ E)
      as (options & endpoint & root & hsts & Ho & Hep & Hl & Hiff & _ & Hdef).
    injection Ho as <-. injection Hep as <-.
    assert (Hh : hsts = Some 31536000).
    { apply Hdef; [reflexivity |]. apply Hiff. split; reflexivity. }
    subst hsts. exists r.1, (continuation r.2), root. split; [exact E | exact Hl].
Defined.

(** *** The kinds of Web resource *)

Ltac dispatch H :=
  simpl; unfold dict_item; run; rewrite H; simpl.

(** X19: A WSGI resource. Without WSGI support the path is refused with
    Invalid-Configuration. With it, the module imported and the application
    object looked up by name: an object that the module does not have is
    refused with Invalid-Configuration and nothing has changed; otherwise a
    thread pool is started with the sizes of the configuration (20 and 0 by
    default) before the resource is made, and it stays started when making
    the resource fails with Invalid-Configuration. The resource is wrapped as
    a root resource exactly when the path is not nested. *)
Theorem wsgi_resource_thread_pool
    (env : Env) (depth : nat) (path_config : Dict) (nested : bool) (w : Worker) :
  dict_lookup path_config "type" = Some (CStr "wsgi") ->
  (_HAS_WSGI env = false ->
   _create_resource env (S depth) (CDict path_config) nested w
   = (w, Raise invalid_configuration)) /\
  (forall mod_name obj names,
     _HAS_WSGI env = true ->
     dict_lookup path_config "module" = Some mod_name ->
     dict_lookup path_config "object" = Some (CStr obj) ->
     import_module env mod_name = Ok names ->
     (obj ∉ names ->
      _create_resource env (S depth) (CDict path_config) nested w
      = (w, Raise invalid_configuration)) /\
     (obj ∈ names ->
      _create_resource env (S depth) (CDict path_config) nested w
      = (set_thread_pools
           (fun l => l ++ [(dict_get path_config "maxthreads" (CInt 20),
                            dict_get path_config "minthreads" (CInt 0))]) w,
         match make_wsgi_resource env mod_name (CStr obj) (negb nested) with
         | Some _ => Raise invalid_configuration
         | None => Ok (leaf (WSGIResource (negb nested) mod_name (CStr obj)))
         end))).
Proof.
  intros Hty. split.
  - intros Hno. dispatch Hty. unfold create_wsgi. now rewrite Hno.
  - intros mod_name obj names Hyes Hmod Hobj Himp. split; intros Hin.
    + dispatch Hty. unfold create_wsgi, dict_has, dict_item. run.
      rewrite Hyes, Hmod, Hobj. simpl. rewrite Himp. simpl.
      now rewrite bool_decide_eq_false_2.
    + dispatch Hty. unfold create_wsgi, dict_has, dict_item. run.
      rewrite Hyes, Hmod, Hobj. simpl. rewrite Himp. simpl.
      rewrite bool_decide_eq_true_2 by exact Hin. simpl.
      now destruct (make_wsgi_resource env mod_name (CStr obj) (negb nested)).
Qed.

(** X20: Two misconfigurations that surface as a [NameError] of the interpreter
    and not as a fault of the management API. A CGI path on an installation
    without CGI support: the class [CgiDirectory] was not imported. A path of
    type [resource] without [classname]: the handler of the failure itself
    fails, on the name [klassname] that was never bound. With a [classname],
    every failure to import or to make the class is
    [crossbar.error.class_import_failed]. The worker is not changed. *)
Theorem misconfiguration_as_name_error
    (env : Env) (depth : nat) (path_config : Dict) (nested : bool) (w : Worker) :
  (dict_lookup path_config "type" = Some (CStr "cgi") ->
   _HAS_CGI env = false ->
   is_Some (dict_lookup path_config "processor") ->
   (exists d, dict_lookup path_config "directory" = Some (CStr d)) ->
   _create_resource env (S depth) (CDict path_config) nested w
   = (w, Raise (NameError "CgiDirectory"))) /\
  (dict_lookup path_config "type" = Some (CStr "resource") ->
   (dict_lookup path_config "classname" = None ->
    _create_resource env (S depth) (CDict path_config) nested w
    = (w, Raise (NameError "klassname"))) /\
   (forall klassname,
      dict_lookup path_config "classname" = Some klassname ->
      _create_resource env (S depth) (CDict path_config) nested w
      = (w, if make_custom_resource env klassname
                 (dict_get path_config "extra" (CDict []))
            then Ok (leaf (CustomResource klassname
                             (dict_get path_config "extra" (CDict []))))
            else Raise class_import_failed))).
Proof.
  split.
  - intros Hty Hno [p Hp] [d Hd]. dispatch Hty.
    unfold create_cgi, dict_item, cbdir_path. run.
    rewrite Hp, Hd. simpl. now rewrite Hno.
  - intros Hty. split.
    + intros Hc. dispatch Hty. unfold create_custom. now rewrite Hc.
    + intros k Hc. dispatch Hty. unfold create_custom. rewrite Hc.
      now destruct (make_custom_resource env k _).
Qed.

(** X21: The source of a static resource. A [directory] wins over a [package]:
    the directory served is the directory of the configuration, taken from
    the node directory, made absolute and stripped of its characters outside
    ASCII, whatever [package] says; listing is off and the cache timeout is
    twelve hours unless the options say otherwise. Without [directory], a
    configuration with neither [package], or with [package] but no
    [resource], is refused with Invalid-Configuration. The worker is not
    changed. *)
Theorem static_resource_source
    (env : Env) (depth : nat) (path_config : Dict) (nested : bool) (w : Worker) :
  dict_lookup path_config "type" = Some (CStr "static") ->
  (forall d options,
     dict_lookup path_config "directory" = Some (CStr d) ->
     as_dict (dict_get path_config "options" (CDict [])) = Ok options ->
     _create_resource env (S depth) (CDict path_config) nested w
     = (w, Ok (leaf (StaticResource
                       (truthy (dict_get options "enable_directory_listing" (CBool false)))
                       (encode_ascii_ignore
                          (abspath env (path_join env (cbdir env) d)))
                       (dict_get options "cache_timeout" (CInt (12 * 60 * 60)))
                       (dict_lookup options "mime_types"))))) /\
  (dict_lookup path_config "directory" = None ->
   dict_lookup path_config "package" = None \/
   dict_lookup path_config "resource" = None ->
   _create_resource env (S depth) (CDict path_config) nested w
   = (w, Raise invalid_configuration)).
Proof.
  intros Hty. split.
  - intros d options Hd Ho. dispatch Hty.
    unfold create_static, dict_has, dict_item, cbdir_path. run.
    rewrite Hd. simpl. rewrite Ho. reflexivity.
  - intros Hd Hor. dispatch Hty.
    unfold create_static, dict_has, dict_item. run. rewrite Hd.
    destruct (dict_lookup path_config "package") as [p |] eqn:Hp; [| reflexivity].
    destruct Hor as [? | Hr]; [discriminate |]. now rewrite Hr.
Qed.

(** X22: The resources of the REST bridge. A publisher, a webhook or a caller
    gets a session of its own: one plain application session on the realm of
    the path is added to the routing-session factory, under the role of the
    path or [anonymous], and the resource is made with this session and the
    options of the path. Without [realm] the path raises [KeyError] and no
    session is added. *)
Theorem rest_resource_session
    (env : Env) (depth : nat) (path_config : Dict) (nested : bool) (w : Worker)
    (type : string) :
  dict_lookup path_config "type" = Some (CStr type) ->
  type = "publisher" \/ type = "webhook" \/ type = "caller" ->
  (dict_lookup path_config "realm" = None ->
   _create_resource env (S depth) (CDict path_config) nested w
   = (w, Raise (KeyError "realm"))) /\
  (forall realm,
     dict_lookup path_config "realm" = Some realm ->
     exists make,
       _create_resource env (S depth) (CDict path_config) nested w
       = (set_router_session_factory
            (fun l => l ++ [(ApplicationSession realm,
                             dict_get path_config "role" (CStr "anonymous"))]) w,
          Ok (leaf (make (dict_get path_config "options" (CDict []))
                      (ApplicationSession realm)))) /\
       (type = "publisher" -> make = PublisherResource) /\
       (type = "webhook" -> make = WebhookResource) /\
       (type = "caller" -> make = CallerResource)).
Proof.
  intros Hty Hor. split.
  - intros Hr. dispatch Hty.
    destruct Hor as [-> | [-> | ->]]; simpl;
      unfold create_publisher, create_webhook, create_caller, vanilla_session, dict_item;
      run; now rewrite Hr.
  - intros realm Hr.
    destruct Hor as [-> | [-> | ->]];
      [exists PublisherResource | exists WebhookResource | exists CallerResource];
      (split; [| repeat split; intros; (reflexivity || discriminate)]);
      dispatch Hty;
      unfold create_publisher, create_webhook, create_caller, vanilla_session, dict_item;
      run; now rewrite Hr.
Qed.

Lemma wsgi_resource_thread_pool_witness :
  "broken" ∈ ["application"; "broken"] /\
  _create_resource Sample.app_env 1 (CDict Sample.wsgi_broken) true Sample.worker
  = (set_thread_pools (fun l => l ++ [(CInt 20, CInt 0)]) Sample.worker,
     Raise invalid_configuration).
Proof.
  assert (Hin : "broken" ∈ ["application"; "broken"]) by (right; left).
  split; [exact Hin |].
  exact (proj2 (proj2 (wsgi_resource_thread_pool Sample.app_env 0 Sample.wsgi_broken
                         true Sample.worker eq_refl)
                  (CStr "app") "broken" ["application"; "broken"]
                  eq_refl eq_refl eq_refl eq_refl) Hin).
Defined.

Lemma misconfiguration_as_name_error_witness :
  _create_resource Sample.app_env 1
    (CDict [("type", CStr "cgi"); ("processor", CStr "/usr/bin/php"); ("directory", CStr "cgi")])
    true Sample.worker
  = (Sample.worker, Raise (NameError "CgiDirectory")) /\
  _create_resource Sample.app_env 1 (CDict [("type", CStr "resource")]) true Sample.worker
  = (Sample.worker, Raise (NameError "klassname")).
Proof.
  split.
  - exact (proj1 (misconfiguration_as_name_error Sample.app_env 0
                    [("type", CStr "cgi"); ("processor", CStr "/usr/bin/php");
                     ("directory", CStr "cgi")] true Sample.worker)
             eq_refl eq_refl (ex_intro _ _ eq_refl) (ex_intro _ "cgi" eq_refl)).
  - exact (proj1 (proj2 (misconfiguration_as_name_error Sample.app_env 0
                           [("type", CStr "resource")] true Sample.worker) eq_refl)
             eq_refl).
Defined.

Lemma static_resource_source_witness :
  let env := Sample.env Python2 in
  _create_resource env 1
    (CDict [("type", CStr "static"); ("directory", CStr "web"); ("package", CStr "app")])
    true Sample.worker
  = (Sample.worker,
     Ok (leaf (StaticResource false (encode_ascii_ignore "/node/web") (CInt 43200) None))) /\
  _create_resource env 1 (CDict [("type", CStr "static"); ("package", CStr "app")])
    true Sample.worker
  = (Sample.worker, Raise invalid_configuration).
Proof.
  intros env. split.
  - exact (proj1 (static_resource_source env 0
                    [("type", CStr "static"); ("directory", CStr "web");
                     ("package", CStr "app")] true Sample.worker eq_refl)
             "web" [] eq_refl eq_refl).
  - exact (proj2 (static_resource_source env 0
                    [("type", CStr "static"); ("package", CStr "app")]
                    true Sample.worker eq_refl)
             eq_refl (or_intror eq_refl)).
Defined.

Lemma rest_resource_session_witness :
  let env := Sample.env Python2 in
  _create_resource env 1 (CDict Sample.publisher1) true Sample.worker
  = (set_router_session_factory
       (fun l => l ++ [(ApplicationSession (CStr "realm1"), CStr "frontend")])
       Sample.worker,
     Ok (leaf (PublisherResource (CDict []) (ApplicationSession (CStr "realm1"))))).
Proof.
  intros env.
  destruct (proj2 (rest_resource_session env 0 Sample.publisher1 true Sample.worker
                     "publisher" eq_refl (or_introl eq_refl))
              (CStr "realm1") eq_refl) as (make & H & Hp & _).
  rewrite (Hp eq_refl) in H. exact H.
Defined.

(** X23: The directories of an upload resource are checked before anything is
    added to the router. The upload directory, taken from the node
    directory, must be a directory, and so must the temporary directory when
    one is configured: otherwise the path is refused with
    Invalid-Configuration. Without a configured temporary directory the
    directory [crossbar-uploads] of the system's temporary directory is used,
    and created when it does not exist; the failure to create it is raised
    as it is. In all these cases the worker is not changed. With the
    directories in place, one application session on the realm of the path
    is added, under the role of the path or [anonymous], and the resource is
    made with it. *)
Theorem upload_resource_directories
    (env : Env) (depth : nat) (path_config : Dict) (nested : bool) (w : Worker)
    (d : string) :
  dict_lookup path_config "type" = Some (CStr "upload") ->
  dict_lookup path_config "directory" = Some (CStr d) ->
  let upload_directory :=
    encode_ascii_ignore (abspath env (path_join env (cbdir env) d)) in
  let default_temp := path_join env (abspath env (gettempdir env)) "crossbar-uploads" in
  (isdir env (inl upload_directory) = false ->
   _create_resource env (S depth) (CDict path_config) nested w
   = (w, Raise invalid_configuration)) /\
  (isdir env (inl upload_directory) = true ->
   (forall t,
      dict_lookup path_config "temp_directory" = Some (CStr t) ->
      isdir env (inl (encode_ascii_ignore
                        (abspath env (path_join env (cbdir env) t)))) = false ->
      _create_resource env (S depth) (CDict path_config) nested w
      = (w, Raise invalid_configuration)) /\
   (forall e,
      dict_lookup path_config "temp_directory" = None ->
      path_exists env default_temp = false ->
      makedirs env default_temp = Some e ->
      _create_resource env (S depth) (CDict path_config) nested w = (w, Raise e)) /\
   (dict_lookup path_config "temp_directory" = None ->
    path_exists env default_temp = true ->
    isdir env (inr default_temp) = false ->
    _create_resource env (S depth) (CDict path_config) nested w
    = (w, Raise invalid_configuration)) /\
   (forall realm form_fields,
      dict_lookup path_config "temp_directory" = None ->
      (path_exists env default_temp = true /\ isdir env (inr default_temp) = true) \/
      (path_exists env default_temp = false /\ makedirs env default_temp = None) ->
      dict_lookup path_config "realm" = Some realm ->
      dict_lookup path_config "form_fields" = Some form_fields ->
      _create_resource env (S depth) (CDict path_config) nested w
      = (set_router_session_factory
           (fun l => l ++ [(ApplicationSession realm,
                            dict_get path_config "role" (CStr "anonymous"))]) w,
         Ok (leaf (FileUploadResource upload_directory (inr default_temp) form_fields
                     (ApplicationSession realm)
                     (dict_get path_config "options" (CDict []))))))).
Proof.
  intros Hty Hd upload_directory default_temp.
  assert (E : _create_resource env (S depth) (CDict path_config) nested w
              = create_upload env path_config w).
  { dispatch Hty. reflexivity. }
  rewrite E. clear E.
  unfold create_upload, dict_has, dict_item, cbdir_path, vanilla_session. run.
  rewrite Hd. simpl. fold upload_directory.
  split.
  - intros Hno. now rewrite Hno.
  - intros Hyes. rewrite Hyes. simpl. split; [| split; [| split]].
    + intros t Ht Hno. rewrite Ht. simpl. now rewrite Hno.
    + intros e Ht Hex Hmk. rewrite Ht. fold default_temp. now rewrite Hex, Hmk.
    + intros Ht Hex Hno. rewrite Ht. fold default_temp. rewrite Hex. simpl.
      now rewrite Hno.
    + intros realm ff Ht Hor Hr Hff. rewrite Ht. fold default_temp.
      destruct Hor as [[Hex Hdir] | [Hex Hmk]].
      * rewrite Hex. simpl. rewrite Hdir. simpl.
        unfold dict_item. now rewrite Hr, Hff.
      * rewrite Hex, Hmk. simpl. unfold dict_item. now rewrite Hr, Hff.
Qed.

Lemma upload_resource_directories_witness :
  _create_resource Sample.app_env 1
    (CDict [("type", CStr "upload"); ("directory", CStr "uploads")]) true Sample.worker
  = (Sample.worker, Raise invalid_configuration) /\
  exists w1 r,
    _create_resource (Sample.env Python2) 1
      (CDict [("type", CStr "upload"); ("directory", CStr "uploads");
              ("realm", CStr "realm1"); ("form_fields", CDict [])]) true Sample.worker
    = (w1, Ok r) /\
    _router_session_factory w1 = [(ApplicationSession (CStr "realm1"), CStr "anonymous")].
Proof.
  split.
  - exact (proj1 (upload_resource_directories Sample.app_env 0
                    [("type", CStr "upload"); ("directory", CStr "uploads")]
                    true Sample.worker "uploads" eq_refl eq_refl) eq_refl).
  - eexists _, _. split.
    + exact (proj2 (proj2 (proj2 (proj2
               (upload_resource_directories (Sample.env Python2) 0
                  [("type", CStr "upload"); ("directory", CStr "uploads");
                   ("realm", CStr "realm1"); ("form_fields", CDict [])]
                  true Sample.worker "uploads" eq_refl eq_refl) eq_refl)))
               (CStr "realm1") (CDict []) eq_refl (or_introl (conj eq_refl eq_refl))
               eq_refl eq_refl).
    + reflexivity.
Defined.

(** *** Two starts of one transport *)



(** *** Missing keys *)

(** X25: What a path configuration that lacks a key, or is no dictionary, raises:
    not a fault of the management API but the [TypeError] or [KeyError] of
    the interpreter. A path that is no dictionary raises [TypeError]; a path
    without [type], a redirect without [url], a JSON value without [value], a
    CGI path without [processor] raise [KeyError] and nothing has changed. An
    upload path without [form_fields], its directories in place and its realm
    given, raises [KeyError] after its session has been added to the
    routing-session factory, where it stays. *)
Theorem missing_key_is_key_error
    (env : Env) (depth : nat) (path_config : Dict) (nested : bool) (w : Worker) :
  (forall c,
     (forall d, c <> CDict d) ->
     _create_resource env (S depth) c nested w = (w, Raise TypeError)) /\
  (dict_lookup path_config "type" = None ->
   _create_resource env (S depth) (CDict path_config) nested w
   = (w, Raise (KeyError "type"))) /\
  (forall type key,
     dict_lookup path_config "type" = Some (CStr type) ->
     (type = "redirect" /\ key = "url") \/
     (type = "json" /\ key = "value") \/
     (type = "cgi" /\ key = "processor") ->
     dict_lookup path_config key = None ->
     _create_resource env (S depth) (CDict path_config) nested w
     = (w, Raise (KeyError key))) /\
  (forall d t realm,
     dict_lookup path_config "type" = Some (CStr "upload") ->
     dict_lookup path_config "directory" = Some (CStr d) ->
     dict_lookup path_config "temp_directory" = Some (CStr t) ->
     isdir env (inl (encode_ascii_ignore
                       (abspath env (path_join env (cbdir env) d)))) = true ->
     isdir env (inl (encode_ascii_ignore
                       (abspath env (path_join env (cbdir env) t)))) = true ->
     dict_lookup path_config "realm" = Some realm ->
     dict_lookup path_config "form_fields" = None ->
     _create_resource env (S depth) (CDict path_config) nested w
     = (set_router_session_factory
          (fun l => l ++ [(ApplicationSession realm,
                           dict_get path_config "role" (CStr "anonymous"))]) w,
        Raise (KeyError "form_fields"))).
Proof.
  split; [| split; [| split]].
  - intros c Hc. destruct c; try reflexivity. now destruct (Hc d).
  - intros Hty. simpl. unfold dict_item. run. now rewrite Hty.
  - intros type key Hty [[-> ->] | [[-> ->] | [-> ->]]] Hk; dispatch Hty;
      unfold create_redirect, create_json, create_cgi, dict_item; run; now rewrite Hk.
  - intros d t realm Hty Hd Ht Hdir Htmp Hr Hff. dispatch Hty.
    unfold create_upload, dict_has, dict_item, cbdir_path, vanilla_session. run.
    rewrite Hd. simpl. rewrite Hdir. simpl. rewrite Ht. simpl. rewrite Htmp. simpl.
    unfold dict_item. now rewrite Hr, Hff.
Qed.

Lemma missing_key_is_key_error_witness :
  let env := Sample.env Python2 in
  _create_resource env 1 (CList []) true Sample.worker = (Sample.worker, Raise TypeError) /\
  _create_resource env 1 (CDict [("type", CStr "redirect")]) true Sample.worker
  = (Sample.worker, Raise (KeyError "url")) /\
  _create_resource env 1
    (CDict [("type", CStr "upload"); ("directory", CStr "up"); ("temp_directory", CStr "tmp");
            ("realm", CStr "realm1")]) true Sample.worker
  = (set_router_session_factory
       (fun l => l ++ [(ApplicationSession (CStr "realm1"), CStr "anonymous")])
       Sample.worker,
     Raise (KeyError "form_fields")).
Proof.
  intros env.
  split; [| split].
  - apply (proj1 (missing_key_is_key_error env 0 [] true Sample.worker)).
    intros d H. discriminate H.
  - exact (proj1 (proj2 (proj2 (missing_key_is_key_error env 0
                                  [("type", CStr "redirect")] true Sample.worker)))
             "redirect" "url" eq_refl (or_introl (conj eq_refl eq_refl)) eq_refl).
  - exact (proj2 (proj2 (proj2 (missing_key_is_key_error env 0
                                  [("type", CStr "upload"); ("directory", CStr "up");
                                   ("temp_directory", CStr "tmp"); ("realm", CStr "realm1")]
                                  true Sample.worker)))
             "up" "tmp" (CStr "realm1") eq_refl eq_refl eq_refl eq_refl eq_refl
             eq_refl eq_refl).
Defined.

(** *** Containers of paths *)

(** X26: A path of type [path]. Without [paths] it is an empty "not found"
    resource. With paths, the container is the resource of its own root path
    when it has one, made as a nested resource, and a "not found" resource
    otherwise; under it come the children that [_add_paths] makes of the
    paths, each made as a nested resource, under the UTF-8 encoding of its
    key. *)
Theorem path_container
    (env : Env) (depth : nat) (path_config : Dict) (nested : bool) (w : Worker) :
  dict_lookup path_config "type" = Some (CStr "path") ->
  (dict_lookup path_config "paths" = None ->
   _create_resource env (S depth) (CDict path_config) nested w
   = (w, Ok (leaf (Resource404 [])))) /\
  (forall paths w' r,
     dict_lookup path_config "paths" = Some (CDict paths) ->
     _create_resource env (S depth) (CDict path_config) nested w = (w', Ok r) ->
     exists w0 root cs,
       match dict_lookup paths "/" with
       | Some root_config => _create_resource env depth root_config true w = (w0, Ok root)
       | None => w0 = w /\ root = leaf (Resource404 [])
       end /\
       _add_paths env (fun c => _create_resource env depth c true) root paths w0
       = (w', Ok r) /\
       kind r = kind root /\
       children r = children root ++ cs /\
       cs.*1 = encode_utf8 <$> attached (python env) paths).
Proof.
  intros Hty. split.
  - intros Hp. dispatch Hty. unfold dict_get. rewrite Hp. reflexivity.
  - intros paths w' r Hp.
    assert (E : _create_resource env (S depth) (CDict path_config) nested w
                = bind (if dict_has paths "/"
                        then bind (lift (dict_item paths "/"))
                               (fun root_config => _create_resource env depth root_config true)
                        else ret (leaf (Resource404 [])))
                    (fun nested_resource =>
                       _add_paths env (fun c => _create_resource env depth c true)
                         nested_resource paths) w).
    { dispatch Hty. unfold dict_get. rewrite Hp. simpl.
      destruct (dict_has paths "/"); reflexivity. }
    rewrite E. clear E. intros H.
    apply bind_Ok in H as (w0 & root & Hroot & Hadd).
    exists w0, root.
    destruct (_add_paths_children env _ _ _ _ _ _ Hadd) as (Hk & cs & Hcs & Hnames).
    exists cs. split; [| auto].
    unfold dict_has, dict_item in Hroot.
    destruct (dict_lookup paths "/") as [root_config |].
    + apply bind_Ok in Hroot as (w00 & rc & Hl & Hroot).
      apply lift_Ok in Hl as [-> [= <-]]. exact Hroot.
    + now injection Hroot as <- <-.
Qed.

Lemma path_container_witness :
  let env := Sample.env Python2 in
  _create_resource env 2 (CDict [("type", CStr "path")]) true Sample.worker
  = (Sample.worker, Ok (leaf (Resource404 []))) /\
  exists r cs,
    _create_resource env 2 (CDict [("type", CStr "path"); ("paths", CDict Sample.paths)])
      true Sample.worker
    = (Sample.worker, Ok r) /\
    kind r = JsonResource (CInt 1) /\
    children r = cs /\
    cs.*1 = [["w"%byte; "s"%byte]].
Proof.
  intros env. split.
  - exact (proj1 (path_container env 1 [("type", CStr "path")] true Sample.worker eq_refl)
             eq_refl).
  - set (m := _create_resource env 2
                (CDict [("type", CStr "path"); ("paths", CDict Sample.paths)])
                true Sample.worker).
    assert (E : m = (Sample.worker,
                     Ok (Res (JsonResource (CInt 1))
                           [(["w"%byte; "s"%byte],
                             leaf (WebSocketResource [("type", CStr "websocket")]))])))
      by (vm_compute; reflexivity).
    destruct (proj2 (path_container env 1
                       [("type", CStr "path"); ("paths", CDict Sample.paths)]
                       true Sample.worker eq_refl) Sample.paths _ _ eq_refl E)
      as (w0 & root & cs & _ & _ & Hk & _ & _).
    eexists _, _. split; [exact E |]. split; [| split; reflexivity].
    reflexivity.
Defined.

(** *** When a transport is listed *)

Lemma not_listed env w id :
  (forall k t, transports w !! k = Some t -> RouterTransport.id t = k) ->
  transports w !! id = None ->
  exists summaries,
    get_router_transports env w = (w, Ok summaries) /\
    CStr id ∉ (fun d => dict_get d "id" CNone) <$> summaries.
Proof.
  intros Hids Hid. eexists. split; [reflexivity |].
  rewrite <- list_fmap_compose.
  destruct (listed_ids (transports w) RouterTransport.id
              (sorted (fun c1 c2 => RouterTransport.created c1 <? RouterTransport.created c2)
                 (map_to_list (transports w)).*2) Hids (sorted_perm _ _)) as [P _].
  intros Hin.
  assert (Hin' : CStr id ∈ CStr <$> (map_to_list (transports w)).*1)
    by (rewrite <- P; exact Hin).
  apply list_elem_of_fmap in Hin' as (k & [= <-] & Hk).
  apply list_elem_of_fmap in Hk as ([k t] & -> & Hkt).
  apply elem_of_map_to_list in Hkt. simpl in Hid. congruence.
Qed.

(** X27: A transport is in the list of transports from the moment its port
    listens to the moment its port has stopped, and not before nor after. In
    a process reached from [onJoin], a start that has asked for the port
    leaves the list without the id; when the port listens, the list holds the
    summary of the transport, with the time at which the port came up; when
    the port has stopped, the id is gone from the list. *)
Theorem transport_listed_while_listening
    (env : Env) (ps : Process) (id : string) (config : Dict) (w1 : Worker)
    (k : Awaiting unit) (port v : Value) :
  reachable env ps ->
  start_router_transport env id config (worker ps) = (w1, Ok k) ->
  exists l1 w2 l2 w3 l3,
    get_router_transports env w1 = (w1, Ok l1) /\
    (CStr id ∉ (fun d => dict_get d "id" CNone) <$> l1) /\
    k (Callback port) w1 = (w2, Ok tt) /\
    get_router_transports env w2 = (w2, Ok l2) /\
    [("id", CStr id); ("created", CStr (utcstr env (utcnow w1))); ("config", CDict config)]
    ∈ l2 /\
    stopped_callbacks id (Callback v) w2 = (w3, Ok tt) /\
    get_router_transports env w3 = (w3, Ok l3) /\
    CStr id ∉ (fun d => dict_get d "id" CNone) <$> l3.
Proof.
  intros Hreach H.
  apply reachable_ids_agree in Hreach as (_ & _ & Hids).
  apply start_router_transport_inv in H
    as (Hid & _ & w0 & f & ep & _ & Hq & _ & -> & ->).
  destruct Hq as (_ & _ & _ & Ht & _).
  set (w1 := set_listening (fun l => l ++ [(ep, f)]) w0).
  assert (Ht1 : transports w1 = transports (worker ps)) by exact Ht.
  set (t := RouterTransport.mk id config f port (utcnow w1)).
  set (w2 := set_transports <[id := t]> w1).
  set (w3 := set_transports (delete id) w2).
  assert (Ht3 : transports w3 = transports (worker ps)).
  { change (transports w3) with (delete id (<[id := t]> (transports w1))).
    rewrite Ht1. now apply delete_insert_id. }
  destruct (not_listed env w1 id) as (l1 & E1 & N1); [now rewrite Ht1 | now rewrite Ht1 |].
  destruct (not_listed env w3 id) as (l3 & E3 & N3); [now rewrite Ht3 | now rewrite Ht3 |].
  exists l1, w2. eexists. exists w3, l3.
  split; [exact E1 |]. split; [exact N1 |]. split; [reflexivity |].
  split; [reflexivity |]. split; [| split; [reflexivity | split; [exact E3 | exact N3]]].
  apply (list_elem_of_fmap_2
           (fun transport =>
              summary env (RouterTransport.id transport)
                (RouterTransport.created transport) (RouterTransport.config transport))
           _ t).
  rewrite sorted_perm.
  apply (list_elem_of_fmap_2 snd _ (id, t)). apply elem_of_map_to_list.
  apply lookup_insert_eq.
Qed.

Lemma transport_listed_while_listening_witness :
  let env := Sample.env Python2 in
  exists w1 k w2 l2,
    start_router_transport env "t1" Sample.web Sample.worker = (w1, Ok k) /\
    k (Callback (VPort 1%nat)) w1 = (w2, Ok tt) /\
    get_router_transports env w2 = (w2, Ok l2) /\
    [("id", CStr "t1"); ("created", CStr (utcstr env 0)); ("config", CDict Sample.web)]
    ∈ l2.
Proof.
  intros env.
  set (r := start_router_transport env "t1" Sample.web Sample.worker).
  assert (E : r = (r.1, Ok (continuation r.2))) by (vm_compute; reflexivity).
  assert (R : reachable env (mkProcess Sample.worker [])).
  { exists ∅, 0. constructor. }
  destruct (transport_listed_while_listening env _ "t1" Sample.web _ _
              (VPort 1%nat) VNone R E)
    as (l1 & w2 & l2 & w3 & l3 & _ & _ & H2 & E2 & Hin & _).
  exists r.1, (continuation r.2), w2, l2. auto.
Defined.
